(** * Sections through a space-time volume

    A shallow embedding of [deltametrics/section.py]: the section variables
    ([BaseSectionVariable], [DataSectionVariable],
    [StratigraphySectionVariable]) and the sections ([BaseSection],
    [PathSection], [StrikeSection], [DipSection], [RadialSection]).

    Python exceptions are outcomes of an error monad, [numpy] arrays are
    lists (one list per axis), and the arithmetic of array elements is an
    interface [Float64] with two instances: the real numbers, over which the
    numeric properties are proved, and the binary64 numbers of the kernel,
    on which the definitions run.  Index arrays hold whole numbers of an
    integer dtype, whose arithmetic wraps around.  The rendering method
    [show] is the list of the calls it makes on the drawing surface. *)

From Stdlib Require Import String ZArith Bool List Lia.
From Stdlib Require Import Reals Lra.
From Stdlib Require PrimFloat Uint63.
Import ListNotations.

Set Implicit Arguments.

(** ** Exceptions and outcomes *)

Inductive value_error : Type :=
| ExpectedSingleArgument        (* 'Expected single argument to %s instantiation.' *)
| BadStyleArgument (style : string)   (* 'Bad "style" argument: %s' *)
| ZeroSizeReduction             (* numpy: min or max of an array without elements *)
| OperandsNotBroadcast          (* numpy: operands could not be broadcast together *)
| ConcatenateDimensions         (* numpy: concatenate, dimensions do not match *)
| SparseDimensions.             (* scipy: coordinate arrays empty or of unequal length *)

Inductive attribute_error : Type :=
| NoPreservationInformation     (* 'No preservation information.' *)
| NoSpacetimeInformation        (* 'No "spacetime" or "preserved" information available.' *)
| NoCubeConnected               (* 'No cube connected. Are you sure you ran `.connect()`?' *)
| NoSuchAttribute (name : string).  (* Python: the object has no attribute [name] *)

Inductive type_error : Type :=
| ExpectedCubeSubclass          (* 'Expected type is subclass of ..., but received was ...' *)
| UnknownCubeType               (* 'Unknown Cube type encountered: %s' *)
| NoneNotSubscriptable          (* Python: 'NoneType' object is not subscriptable *)
| BadOperandInvert              (* Python: bad operand type for unary ~: 'NoneType' *)
| AbstractClass.                (* Python: Can't instantiate abstract class ... *)

Inductive exception : Type :=
| ValueError (why : value_error)
| AttributeError (why : attribute_error)
| TypeError (why : type_error)
| IndexError
| KeyError (key : string)
| MaskError
| NotImplementedError.

(** The outcome of a call: a value, an exception that reaches the caller, or
    [Unmodelled] where Python goes on with a value that the array types of
    this development do not represent (an index [None] is read by numpy as a
    new axis). *)
Inductive outcome (A : Type) : Type :=
| Return (a : A)
| Raise (e : exception)
| Unmodelled.

Arguments Return {A} a.
Arguments Raise {A} e.
Arguments Unmodelled {A}.

Definition bind {A B : Type} (c : outcome A) (k : A -> outcome B) : outcome B :=
  match c with
  | Return a => k a
  | Raise e => Raise e
  | Unmodelled => Unmodelled
  end.

Declare Scope outcome_scope.
Delimit Scope outcome_scope with outcome.
Notation "x <- c ;; k" := (bind c (fun x => k))
  (at level 61, c at next level, right associativity) : outcome_scope.
Notation "' pat <- c ;; k" := (bind c (fun x => match x with pat => k end))
  (at level 61, pat pattern, c at next level, right associativity) : outcome_scope.
Open Scope outcome_scope.

(** A capability error is one of the two attribute errors that report missing
    preservation or space-time information. *)
Definition capability_error (e : exception) : bool :=
  match e with
  | AttributeError NoPreservationInformation => true
  | AttributeError NoSpacetimeInformation => true
  | _ => false
  end.

(** [x in names] on a list of strings. *)
Definition py_in (x : string) (names : list string) : bool :=
  existsb (String.eqb x) names.

(** ** Integer and floating-point dtypes *)

(** The dtypes that an array of whole numbers can have.  An operation whose
    exact result the dtype cannot hold does not raise: the result wraps
    around. *)
Inductive int_dtype : Type :=
| int8 | int16 | int32 | int64
| uint8 | uint16 | uint32 | uint64.

Definition bits (dt : int_dtype) : Z :=
  match dt with
  | int8 | uint8 => 8
  | int16 | uint16 => 16
  | int32 | uint32 => 32
  | int64 | uint64 => 64
  end.

Definition signed (dt : int_dtype) : bool :=
  match dt with
  | int8 | int16 | int32 | int64 => true
  | uint8 | uint16 | uint32 | uint64 => false
  end.

(** [np.iinfo(dt).min] and [np.iinfo(dt).max] *)
Definition iinfo_min (dt : int_dtype) : Z :=
  if signed dt then - 2 ^ (bits dt - 1) else 0.

Definition iinfo_max (dt : int_dtype) : Z :=
  if signed dt then 2 ^ (bits dt - 1) - 1 else 2 ^ bits dt - 1.

(** The value of the dtype that the exact result [z] wraps around to. *)
Definition wraparound (dt : int_dtype) (z : Z) : Z :=
  (z - iinfo_min dt) mod 2 ^ bits dt + iinfo_min dt.

(** The dtype in which [np.sqrt] computes on an array of whole numbers: the
    narrowest floating-point dtype that holds every value of the integer
    dtype. *)
Inductive float_dtype : Type :=
| float16 | float32 | float64.

Definition sqrt_dtype (dt : int_dtype) : float_dtype :=
  match dt with
  | int8 | uint8 => float16
  | int16 | uint16 => float32
  | int32 | uint32 | int64 | uint64 => float64
  end.

(** ** Arithmetic of array elements *)

(** The operations that [section.py] applies to floating-point elements. *)
Class Float64 (F : Type) : Type := {
  f_zero : F;                   (* the literal 0 stored in a float array *)
  f_add : F -> F -> F;
  f_mul : F -> F -> F;
  f_1_5 : F;                    (* the literal 1.5 *)
  f_sqrt_int : float_dtype -> Z -> F;
                                (* np.sqrt of a whole number, computed in the
                                   given dtype and stored in a float64 array *)
  f_min : F -> F -> F;
  f_max : F -> F -> F
}.

(** The real numbers: no rounding in any dtype, and no NaN; the root of a
    negative number, which is NaN in numpy, is 0. *)
#[export] Instance Float64_R : Float64 R := {|
  f_zero := 0%R;
  f_add := Rplus;
  f_mul := Rmult;
  f_1_5 := (3 / 2)%R;
  f_sqrt_int := fun _ n => R_sqrt.sqrt (IZR n);
  f_min := Rmin;
  f_max := Rmax
|}.

(** binary64: a whole number (below 2^64 in absolute value) is converted,
    rounded to nearest, its root taken and rounded to the precision of the
    dtype of the root; minimum and maximum propagate NaN as numpy's do. *)
Module Binary64.
Import PrimFloat.

(** A number of 64 bits is halved, keeping its last bit set when it is
    odd, so that the conversion of the half rounds as that of the number. *)
Definition of_nonneg (n : Z) : float :=
  if (Z.shiftr n 63 =? 0)%Z then of_uint63 (Uint63.of_Z n)
  else mul (of_uint63 (Uint63.of_Z (Z.lor (Z.shiftr n 1) (Z.land n 1)))) 2%float.

Definition of_Z (n : Z) : float :=
  match n with
  | Z0 => zero
  | Zpos _ => of_nonneg n
  | Zneg p => opp (of_nonneg (Zpos p))
  end.

(** A positive number in the range of the narrower dtype, rounded to [p]
    significant bits, ties to even: the mantissa is scaled to [p] bits
    before the binary point and rounded to a whole number. *)
Definition round (p : Z) (x : float) : float :=
  let '(m, e) := frshiftexp x in
  let y := ldshiftexp m (Uint63.of_Z (2101 + p)) in
  let r := sub (add y 0x1p52%float) 0x1p52%float in
  ldshiftexp r (Uint63.sub e (Uint63.of_Z p)).

Definition as_dtype (dt : float_dtype) (x : float) : float :=
  match dt with
  | float16 => round 11 x
  | float32 => round 24 x
  | float64 => x
  end.

Definition minimum (a b : float) : float :=
  if (ltb a b || is_nan a)%bool then a else b.

Definition maximum (a b : float) : float :=
  if (ltb b a || is_nan a)%bool then a else b.

Definition one_and_a_half : float := 1.5%float.
End Binary64.

#[export] Instance Float64_float : Float64 PrimFloat.float := {|
  f_zero := PrimFloat.zero;
  f_add := PrimFloat.add;
  f_mul := PrimFloat.mul;
  f_1_5 := Binary64.one_and_a_half;
  f_sqrt_int := fun dt n => Binary64.as_dtype dt (PrimFloat.sqrt (Binary64.of_Z n));
  f_min := Binary64.minimum;
  f_max := Binary64.maximum
|}.

(** ** numpy

    A one-dimensional array is a list and a two-dimensional array a list of
    rows (an array without rows keeps no column count).  A three-dimensional
    array, which only the volume owns, is a shape with a total cell
    function. *)

Definition array2 (A : Type) : Type := list (list A).

Record array3 (A : Type) : Type := {
  shape3 : nat * nat * nat;             (* (layers, rows, columns) *)
  item3 : nat -> nat -> nat -> A
}.

Module np.

Fixpoint mapM {A B : Type} (f : A -> outcome B) (l : list A) : outcome (list B) :=
  match l with
  | [] => Return []
  | a :: t => b <- f a ;; bs <- mapM f t ;; Return (b :: bs)
  end.

Definition map2 {A B C : Type} (f : A -> B -> C) (a : list A) (b : list B) : list C :=
  map (fun p => f (fst p) (snd p)) (combine a b).

(** Elementwise operation on two one-dimensional arrays: equal lengths, or
    one operand of length one is stretched; otherwise [e] is raised. *)
Definition broadcast {A B C : Type} (e : exception) (f : A -> B -> C)
    (a : list A) (b : list B) : outcome (list C) :=
  if length a =? length b then Return (map2 f a b)
  else match a, b with
       | [a0], _ => Return (map (f a0) b)
       | _, [b0] => Return (map (fun x => f x b0) a)
       | _, _ => Raise e
       end.

(** An integer index into an axis of length [n]; negative indices count from
    the end. *)
Definition normalize_index (n : nat) (i : Z) : outcome nat :=
  if ((0 <=? i) && (i <? Z.of_nat n))%Z then Return (Z.to_nat i)
  else if ((- Z.of_nat n <=? i) && (i <? 0))%Z then Return (Z.to_nat (Z.of_nat n + i))
  else Raise IndexError.

(** [a[:, ys, xs]] on a three-dimensional array with index arrays [ys], [xs]. *)
Definition take {A : Type} (a : array3 A) (ys xs : list Z) : outcome (array2 A) :=
  let '(nt, ny, nx) := shape3 a in
  idx <- broadcast IndexError (fun y x => (y, x)) ys xs ;;
  cells <- mapM (fun p => yi <- normalize_index ny (fst p) ;;
                          xi <- normalize_index nx (snd p) ;;
                          Return (yi, xi)) idx ;;
  Return (map (fun t => map (fun c => item3 a t (fst c) (snd c)) cells) (seq 0 nt)).

Definition arange (n : nat) : list Z := map Z.of_nat (seq 0 n).

(** [np.tile(v, (n))] of a scalar and [np.tile(a, (n, 1))] of a
    one-dimensional array. *)
Definition tile {A : Type} (v : A) (n : nat) : list A := repeat v n.

Definition meshgrid {A : Type} (s z : list A) : array2 A * array2 A :=
  (repeat s (length z), map (fun zj => repeat zj (length s)) z).

Definition column_stack {A : Type} (x y : list A) : outcome (list (A * A)) :=
  if length x =? length y then Return (combine x y)
  else Raise (ValueError ConcatenateDimensions).

Definition flatten {A : Type} (a : array2 A) : list A := concat a.

Definition size {A : Type} (a : array2 A) : nat := length (flatten a).

Definition same_shape {A B : Type} (a : array2 A) (b : array2 B) : bool :=
  (length a =? length b)
  && forallb (fun p => length (fst p) =? length (snd p)) (combine a b).

(** [a[mask]] with a boolean mask of the shape of [a]: the selected
    elements in row-major order. *)
Definition select {A : Type} (row : list A) (mask : list bool) : list A :=
  map fst (filter snd (combine row mask)).

Definition boolean_index {A : Type} (a : array2 A) (mask : array2 bool)
    : outcome (list A) :=
  if same_shape a mask then Return (concat (map2 select a mask))
  else Raise IndexError.

(** The rows of [flat] cut to the row lengths of [a], and [a] filled with
    one value. *)
Fixpoint reshape_like {A B : Type} (a : array2 A) (flat : list B) : array2 B :=
  match a with
  | [] => []
  | r :: rs => firstn (length r) flat :: reshape_like rs (skipn (length r) flat)
  end.

Definition resize_like {A B : Type} (a : array2 A) (b : B) : array2 B :=
  map (map (fun _ => b)) a.

Section Numeric.
Context {F : Type} `{Float64 F}.

Fixpoint cumsum_from (acc : F) (a : list F) : list F :=
  match a with
  | [] => []
  | v :: t => let acc' := f_add acc v in acc' :: cumsum_from acc' t
  end.

Definition cumsum (a : list F) : list F :=
  match a with
  | [] => []
  | v :: t => v :: cumsum_from v t
  end.

(** [np.hstack((0, a))] with a float array [a]. *)
Definition hstack0 (a : list F) : list F := f_zero :: a.

(** [np.sqrt(a)] on an array of whole numbers of the dtype [dt] *)
Definition sqrt (dt : int_dtype) (a : list Z) : list F :=
  map (f_sqrt_int (sqrt_dtype dt)) a.

Definition reduce (op : F -> F -> F) (a : array2 F) : outcome F :=
  match flatten a with
  | [] => Raise (ValueError ZeroSizeReduction)
  | v :: t => Return (fold_left op t v)
  end.

Definition amin : array2 F -> outcome F := reduce f_min.
Definition amax : array2 F -> outcome F := reduce f_max.
End Numeric.

(** [np.ma.MaskedArray]: the data with the mask of the cells hidden. *)
Record MaskedArray (F : Type) : Type := {
  ma_data : array2 F;
  ma_mask : array2 bool
}.

Definition masked_array {F : Type} (a : array2 F) (mask : array2 bool)
    : outcome (MaskedArray F) :=
  if same_shape a mask then Return {| ma_data := a; ma_mask := mask |}
  else match flatten mask with
       | [b] => Return {| ma_data := a; ma_mask := resize_like a b |}
       | flat =>
           if length flat =? size a
           then Return {| ma_data := a; ma_mask := reshape_like a flat |}
           else Raise MaskError
       end.

End np.

(** ** scipy.sparse *)

Module sparse.
Section Coo.
Context {F : Type} `{Float64 F}.

Record coo_matrix_t : Type := {
  shape : nat * nat;
  data : list F;
  row : list nat;
  col : list nat
}.

(** [sparse.coo_matrix((data, (row, col)))]: the shape is read off the
    largest coordinates. *)
Definition coo_matrix (d : list F) (r c : list nat) : outcome coo_matrix_t :=
  match r, c with
  | [], _ | _, [] => Raise (ValueError SparseDimensions)
  | _, _ =>
      if (length d =? length r) && (length d =? length c)
      then Return {| shape := (S (list_max r), S (list_max c));
                     data := d; row := r; col := c |}
      else Raise (ValueError SparseDimensions)
  end.

Fixpoint update {A : Type} (f : A -> A) (i : nat) (l : list A) : list A :=
  match l, i with
  | [], _ => []
  | a :: t, O => f a :: t
  | a :: t, S j => a :: update f j t
  end.

Definition add_at (dense : array2 F) (entry : F * (nat * nat)) : array2 F :=
  let '(v, (r, c)) := entry in
  update (update (fun old => f_add old v) c) r dense.

(** [toarray]: entries at the same coordinates are added up. *)
Definition toarray (m : coo_matrix_t) : array2 F :=
  fold_left add_at (combine (data m) (combine (row m) (col m)))
            (repeat (repeat f_zero (snd (shape m))) (fst (shape m))).
End Coo.
Arguments coo_matrix_t F : clear implicits.
End sparse.

(** ** The stratigraphy attributes of a section *)

(** Modelled from the spec: the dictionary that the volume's
    [strat_attr('section', y, x)] returns (the [cube] module is not among the
    sources).  Its fields are the ones the spec's data model lists; a field
    [None] is a key the dictionary lacks. *)
Record strat_dict (F : Type) : Type := {
  strata : option (array2 F);
  psvd_idx : option (array2 bool);
  psvd_flld : option (array2 F);
  z_sp : option (list nat);
  s_sp : option (list nat)
}.

(** [d[key]] *)
Definition lookup_key {A : Type} (key : string) (v : option A) : outcome A :=
  match v with
  | Some a => Return a
  | None => Raise (KeyError key)
  end.

(** [self.name] of an attribute that may not have been set *)
Definition getattr {A : Type} (name : string) (v : option A) : outcome A :=
  match v with
  | Some a => Return a
  | None => Raise (AttributeError (NoSuchAttribute name))
  end.

(** What [get_display_arrays] and [get_display_lines] hand out as data: the
    array itself or a masked array. *)
Inductive display_array (F : Type) : Type :=
| Plain (a : array2 F)
| Masked (m : np.MaskedArray F).

Arguments Plain {F} a.
Arguments Masked {F} m.

Definition segment (F : Type) : Type := ((F * F) * (F * F))%type.

(** ** Section variables *)

Module BaseSectionVariable.

Definition _spacetime_names : list string :=
  ["full"; "spacetime"; "as spacetime"; "as_spacetime"]%string.
Definition _preserved_names : list string :=
  ["psvd"; "preserved"; "as preserved"; "as_preserved"]%string.
Definition _stratigraphy_names : list string :=
  ["strat"; "strata"; "stratigraphy"; "as stratigraphy"; "as_stratigraphy"]%string.

Record t (F : Type) : Type := {
  array : array2 F;                   (* the ndarray that the variable is *)
  _psvd_mask : option (array2 bool);
  _s : list F;
  _z : list F;
  _S : array2 F;
  _Z : array2 F
}.

Definition __new__ {F : Type} (_data : array2 F) (s z : list F)
    (mask : option (array2 bool)) : t F :=
  {| array := _data; _psvd_mask := mask; _s := s; _z := z;
     _S := fst (np.meshgrid s z); _Z := snd (np.meshgrid s z) |}.

(** [style = self._default_style if (style is None) else style] *)
Definition style_or (default : string) (style : option string) : string :=
  match style with
  | None => default
  | Some s => s
  end.

Definition bad_style {A : Type} (style : string) : outcome A :=
  Raise (ValueError (BadStyleArgument style)).

End BaseSectionVariable.

Module DataSectionVariable.
Import BaseSectionVariable.

Record t (F : Type) : Type := {
  base : BaseSectionVariable.t F;
  strat_attr : option (strat_dict F);         (* set only with stratigraphy *)
  _knows_stratigraphy : bool
}.

Definition _default_style : string := "spacetime"%string.

Section Methods.
Context {F : Type} `{Float64 F}.

Definition __init__ (_data : array2 F) (s z : list F)
    (mask : option (array2 bool)) (_strat_attr : option (strat_dict F)) : t F :=
  match _strat_attr with
  | Some d => {| base := __new__ _data s z mask;
                 strat_attr := Some d; _knows_stratigraphy := true |}
  | None => {| base := __new__ _data s z mask;
               strat_attr := None; _knows_stratigraphy := false |}
  end.

Definition knows_stratigraphy (self : t F) : bool := _knows_stratigraphy self.

Definition _check_knows_stratigraphy (self : t F) : outcome bool :=
  if negb (_knows_stratigraphy self)
  then Raise (AttributeError NoPreservationInformation)
  else Return (_knows_stratigraphy self).

(** [~self._psvd_mask] *)
Definition invert (mask : option (array2 bool)) : outcome (array2 bool) :=
  match mask with
  | Some m => Return (map (map negb) m)
  | None => Raise (TypeError BadOperandInvert)
  end.

(** A branch that the source leaves without [return] yields [None]. *)
Definition as_preserved (self : t F) : outcome (np.MaskedArray F) :=
  known <- _check_knows_stratigraphy self ;;
  if known
  then hidden <- invert (_psvd_mask (base self)) ;;
       np.masked_array (array (base self)) hidden
  else Unmodelled.

Definition as_stratigraphy (self : t F) : outcome (sparse.coo_matrix_t F) :=
  known <- _check_knows_stratigraphy self ;;
  if known
  then attr <- getattr "strat_attr" (strat_attr self) ;;
       idx <- lookup_key "psvd_idx" (psvd_idx attr) ;;
       _psvd_data <- np.boolean_index (array (base self)) idx ;;
       rows <- lookup_key "z_sp" (z_sp attr) ;;
       cols <- lookup_key "s_sp" (s_sp attr) ;;
       sparse.coo_matrix _psvd_data rows cols
  else Unmodelled.

Definition get_display_arrays (self : t F) (style : option string)
    : outcome (display_array F * array2 F * array2 F) :=
  let style := style_or _default_style style in
  if py_in style _spacetime_names
  then Return (Plain (array (base self)), _S (base self), _Z (base self))
  else if py_in style _preserved_names
  then m <- as_preserved self ;;
       Return (Masked m, _S (base self), _Z (base self))
  else if py_in style _stratigraphy_names
  then _sp <- as_stratigraphy self ;;
       attr <- getattr "strat_attr" (strat_attr self) ;;
       flld <- lookup_key "psvd_flld" (psvd_flld attr) ;;
       let _arr_Y := firstn (fst (sparse.shape _sp)) flld in
       let _arr_X := np.tile (_s (base self)) (fst (sparse.shape _sp)) in
       Return (Plain (sparse.toarray _sp), _arr_X, _arr_Y)
  else bad_style style.

(** [np.vstack((X[:, :-1].flatten(), X[:, 1:].flatten())).T.reshape(-1, 2, 1)]:
    for every row and every pair of neighbouring columns, the left and
    the right value. *)
Definition _reshape_long (X : array2 F) : list (F * F) :=
  combine (np.flatten (map (@removelast F) X)) (np.flatten (map (@tl F) X)).

(** [np.concatenate([x, y], axis=2)] of two reshaped arrays: segment [k]
    runs from (x left, y left) to (x right, y right). *)
Definition concatenate_segments (x y : list (F * F)) : outcome (list (segment F)) :=
  if length x =? length y
  then Return (np.map2 (fun xs ys => ((fst xs, fst ys), (snd xs, snd ys))) x y)
  else Raise (ValueError ConcatenateDimensions).

(** [a[:, :-1]] *)
Definition drop_last_column {A : Type} (a : array2 A) : array2 A :=
  map (@removelast A) a.

Definition get_display_lines (self : t F) (style : option string)
    : outcome (display_array F * list (segment F)) :=
  let style := style_or _default_style style in
  chosen <-
    (if py_in style _spacetime_names
     then Return (_reshape_long (_Z (base self)),
                  Plain (drop_last_column (array (base self))))
     else if py_in style _preserved_names
     then known <- _check_knows_stratigraphy self ;;
          if known
          then let y := _reshape_long (_Z (base self)) in
               m <- as_preserved self ;;
               Return (y, Masked {| np.ma_data := drop_last_column (np.ma_data m);
                                    np.ma_mask := drop_last_column (np.ma_mask m) |})
          else Unmodelled
     else if py_in style _stratigraphy_names
     then known <- _check_knows_stratigraphy self ;;
          if known
          then attr <- getattr "strat_attr" (strat_attr self) ;;
               _strata <- lookup_key "strata" (strata attr) ;;
               Return (_reshape_long _strata,
                       Plain (drop_last_column (array (base self))))
          else Unmodelled
     else bad_style style) ;;
  let x := _reshape_long (_S (base self)) in
  segments <- concatenate_segments x (fst chosen) ;;
  Return (snd chosen, segments).

Definition get_display_limits (self : t F) (style : option string)
    : outcome (F * F * F * F) :=
  let style := style_or _default_style style in
  if py_in style _spacetime_names || py_in style _preserved_names
  then s_min <- np.amin (_S (base self)) ;;
       s_max <- np.amax (_S (base self)) ;;
       z_min <- np.amin (_Z (base self)) ;;
       z_max <- np.amax (_Z (base self)) ;;
       Return (s_min, s_max, z_min, z_max)
  else if py_in style _stratigraphy_names
  then known <- _check_knows_stratigraphy self ;;
       if known
       then attr <- getattr "strat_attr" (strat_attr self) ;;
            _strata <- lookup_key "strata" (strata attr) ;;
            s_min <- np.amin (_S (base self)) ;;
            s_max <- np.amax (_S (base self)) ;;
            z_min <- np.amin _strata ;;
            z_max <- np.amax _strata ;;
            Return (s_min, s_max, z_min, f_mul z_max f_1_5)
       else Unmodelled
  else bad_style style.
End Methods.
End DataSectionVariable.

Module StratigraphySectionVariable.
Import BaseSectionVariable.

Record t (F : Type) : Type := {
  base : BaseSectionVariable.t F
}.

Definition _default_style : string := "stratigraphy"%string.

Section Methods.
Context {F : Type} `{Float64 F}.

Definition __init__ (_data : array2 F) (s z : list F) : t F :=
  {| base := __new__ _data s z None |}.

Definition _check_knows_spacetime (self : t F) : outcome unit :=
  Raise (AttributeError NoSpacetimeInformation).

Definition get_display_arrays (self : t F) (style : option string)
    : outcome (display_array F * array2 F * array2 F) :=
  let style := style_or _default_style style in
  if py_in style _spacetime_names
  then _ <- _check_knows_spacetime self ;; Unmodelled
  else if py_in style _preserved_names
  then _ <- _check_knows_spacetime self ;; Unmodelled
  else if py_in style _stratigraphy_names
  then Return (Plain (array (base self)), _S (base self), _Z (base self))
  else bad_style style.

Definition get_display_lines (self : t F) (style : option string)
    : outcome (display_array F * list (segment F)) :=
  let style := style_or _default_style style in
  if py_in style _spacetime_names
  then _ <- _check_knows_spacetime self ;; Unmodelled
  else if py_in style _preserved_names
  then _ <- _check_knows_spacetime self ;; Unmodelled
  else if py_in style _stratigraphy_names
  then Raise NotImplementedError
  else bad_style style.

Definition get_display_limits (self : t F) (style : option string)
    : outcome (F * F * F * F) :=
  let style := style_or _default_style style in
  if py_in style _spacetime_names
  then _ <- _check_knows_spacetime self ;; Unmodelled
  else if py_in style _preserved_names
  then _ <- _check_knows_spacetime self ;; Unmodelled
  else if py_in style _stratigraphy_names
  then s_min <- np.amin (_S (base self)) ;;
       s_max <- np.amax (_S (base self)) ;;
       z_min <- np.amin (_Z (base self)) ;;
       z_max <- np.amax (_Z (base self)) ;;
       Return (s_min, s_max, z_min, f_mul z_max f_1_5)
  else bad_style style.
End Methods.
End StratigraphySectionVariable.

(** A section variable is of one of the two classes; a call on it is
    dispatched on the class. *)
Inductive SectionVariable (F : Type) : Type :=
| DataVariable (v : DataSectionVariable.t F)
| StratigraphyVariable (v : StratigraphySectionVariable.t F).

Arguments DataVariable {F} v.
Arguments StratigraphyVariable {F} v.

Section Dispatch.
Context {F : Type} `{Float64 F}.

Definition _default_style (v : SectionVariable F) : string :=
  match v with
  | DataVariable _ => DataSectionVariable._default_style
  | StratigraphyVariable _ => StratigraphySectionVariable._default_style
  end.

Definition get_display_arrays (v : SectionVariable F) (style : option string) :=
  match v with
  | DataVariable d => DataSectionVariable.get_display_arrays d style
  | StratigraphyVariable s => StratigraphySectionVariable.get_display_arrays s style
  end.

Definition get_display_lines (v : SectionVariable F) (style : option string) :=
  match v with
  | DataVariable d => DataSectionVariable.get_display_lines d style
  | StratigraphyVariable s => StratigraphySectionVariable.get_display_lines s style
  end.

Definition get_display_limits (v : SectionVariable F) (style : option string) :=
  match v with
  | DataVariable d => DataSectionVariable.get_display_limits d style
  | StratigraphyVariable s => StratigraphySectionVariable.get_display_limits s style
  end.
End Dispatch.

(** ** The volume *)

Module cube.

(** [type(CubeInstance)]: the two cube classes, any other subclass of
    [BaseCube], or an object that is no cube at all. *)
Inductive cube_type : Type :=
| DataCube
| StratigraphyCube
| OtherBaseCube
| NotACube.

Definition issubclass_BaseCube (ty : cube_type) : bool :=
  match ty with
  | NotACube => false
  | _ => true
  end.

(** Modelled from the spec: the volume that a section is connected to (the
    [cube] module is not among the sources).  It has a kind, the names of
    its variables, indexing by variable name (a name it lacks is [None]),
    the vertical coordinate [z] and, for a data volume that knows
    stratigraphy, the preservation array [strat_attr.psvd_idx] and the call
    [strat_attr('section', y, x)]. *)
Record t (F : Type) : Type := {
  type : cube_type;
  variables : list string;
  getitem : string -> option (array3 F);
  z : list F;
  _knows_stratigraphy : bool;
  strat_attr_psvd_idx : array3 bool;
  strat_attr_section : list Z -> list Z -> strat_dict F
}.

End cube.

(** ** Sections *)

Module BaseSection.

(** The concrete classes that run [BaseSection.__init__], each with the
    keyword argument it stores before. *)
Inductive section_class : Type :=
| PathSection (dtype : int_dtype) (_path : list (Z * Z))
                                   (* an Mx2 array of a dtype, row by row *)
| StrikeSection (y : Z).

(** A path is an array of whole numbers of one of the integer dtypes, in
    the range of its dtype for every array that numpy can hold; a path of
    another dtype (floating-point numbers, objects) is not modelled. *)

(** The dtype of [self._x] and [self._y], which only
    [_compute_section_coords] assigns: slices of the path have the dtype of
    the path, and [np.arange] and [np.tile] of a Python integer give the
    integer of the platform, which has 64 bits. *)
Definition coords_dtype (cls : section_class) : int_dtype :=
  match cls with
  | PathSection dtype _ => dtype
  | StrikeSection _ => int64
  end.

Record t (F : Type) : Type := {
  class : section_class;
  _s : option (list F);
  _z : option (list F);
  _x : option (list Z);
  _y : option (list Z);
  _variables : option (list string);
  cube : option (cube.t F)
}.

(** [a[...]] on an attribute that is still [None] *)
Definition subscriptable {A : Type} (v : option A) : outcome A :=
  match v with
  | Some a => Return a
  | None => Raise (TypeError NoneNotSubscriptable)
  end.

(** An attribute used as an array where [None] raises nothing. *)
Definition array_or_None {A : Type} (v : option A) : outcome A :=
  match v with
  | Some a => Return a
  | None => Unmodelled
  end.

Section Methods.
Context {F : Type} `{Float64 F}.

(** A method that assigns attributes: the object after the call, also
    when the call raises, and the outcome. *)
Definition method (A : Type) : Type := (t F * outcome A)%type.

Definition unconnected (cls : section_class) : t F :=
  {| class := cls; _s := None; _z := None; _x := None; _y := None;
     _variables := None; cube := None |}.

Definition set_coords (self : t F) (x y : list Z) : t F :=
  {| class := class self; _s := _s self; _z := _z self;
     _x := Some x; _y := Some y;
     _variables := _variables self; cube := cube self |}.

Definition set_s (self : t F) (s : list F) : t F :=
  {| class := class self; _s := Some s; _z := _z self;
     _x := _x self; _y := _y self;
     _variables := _variables self; cube := cube self |}.

Definition set_z (self : t F) (z : list F) : t F :=
  {| class := class self; _s := _s self; _z := Some z;
     _x := _x self; _y := _y self;
     _variables := _variables self; cube := cube self |}.

Definition set_cube (self : t F) (c : cube.t F) : t F :=
  {| class := class self; _s := _s self; _z := _z self;
     _x := _x self; _y := _y self;
     _variables := Some (cube.variables c); cube := Some c |}.

(** [PathSection._compute_section_coords] and
    [StrikeSection._compute_section_coords] *)
Definition _compute_section_coords (self : t F) : method unit :=
  match class self with
  | PathSection _ _path =>
      (set_coords self (map snd _path) (map fst _path), Return tt)
  | StrikeSection y =>
      match (c <- subscriptable (cube self) ;;
             lookup_key "eta" (cube.getitem c "eta")) with
      | Return eta =>
          let _nx := snd (shape3 eta) in
          (set_coords self (np.arange _nx) (np.tile y _nx), Return tt)
      | Raise e => (self, Raise e)
      | Unmodelled => (self, Unmodelled)
      end
  end.

(** [a[1:] - a[:-1]], [a**2] and [a + b] on index arrays of the dtype [dt]:
    every difference, square and sum wraps around in the dtype. *)
Definition diff (dt : int_dtype) (a : list Z) : list Z :=
  np.map2 (fun u v => wraparound dt (u - v)) (tl a) (removelast a).

Definition square (dt : int_dtype) (a : list Z) : list Z :=
  map (fun d => wraparound dt (d ^ 2)) a.

Definition along_section (dt : int_dtype) (x y : list Z) : outcome (list F) :=
  squares <- np.broadcast (ValueError OperandsNotBroadcast)
               (fun u v => wraparound dt (u + v))
               (square dt (diff dt x)) (square dt (diff dt y)) ;;
  Return (np.cumsum (np.hstack0 (np.sqrt dt squares))).

Definition _compute_section_attrs (self : t F) : method unit :=
  match (x <- subscriptable (_x self) ;;
         y <- subscriptable (_y self) ;;
         along_section (coords_dtype (class self)) x y) with
  | Return s =>
      let self := set_s self s in
      match cube self with
      | Some c => (set_z self (cube.z c), Return tt)
      | None => (self, Raise (AttributeError (NoSuchAttribute "z")))
      end
  | Raise e => (self, Raise e)
  | Unmodelled => (self, Unmodelled)
  end.

Definition connect (self : t F) (CubeInstance : cube.t F) : method unit :=
  if negb (cube.issubclass_BaseCube (cube.type CubeInstance))
  then (self, Raise (TypeError ExpectedCubeSubclass))
  else
    let self := set_cube self CubeInstance in
    match _compute_section_coords self with
    | (self, Return _) => _compute_section_attrs self
    | (self, Raise e) => (self, Raise e)
    | (self, Unmodelled) => (self, Unmodelled)
    end.

(** [BaseSection.__init__] on the positional arguments [args], for an object of class [cls]; the
    object exists for the caller only when no exception is raised. *)
Definition __init__ (cls : section_class) (args : list (cube.t F)) : outcome (t F) :=
  let self := unconnected cls in
  if 1 <? length args
  then Raise (ValueError ExpectedSingleArgument)
  else match args with
       | CubeInstance :: _ =>
           let '(self, r) := connect self CubeInstance in
           _ <- r ;; Return self
       | [] => Return self
       end.

Definition trace (self : t F) : outcome (list (Z * Z)) :=
  x <- array_or_None (_x self) ;;
  y <- array_or_None (_y self) ;;
  np.column_stack x y.

Definition s (self : t F) : option (list F) := _s self.
Definition z (self : t F) : option (list F) := _z self.
Definition variables (self : t F) : option (list string) := _variables self.

(** [self.cube[var][:, self._y, self._x]] *)
Definition slice (self : t F) (c : cube.t F) (var : string) : outcome (array2 F) :=
  a <- lookup_key var (cube.getitem c var) ;;
  y <- array_or_None (_y self) ;;
  x <- array_or_None (_x self) ;;
  np.take a y x.

Definition __getitem__ (self : t F) (var : string) : outcome (SectionVariable F) :=
  match cube self with
  | Some c =>
      match cube.type c with
      | cube.DataCube =>
          if cube._knows_stratigraphy c
          then _data <- slice self c var ;;
               _s <- array_or_None (s self) ;;
               _z <- array_or_None (z self) ;;
               y <- array_or_None (_y self) ;;
               x <- array_or_None (_x self) ;;
               _psvd_mask <- np.take (cube.strat_attr_psvd_idx c) y x ;;
               let _strat_attr := cube.strat_attr_section c y x in
               Return (DataVariable
                         (DataSectionVariable.__init__ _data _s _z
                            (Some _psvd_mask) (Some _strat_attr)))
          else _data <- slice self c var ;;
               _s <- array_or_None (s self) ;;
               _z <- array_or_None (z self) ;;
               Return (DataVariable
                         (DataSectionVariable.__init__ _data _s _z None None))
      | cube.StratigraphyCube =>
          _data <- slice self c var ;;
          _s <- array_or_None (s self) ;;
          _z <- array_or_None (z self) ;;
          Return (StratigraphyVariable
                    (StratigraphySectionVariable.__init__ _data _s _z))
      | _ => Raise (TypeError UnknownCubeType)
      end
  | None => Raise (AttributeError NoCubeConnected)
  end.
End Methods.
End BaseSection.

Module PathSection.
Section Methods.
Context {F : Type} `{Float64 F}.

(** [PathSection(args..., path=path)] with an array [path] of the dtype
    [dtype] *)
Definition __init__ (args : list (cube.t F)) (dtype : int_dtype)
    (path : list (Z * Z)) : outcome (BaseSection.t F) :=
  BaseSection.__init__ (BaseSection.PathSection dtype path) args.

(** The property [path] reads [self._trace], which no method sets. *)
Definition path (self : BaseSection.t F) : outcome (list (Z * Z)) :=
  Raise (AttributeError (NoSuchAttribute "_trace")).
End Methods.
End PathSection.

Module StrikeSection.
Section Methods.
Context {F : Type} `{Float64 F}.

(** [StrikeSection(args..., y=0)] *)
Definition __init__ (args : list (cube.t F)) (y : option Z)
    : outcome (BaseSection.t F) :=
  BaseSection.__init__
    (BaseSection.StrikeSection (match y with Some y0 => y0 | None => 0%Z end)) args.
End Methods.
End StrikeSection.

(** The reserved shapes.  Neither class defines [_compute_section_coords],
    which [BaseSection] declares abstract: Python refuses to make an instance
    of such a class, whatever the arguments, and [__init__], whose body
    raises NotImplementedError, does not run. *)
Module DipSection.
(** [DipSection(x)] *)
Definition __new__ {F : Type} (x : option Z) : outcome (BaseSection.t F) :=
  Raise (TypeError AbstractClass).

(** The body of [__init__], on an object that exists. *)
Definition __init__ {F : Type} (self : BaseSection.t F) (x : option Z) : outcome unit :=
  Raise NotImplementedError.
End DipSection.

Module RadialSection.
(** [RadialSection(apex, radius)] *)
Definition __new__ {F : Type} (apex radius : Z) : outcome (BaseSection.t F) :=
  Raise (TypeError AbstractClass).

(** The body of [__init__], on an object that exists. *)
Definition __init__ {F : Type} (self : BaseSection.t F) (apex radius : Z)
    : outcome unit :=
  Raise NotImplementedError.
End RadialSection.

(** ** Concrete volumes and variables, on binary64 *)

Module Demo.

Section Generic.
Context {F : Type} (num : Z -> F).

Definition no_stratigraphy : strat_dict F :=
  {| strata := None; psvd_idx := None; psvd_flld := None;
     z_sp := None; s_sp := None |}.

(** A variable of [layers] layers on a grid of [ny] by [nx] cells; the cell
    (t, y, x) holds 100 t + 10 y + x. *)
Definition grid (layers ny nx : nat) : array3 F :=
  {| shape3 := (layers, ny, nx);
     item3 := fun t y x => num (Z.of_nat (100 * t + 10 * y + x)) |}.

(** A volume with the variables eta and velocity, layer [t] at height [t],
    that does not know stratigraphy. *)
Definition volume (ty : cube.cube_type) (layers ny nx : nat) : cube.t F :=
  {| cube.type := ty;
     cube.variables := ["eta"; "velocity"]%string;
     cube.getitem := fun var =>
       if (String.eqb var "eta" || String.eqb var "velocity")%bool
       then Some (grid layers ny nx) else None;
     cube.z := map (fun t => num (Z.of_nat t)) (seq 0 layers);
     cube._knows_stratigraphy := false;
     cube.strat_attr_psvd_idx := {| shape3 := (layers, ny, nx);
                                    item3 := fun _ _ _ => true |};
     cube.strat_attr_section := fun _ _ => no_stratigraphy |}.

(** The attributes of a section of two layers along three points: all cells
    but (0, 1) are preserved, and [z_sp], [s_sp] give the place of each
    preserved cell, in row-major order, in its compacted column. *)
Definition preserved : array2 bool := [[true; false; true]; [true; true; true]].

Definition attributes : strat_dict F :=
  {| strata := Some [[num 0; num 0; num 0]; [num 1; num 1; num 2]];
     psvd_idx := Some preserved;
     psvd_flld := Some [[num 0; num 0; num 0]; [num 1; num 0; num 1]];
     z_sp := Some [0; 0; 1; 0; 1];
     s_sp := Some [0; 2; 0; 1; 2] |}.

Definition values : array2 F :=
  [[num 1; num 2; num 3]; [num 4; num 5; num 6]].

Definition along : list F := [num 0; num 1; num 2].
Definition up : list F := [num 0; num 1].
End Generic.

(** On binary64. *)
Definition num : Z -> PrimFloat.float := Binary64.of_Z.

Definition rcm8 : cube.t PrimFloat.float := volume num cube.DataCube 2 3 4.

Definition with_stratigraphy : DataSectionVariable.t PrimFloat.float :=
  DataSectionVariable.__init__ (values num) (along num) (up num)
    (Some preserved) (Some (attributes num)).

Definition without_stratigraphy : DataSectionVariable.t PrimFloat.float :=
  DataSectionVariable.__init__ (values num) (along num) (up num) None None.

Definition stratigraphy_only : StratigraphySectionVariable.t PrimFloat.float :=
  StratigraphySectionVariable.__init__ (values num) (along num) (up num).

(** Over the real numbers. *)
Definition real_volume (layers ny nx : nat) : cube.t R :=
  volume IZR cube.DataCube layers ny nx.
End Demo.

(** * Statements

    The predicates in which the properties below are stated. *)

Section Statements.
Context {F : Type} `{Float64 F}.

(** The bounding box of the two meshes, as the spacetime style computes it. *)
Definition mesh_limits (b : BaseSectionVariable.t F) : outcome (F * F * F * F) :=
  s_min <- np.amin (BaseSectionVariable._S b) ;;
  s_max <- np.amax (BaseSectionVariable._S b) ;;
  z_min <- np.amin (BaseSectionVariable._Z b) ;;
  z_max <- np.amax (BaseSectionVariable._Z b) ;;
  Return (s_min, s_max, z_min, z_max).

(** The coordinates that a class computes on the cube [c]. *)
Definition coords_of (cls : BaseSection.section_class) (c : cube.t F) (x y : list Z) : Prop :=
  match cls with
  | BaseSection.PathSection _ _path => x = map snd _path /\ y = map fst _path
  | BaseSection.StrikeSection y0 =>
      exists eta, cube.getitem c "eta" = Some eta
                  /\ x = np.arange (snd (shape3 eta))
                  /\ y = np.tile y0 (snd (shape3 eta))
  end.

(** The squared distances between consecutive points, as a section whose
    coordinates have the dtype [dt] computes them. *)
Definition squared_steps (dt : int_dtype) (x y : list Z) : list Z :=
  np.map2 (fun u v => wraparound dt (u + v))
    (BaseSection.square dt (BaseSection.diff dt x))
    (BaseSection.square dt (BaseSection.diff dt y)).

(** The steps between consecutive entries and the squared distances between
    consecutive points, as whole numbers. *)
Definition steps (a : list Z) : list Z := np.map2 Z.sub (tl a) (removelast a).

Definition squared_distances (x y : list Z) : list Z :=
  np.map2 (fun dx dy => (dx ^ 2 + dy ^ 2)%Z) (steps x) (steps y).

(** No squared distance between consecutive points exceeds the largest
    value of the dtype. *)
Definition squares_fit (dt : int_dtype) (x y : list Z) : Prop :=
  Forall (fun q => (q <= iinfo_max dt)%Z) (squared_distances x y).

Definition has_shape {A : Type} (a : array2 A) (n m : nat) : Prop :=
  length a = n /\ Forall (fun r => length r = m) a.

Definition layers {A : Type} (a : array3 A) : nat := fst (fst (shape3 a)).

(** The round trip as the specification states it: the data of the spacetime display
    of [sec[var]] is the slice of the variable at the footprint of the
    section, and the data and the two meshes have the shape (Z, M). *)
Definition spacetime_round_trip (sec : BaseSection.t F) (c : cube.t F) (var key : string) : Prop :=
  exists (a : array3 F) (x y : list Z) (d S Zm : array2 F),
    cube.getitem c var = Some a
    /\ BaseSection._x sec = Some x /\ BaseSection._y sec = Some y
    /\ np.take a y x = Return d
    /\ (v <- BaseSection.__getitem__ sec var ;; get_display_arrays v (Some key))
       = Return (Plain d, S, Zm)
    /\ has_shape d (layers a) (length x)
    /\ has_shape S (layers a) (length x)
    /\ has_shape Zm (layers a) (length x).


End Statements.

Definition is_minimum (m : R) (a : array2 R) : Prop :=
  In m (np.flatten a) /\ forall v, In v (np.flatten a) -> (m <= v)%R.

Definition is_maximum (m : R) (a : array2 R) : Prop :=
  In m (np.flatten a) /\ forall v, In v (np.flatten a) -> (v <= m)%R.

(** The along-section coordinate [s] of the points (x, y), as the
    specification states it: as long as the coordinate arrays, zero at the first point, each
    further value the previous one plus the distance to the previous point,
    and hence nowhere decreasing. *)
Definition cumulative_distance (x y : list Z) (s : list R) : Prop :=
  length s = length x
  /\ nth_error s 0 = Some 0%R
  /\ (forall i, 1 <= i < length x ->
        nth i s 0%R
        = (nth (i - 1) s 0
           + sqrt (IZR ((nth i x 0 - nth (i - 1) x 0) ^ 2
                        + (nth i y 0 - nth (i - 1) y 0) ^ 2)%Z))%R)
  /\ (forall i j, i <= j < length x -> (nth i s 0 <= nth j s 0)%R).

(** The coordinates of a strike section at [y0] on a volume of [nx] columns,
    as the specification states them. *)
Definition strike_coordinates (y0 : Z) (nx : nat) (x y : list Z) (s : list R) : Prop :=
  x = map Z.of_nat (seq 0 nx)
  /\ y = repeat y0 nx
  /\ length s = nx
  /\ nth_error s 0 = Some 0%R
  /\ forall i, S i < nx ->
       nth (S i) s 0%R = (nth i s 0 + 1)%R /\ (nth i s 0 < nth (S i) s 0)%R.

(** Replaces a key known to be among the names of a style by each name in
    turn. *)
Ltac each_name H :=
  let name := fresh "name" in
  let Hin := fresh "Hin" in
  let Heq := fresh "Heq" in
  unfold py_in in H; apply existsb_exists in H; destruct H as [name [Hin Heq]];
  apply String.eqb_eq in Heq; subst name; simpl in Hin;
  repeat (destruct Hin as [Hin | Hin]; [subst | ]); try contradiction.

(** Proves [squares_fit] on concrete coordinates, square by square. *)
Ltac each_square_fits :=
  repeat (constructor; [vm_compute; discriminate | ]); constructor.

(** * Further statements *)

Section FurtherStatements.
Import BaseSectionVariable.
Import BaseSection.

(** ** Coordinates and extraction *)

(** The coordinate that a path section gets on the cube [c]. *)
Definition path_s {F : Type} `{Float64 F} (c : cube.t F) (dt : int_dtype)
    (p : list (Z * Z)) : option (list F) :=
  _s (fst (connect (unconnected (PathSection dt p)) c)).

(** An index that numpy accepts on an axis of length [n], and the place it
    addresses. *)
Definition in_axis (n : nat) (i : Z) : Prop := (- Z.of_nat n <= i < Z.of_nat n)%Z.

Definition wrap (n : nat) (i : Z) : nat := Z.to_nat (i mod Z.of_nat n).

(** The array that a section variable is. *)
Definition array_of {F : Type} (v : SectionVariable F) : array2 F :=
  match v with
  | DataVariable d => array (DataSectionVariable.base d)
  | StratigraphyVariable s => array (StratigraphySectionVariable.base s)
  end.

Definition recognized (ty : cube.cube_type) : Prop :=
  ty = cube.DataCube \/ ty = cube.StratigraphyCube.

(** ** Display lines and the stratigraphy display *)

(** The pairs of neighbouring entries of a row, left to right. *)
Definition adjacent {A : Type} (row : list A) : list (A * A) :=
  combine (removelast row) (tl row).

(** The segment from (s left, y left) to (s right, y right). *)
Definition segment_of {F : Type} (ss ys : F * F) : segment F :=
  ((fst ss, fst ys), (snd ss, snd ys)).

(** The cell (r, c) of a two-dimensional array, and the values that the
    coordinate lists place at (r, c), in their order. *)
Definition cell {F : Type} `{Float64 F} (a : array2 F) (r c : nat) : F :=
  nth c (nth r a []) f_zero.

Definition at_cell (r c : nat) (place : nat * nat) : bool :=
  (fst place =? r) && (snd place =? c).

Definition placed {F : Type} (vals : list F) (rows cols : list nat) (r c : nat) : list F :=
  map fst (filter (fun e => at_cell r c (snd e)) (combine vals (combine rows cols))).

End FurtherStatements.

(** ** Rendering *)

(** Modelled from the spec: the rendering surface and the registry of display
    metadata (matplotlib and the [plot] module are not among the sources).
    The surface accepts a mesh draw call, a line-collection draw call, a text
    and the two axis limits; [show] is the list of the calls it makes, in
    order, up to its return or to the exception that ends it.  A constant of
    the call is kept as the decimal (m, e) for m * 10^e. *)
Definition decimal : Type := (Z * Z)%type.

(** [label]: False, True, or anything else, which is shown through [str]. *)
Inductive label_argument : Type :=
| LabelFalse
| LabelTrue
| LabelText (text : string).

(** [_data.flatten()] of a plain and of a masked array. *)
Inductive flat_values (F : Type) : Type :=
| FlatPlain (values : list F)
| FlatMasked (values : list F) (hidden : list bool).

Arguments FlatPlain {F} values.
Arguments FlatMasked {F} values hidden.

Inductive call (F V : Type) : Type :=
| pcolormesh (X Y : array2 F) (data : display_array F) (info : V)
| add_collection (segments : list (segment F)) (values : flat_values F)
    (linewidth : decimal) (info : V)
| append_colorbar
| text (x y : decimal) (label : string) (fontsize : Z)
| set_xlim (xmin xmax : F)
| set_ylim (ymin ymax : F).

Arguments pcolormesh {F V} X Y data info.
Arguments add_collection {F V} segments values linewidth info.
Arguments append_colorbar {F V}.
Arguments text {F V} x y label fontsize.
Arguments set_xlim {F V} xmin xmax.
Arguments set_ylim {F V} ymin ymax.

(** How [show] ends: it returns, an exception of the section or of its
    variable reaches the caller, or [show] raises its own value error
    'Bad style argument'. *)
Inductive shown : Type :=
| Shown
| ShowRaises (e : exception)
| BadPlotStyle (style : string)
| ShowUnmodelled.

(** [np.fliplr(np.flipud(a))] and [a.flatten()] *)
Definition flip2 {A : Type} (a : array2 A) : array2 A := map (@rev A) (rev a).

Definition flip {F : Type} (d : display_array F) : display_array F :=
  match d with
  | Plain a => Plain (flip2 a)
  | Masked m => Masked {| np.ma_data := flip2 (np.ma_data m);
                          np.ma_mask := flip2 (np.ma_mask m) |}
  end.

Definition flatten_display {F : Type} (d : display_array F) : flat_values F :=
  match d with
  | Plain a => FlatPlain (np.flatten a)
  | Masked m => FlatMasked (np.flatten (np.ma_data m)) (np.flatten (np.ma_mask m))
  end.

Section Show.
Import BaseSectionVariable.
Import BaseSection.
Context {F V : Type} `{Float64 F}.
Context (varinfo_label : V -> string).
Context (cube_varset : cube.t F -> string -> outcome V).
Context (default_varset : string -> outcome V).

(** [self.cube.varset[name]] for a cube, [plot.VariableSet()[name]] otherwise *)
Definition varinfo_of (self : t F) (name : string) : outcome V :=
  match cube self with
  | Some c => if cube.issubclass_BaseCube (cube.type c)
              then cube_varset c name else default_varset name
  | None => default_varset name
  end.

(** A step of [show] that may raise, and what follows it. *)
Definition then_show {A : Type} (c : outcome A)
    (k : A -> list (call F V) * shown) : list (call F V) * shown :=
  match c with
  | Return a => k a
  | Raise e => ([], ShowRaises e)
  | Unmodelled => ([], ShowUnmodelled)
  end.

Definition after (calls : list (call F V)) (rest : list (call F V) * shown)
    : list (call F V) * shown :=
  (calls ++ fst rest, snd rest).

(** [display_array_style in SectionVariableInstance._stratigraphy_names] *)
Definition in_stratigraphy_names (display_array_style : option string) : bool :=
  match display_array_style with
  | Some k => py_in k _stratigraphy_names
  | None => false
  end.

(** [if label: ax.text(0.99, 0.8, _label, fontsize=8, ...)] *)
Definition label_text (_varinfo : V) (label : label_argument) : list (call F V) :=
  let placed_text (l : string) := text (99, -2)%Z (8, -1)%Z l 8 in
  match label with
  | LabelFalse => []
  | LabelTrue => [placed_text (varinfo_label _varinfo)]
  | LabelText EmptyString => []
  | LabelText l => [placed_text l]
  end.

(** The label and the limits, which end every style. *)
Definition label_and_limits (v : SectionVariable F) (_varinfo : V)
    (display_array_style : option string) (label : label_argument)
    : list (call F V) * shown :=
  after (label_text _varinfo label)
    (then_show (get_display_limits v display_array_style)
       (fun limits =>
          let '(xmin, xmax, ymin, ymax) := limits in
          ([set_xlim xmin xmax; set_ylim ymin ymax], Shown))).

Definition show (self : t F) (SectionAttribute : string) (style : string)
    (display_array_style : option string) (label : label_argument)
    : list (call F V) * shown :=
  then_show (varinfo_of self SectionAttribute) (fun _varinfo =>
  then_show (__getitem__ self SectionAttribute) (fun SectionVariableInstance =>
  if py_in style ["shade"; "shaded"]%string
  then then_show (get_display_arrays SectionVariableInstance display_array_style)
         (fun arrays =>
            let '(_data, _X, _Y) := arrays in
            after [pcolormesh _X _Y _data _varinfo; append_colorbar]
              (label_and_limits SectionVariableInstance _varinfo
                 display_array_style label))
  else if py_in style ["line"; "lines"]%string
  then then_show (get_display_lines SectionVariableInstance display_array_style)
         (fun lines =>
            let '(_data, _segments) := lines in
            let '(_data, _segments) :=
              if in_stratigraphy_names display_array_style
              then (flip _data, rev _segments)
              else (_data, _segments) in
            after [add_collection _segments (flatten_display _data) (125, -2)%Z _varinfo;
                   append_colorbar]
              (label_and_limits SectionVariableInstance _varinfo
                 display_array_style label))
  else ([], BadPlotStyle style))).
End Show.

(** ** Compaction *)

(** Modelled from the spec: the compacted coordinates that the volume gives
    to the preserved cells of a section (the [strat] module is not among the
    sources).  Compaction removes the cells that are not preserved from
    every column: a preserved cell keeps its column and gets as row the
    number of preserved cells below it in that column.  The cells are listed
    in row-major order, as [a[mask]] lists their values. *)
Definition preserved_columns (m : array2 bool) : list nat :=
  concat (map (fun row => map fst (filter snd (combine (seq 0 (length row)) row))) m).

Definition preserved_below (m : array2 bool) (t i : nat) : nat :=
  length (filter (fun row => nth i row false) (firstn t m)).

Definition preserved_rows (m : array2 bool) : list nat :=
  concat (map (fun t => map (fun i => preserved_below m t i)
                          (map fst (filter snd (combine (seq 0 (length (nth t m [])))
                                                        (nth t m [])))))
              (seq 0 (length m))).

(** ** A data cube that knows stratigraphy *)

(** On binary64: the cell (t, y, x) is preserved when t + x is even, and the
    attributes of a section hold the compacted coordinates of the preserved
    cells of the footprint. *)
Definition knowing_preservation : array3 bool :=
  {| shape3 := (2, 3, 4); item3 := fun t y x => Nat.even (t + x) |}.

Definition knowing_attributes (y x : list Z) : strat_dict PrimFloat.float :=
  match np.take knowing_preservation y x with
  | Return m =>
      {| strata := Some (map (fun t => repeat (Demo.num (Z.of_nat t)) (length x)) (seq 0 2));
         psvd_idx := Some m;
         psvd_flld := Some (map (fun t => repeat (Demo.num (Z.of_nat t)) (length x)) (seq 0 2));
         z_sp := Some (preserved_rows m);
         s_sp := Some (preserved_columns m) |}
  | _ => Demo.no_stratigraphy
  end.

Definition knowing_volume : cube.t PrimFloat.float :=
  {| cube.type := cube.DataCube;
     cube.variables := ["eta"; "velocity"]%string;
     cube.getitem := cube.getitem Demo.rcm8;
     cube.z := cube.z Demo.rcm8;
     cube._knows_stratigraphy := true;
     cube.strat_attr_psvd_idx := knowing_preservation;
     cube.strat_attr_section := knowing_attributes |}.

(** * Properties *)

(** ** Style keys *)

Import BaseSectionVariable.

Lemma py_in_In (x : string) (names : list string) :
  py_in x names = true <-> In x names.
Proof.
  unfold py_in. rewrite existsb_exists. split.
  - intros [y [Hy Heq]]. apply String.eqb_eq in Heq. now subst.
  - intros Hx. exists x. split; [assumption | apply String.eqb_refl].
Qed.

Lemma py_in_app (x : string) (l1 l2 : list string) :
  py_in x (l1 ++ l2) = (py_in x l1 || py_in x l2)%bool.
Proof. unfold py_in. apply existsb_app. Qed.

Lemma preserved_not_spacetime (key : string) :
  py_in key _preserved_names = true -> py_in key _spacetime_names = false.
Proof. intros H. each_name H; reflexivity. Qed.

Lemma stratigraphy_not_spacetime (key : string) :
  py_in key _stratigraphy_names = true -> py_in key _spacetime_names = false.
Proof. intros H. each_name H; reflexivity. Qed.

Lemma stratigraphy_not_preserved (key : string) :
  py_in key _stratigraphy_names = true -> py_in key _preserved_names = false.
Proof. intros H. each_name H; reflexivity. Qed.

Lemma unrecognized_key (key : string) :
  py_in key (_spacetime_names ++ _preserved_names ++ _stratigraphy_names) = false ->
  py_in key _spacetime_names = false
  /\ py_in key _preserved_names = false
  /\ py_in key _stratigraphy_names = false.
Proof.
  rewrite !py_in_app. intros H.
  apply orb_false_elim in H. destruct H as [H1 H].
  apply orb_false_elim in H. tauto.
Qed.

(** ** Capability errors *)

Section Capability.
Context {F : Type} `{Float64 F}.

Lemma check_without_stratigraphy (dv : DataSectionVariable.t F) :
  DataSectionVariable.knows_stratigraphy dv = false ->
  DataSectionVariable._check_knows_stratigraphy dv
  = Raise (AttributeError NoPreservationInformation).
Proof.
  unfold DataSectionVariable.knows_stratigraphy,
    DataSectionVariable._check_knows_stratigraphy.
  intros ->. reflexivity.
Qed.

Lemma as_preserved_without_stratigraphy (dv : DataSectionVariable.t F) :
  DataSectionVariable.knows_stratigraphy dv = false ->
  DataSectionVariable.as_preserved dv
  = Raise (AttributeError NoPreservationInformation).
Proof.
  intros Hk. unfold DataSectionVariable.as_preserved.
  now rewrite check_without_stratigraphy.
Qed.

Lemma as_stratigraphy_without_stratigraphy (dv : DataSectionVariable.t F) :
  DataSectionVariable.knows_stratigraphy dv = false ->
  DataSectionVariable.as_stratigraphy dv
  = Raise (AttributeError NoPreservationInformation).
Proof.
  intros Hk. unfold DataSectionVariable.as_stratigraphy.
  now rewrite check_without_stratigraphy.
Qed.

Lemma arrays_preserved_without_stratigraphy (dv : DataSectionVariable.t F) key :
  DataSectionVariable.knows_stratigraphy dv = false ->
  py_in key _preserved_names = true ->
  DataSectionVariable.get_display_arrays dv (Some key)
  = Raise (AttributeError NoPreservationInformation).
Proof.
  intros Hk Hkey. unfold DataSectionVariable.get_display_arrays. simpl style_or.
  rewrite (preserved_not_spacetime _ Hkey), Hkey.
  now rewrite as_preserved_without_stratigraphy.
Qed.

Lemma arrays_stratigraphy_without_stratigraphy (dv : DataSectionVariable.t F) key :
  DataSectionVariable.knows_stratigraphy dv = false ->
  py_in key _stratigraphy_names = true ->
  DataSectionVariable.get_display_arrays dv (Some key)
  = Raise (AttributeError NoPreservationInformation).
Proof.
  intros Hk Hkey. unfold DataSectionVariable.get_display_arrays. simpl style_or.
  rewrite (stratigraphy_not_spacetime _ Hkey), (stratigraphy_not_preserved _ Hkey), Hkey.
  now rewrite as_stratigraphy_without_stratigraphy.
Qed.

Lemma lines_preserved_without_stratigraphy (dv : DataSectionVariable.t F) key :
  DataSectionVariable.knows_stratigraphy dv = false ->
  py_in key _preserved_names = true ->
  DataSectionVariable.get_display_lines dv (Some key)
  = Raise (AttributeError NoPreservationInformation).
Proof.
  intros Hk Hkey. unfold DataSectionVariable.get_display_lines. simpl style_or.
  rewrite (preserved_not_spacetime _ Hkey), Hkey.
  now rewrite check_without_stratigraphy.
Qed.

Lemma lines_stratigraphy_without_stratigraphy (dv : DataSectionVariable.t F) key :
  DataSectionVariable.knows_stratigraphy dv = false ->
  py_in key _stratigraphy_names = true ->
  DataSectionVariable.get_display_lines dv (Some key)
  = Raise (AttributeError NoPreservationInformation).
Proof.
  intros Hk Hkey. unfold DataSectionVariable.get_display_lines. simpl style_or.
  rewrite (stratigraphy_not_spacetime _ Hkey), (stratigraphy_not_preserved _ Hkey), Hkey.
  now rewrite check_without_stratigraphy.
Qed.

Lemma limits_stratigraphy_without_stratigraphy (dv : DataSectionVariable.t F) key :
  DataSectionVariable.knows_stratigraphy dv = false ->
  py_in key _stratigraphy_names = true ->
  DataSectionVariable.get_display_limits dv (Some key)
  = Raise (AttributeError NoPreservationInformation).
Proof.
  intros Hk Hkey. unfold DataSectionVariable.get_display_limits. simpl style_or.
  rewrite (stratigraphy_not_spacetime _ Hkey), (stratigraphy_not_preserved _ Hkey), Hkey.
  simpl. now rewrite check_without_stratigraphy.
Qed.

(** The three display methods of a stratigraphy-only variable on a key of
    the spacetime or the preserved style. *)
Lemma stratigraphy_only_spacetime (sv : StratigraphySectionVariable.t F) key :
  py_in key _spacetime_names = true \/ py_in key _preserved_names = true ->
  StratigraphySectionVariable.get_display_arrays sv (Some key)
  = Raise (AttributeError NoSpacetimeInformation)
  /\ StratigraphySectionVariable.get_display_lines sv (Some key)
     = Raise (AttributeError NoSpacetimeInformation)
  /\ StratigraphySectionVariable.get_display_limits sv (Some key)
     = Raise (AttributeError NoSpacetimeInformation).
Proof.
  unfold StratigraphySectionVariable.get_display_arrays,
    StratigraphySectionVariable.get_display_lines,
    StratigraphySectionVariable.get_display_limits.
  simpl style_or.
  intros [Hkey | Hkey].
  - rewrite Hkey. repeat split.
  - rewrite (preserved_not_spacetime _ Hkey), Hkey. repeat split.
Qed.
End Capability.

(** C6.  A variable that lacks the information asked for raises the
    capability error instead of returning: on a data variable that does not
    know stratigraphy, [as_preserved], [as_stratigraphy], the display arrays
    and display lines of a preserved or stratigraphy key and the display
    limits of a stratigraphy key raise 'No preservation information.'; on a
    stratigraphy-only variable, every display method on a spacetime or
    preserved key raises 'No "spacetime" or "preserved" information
    available.'.  The outcome of the call is the exception: no method catches
    it. *)
Theorem capability_errors_surface
    (F : Type) (ops : Float64 F)
    (dv : DataSectionVariable.t F) (sv : StratigraphySectionVariable.t F)
    (key key' : string)
    (Hdv : DataSectionVariable.knows_stratigraphy dv = false)
    (Hkey : py_in key _preserved_names = true \/ py_in key _stratigraphy_names = true)
    (Hkey' : py_in key' _spacetime_names = true \/ py_in key' _preserved_names = true) :
  let no_preservation := AttributeError NoPreservationInformation in
  let no_spacetime := AttributeError NoSpacetimeInformation in
  capability_error no_preservation = true
  /\ capability_error no_spacetime = true
  /\ DataSectionVariable.as_preserved dv = Raise no_preservation
  /\ DataSectionVariable.as_stratigraphy dv = Raise no_preservation
  /\ get_display_arrays (DataVariable dv) (Some key) = Raise no_preservation
  /\ get_display_lines (DataVariable dv) (Some key) = Raise no_preservation
  /\ (py_in key _stratigraphy_names = true ->
      get_display_limits (DataVariable dv) (Some key) = Raise no_preservation)
  /\ get_display_arrays (StratigraphyVariable sv) (Some key') = Raise no_spacetime
  /\ get_display_lines (StratigraphyVariable sv) (Some key') = Raise no_spacetime
  /\ get_display_limits (StratigraphyVariable sv) (Some key') = Raise no_spacetime.
Proof.
  cbv zeta. simpl get_display_arrays. simpl get_display_lines. simpl get_display_limits.
  split; [reflexivity | split; [reflexivity | ]].
  split; [now apply as_preserved_without_stratigraphy | ].
  split; [now apply as_stratigraphy_without_stratigraphy | ].
  split; [destruct Hkey;
          [now apply arrays_preserved_without_stratigraphy
          | now apply arrays_stratigraphy_without_stratigraphy] | ].
  split; [destruct Hkey;
          [now apply lines_preserved_without_stratigraphy
          | now apply lines_stratigraphy_without_stratigraphy] | ].
  split; [now apply limits_stratigraphy_without_stratigraphy | ].
  apply (stratigraphy_only_spacetime sv key' Hkey').
Qed.

Lemma capability_errors_surface_witness :
  DataSectionVariable.as_preserved Demo.without_stratigraphy
  = Raise (AttributeError NoPreservationInformation)
  /\ get_display_arrays (DataVariable Demo.without_stratigraphy) (Some "strata"%string)
     = Raise (AttributeError NoPreservationInformation)
  /\ get_display_arrays (StratigraphyVariable Demo.stratigraphy_only) (Some "full"%string)
     = Raise (AttributeError NoSpacetimeInformation).
Proof.
  pose proof (@capability_errors_surface _ _ Demo.without_stratigraphy
                Demo.stratigraphy_only "strata"%string "full"%string
                eq_refl (or_intror eq_refl) (or_introl eq_refl)) as W.
  cbv zeta in W. tauto.
Defined.

(** ** Construction and connection errors *)

(** C7.  [BaseSection.__init__], which the path and the strike section run:
    more than one positional argument raises the value error 'Expected single
    argument'; no argument gives a section without cube, and indexing it by
    any name raises 'No cube connected'; indexing a section whose cube is of
    neither cube class raises the type error 'Unknown Cube type'. *)
Theorem construction_and_connection_errors
    (F : Type) (ops : Float64 F)
    (cls : BaseSection.section_class) (args : list (cube.t F))
    (sec : BaseSection.t F) (c : cube.t F) (var : string)
    (Hargs : 1 < length args)
    (Hcube : BaseSection.cube sec = Some c)
    (Hdata : cube.type c <> cube.DataCube)
    (Hstrat : cube.type c <> cube.StratigraphyCube) :
  BaseSection.__init__ cls args = Raise (ValueError ExpectedSingleArgument)
  /\ BaseSection.__init__ cls [] = Return (BaseSection.unconnected cls)
  /\ BaseSection.cube (BaseSection.unconnected (F := F) cls) = None
  /\ BaseSection.__getitem__ (BaseSection.unconnected (F := F) cls) var
     = Raise (AttributeError NoCubeConnected)
  /\ BaseSection.__getitem__ sec var = Raise (TypeError UnknownCubeType).
Proof.
  repeat split.
  - unfold BaseSection.__init__.
    destruct (Nat.ltb_spec 1 (length args)) as [_ | Hle]; [reflexivity | lia].
  - unfold BaseSection.__getitem__. rewrite Hcube.
    destruct (cube.type c); try reflexivity; congruence.
Qed.

Lemma construction_and_connection_errors_witness :
  PathSection.__init__ [Demo.rcm8; Demo.rcm8] int64 [(0, 1)]%Z
  = Raise (ValueError ExpectedSingleArgument)
  /\ StrikeSection.__init__ (F := PrimFloat.float) [] (Some 1%Z)
     = Return (BaseSection.unconnected (BaseSection.StrikeSection 1))
  /\ BaseSection.__getitem__
       (BaseSection.unconnected (F := PrimFloat.float) (BaseSection.StrikeSection 1))
       "eta"%string
     = Raise (AttributeError NoCubeConnected)
  /\ BaseSection.__getitem__
       (BaseSection.set_cube (BaseSection.unconnected (BaseSection.StrikeSection 1))
          (Demo.volume Demo.num cube.OtherBaseCube 2 3 4)) "eta"%string
     = Raise (TypeError UnknownCubeType).
Proof.
  pose proof (@construction_and_connection_errors PrimFloat.float _
                (BaseSection.PathSection int64 [(0, 1)]%Z) [Demo.rcm8; Demo.rcm8]
                (BaseSection.set_cube (BaseSection.unconnected (BaseSection.StrikeSection 1))
                   (Demo.volume Demo.num cube.OtherBaseCube 2 3 4))
                (Demo.volume Demo.num cube.OtherBaseCube 2 3 4) "eta"%string) as W.
  simpl in W.
  assert (H1 : 1 < 2) by lia.
  assert (H2 : cube.OtherBaseCube <> cube.DataCube) by discriminate.
  assert (H3 : cube.OtherBaseCube <> cube.StratigraphyCube) by discriminate.
  destruct (W H1 eq_refl H2 H3) as [Wa [Wb [_ [Wd We]]]].
  split; [exact Wa | split; [reflexivity | split; [exact Wd | exact We]]].
Defined.

(** A section of one of the reserved shapes cannot be constructed: the
    classes are abstract. *)
Lemma reserved_shapes_are_abstract (F : Type) (x : option Z) (apex radius : Z) :
  DipSection.__new__ (F := F) x = Raise (TypeError AbstractClass)
  /\ RadialSection.__new__ (F := F) apex radius = Raise (TypeError AbstractClass).
Proof. split; reflexivity. Qed.

(** ** Style keys of the display methods *)

(** C8.  On a key that is none of the spacetime, preserved and stratigraphy
    names, the three display methods of a variable of either class raise the
    value error 'Bad "style" argument'; without a key they behave as on the
    default style of the class, which is spacetime for a data variable and
    stratigraphy for a stratigraphy-only variable. *)
Theorem bad_style_and_default_style
    (F : Type) (ops : Float64 F) (v : SectionVariable F) (key : string)
    (Hkey : py_in key (_spacetime_names ++ _preserved_names ++ _stratigraphy_names)
            = false) :
  get_display_arrays v (Some key) = Raise (ValueError (BadStyleArgument key))
  /\ get_display_lines v (Some key) = Raise (ValueError (BadStyleArgument key))
  /\ get_display_limits v (Some key) = Raise (ValueError (BadStyleArgument key))
  /\ get_display_arrays v None = get_display_arrays v (Some (_default_style v))
  /\ get_display_lines v None = get_display_lines v (Some (_default_style v))
  /\ get_display_limits v None = get_display_limits v (Some (_default_style v))
  /\ _default_style v = match v with
                        | DataVariable _ => "spacetime"%string
                        | StratigraphyVariable _ => "stratigraphy"%string
                        end
  /\ py_in (_default_style v)
       match v with
       | DataVariable _ => _spacetime_names
       | StratigraphyVariable _ => _stratigraphy_names
       end = true.
Proof.
  destruct (unrecognized_key _ Hkey) as [Hs [Hp Hst]].
  destruct v as [d | s]; simpl.
  - unfold DataSectionVariable.get_display_arrays,
      DataSectionVariable.get_display_lines,
      DataSectionVariable.get_display_limits.
    simpl style_or. rewrite Hs, Hp, Hst. repeat split.
  - unfold StratigraphySectionVariable.get_display_arrays,
      StratigraphySectionVariable.get_display_lines,
      StratigraphySectionVariable.get_display_limits.
    simpl style_or. rewrite Hs, Hp, Hst. repeat split.
Qed.

Lemma bad_style_and_default_style_witness :
  get_display_arrays (DataVariable Demo.with_stratigraphy) (Some "Spacetime"%string)
  = Raise (ValueError (BadStyleArgument "Spacetime"%string))
  /\ get_display_limits (StratigraphyVariable Demo.stratigraphy_only) (Some "mesh"%string)
     = Raise (ValueError (BadStyleArgument "mesh"%string)).
Proof.
  split.
  - exact (proj1 (@bad_style_and_default_style _ _
                    (DataVariable Demo.with_stratigraphy) "Spacetime"%string eq_refl)).
  - exact (proj1 (proj2 (proj2 (@bad_style_and_default_style _ _
                    (StratigraphyVariable Demo.stratigraphy_only) "mesh"%string eq_refl)))).
Defined.

(** ** Display limits *)

Section Limits.
Context {F : Type} `{Float64 F}.

Lemma reduce_outcome (op : F -> F -> F) (a : array2 F) :
  (np.flatten a = [] /\ np.reduce op a = Raise (ValueError ZeroSizeReduction))
  \/ (np.flatten a <> [] /\ exists m, np.reduce op a = Return m).
Proof.
  unfold np.reduce. destruct (np.flatten a) as [| v t].
  - left. split; reflexivity.
  - right. split; [discriminate | eexists; reflexivity].
Qed.

Lemma mesh_limits_outcome (b : BaseSectionVariable.t F) :
  (exists box, mesh_limits b = Return box)
  \/ mesh_limits b = Raise (ValueError ZeroSizeReduction).
Proof.
  unfold mesh_limits, np.amin, np.amax.
  destruct (reduce_outcome f_min (_S b)) as [[_ ->] | [_ [m1 ->]]]; [now right | ].
  destruct (reduce_outcome f_max (_S b)) as [[_ ->] | [_ [m2 ->]]]; [now right | ].
  destruct (reduce_outcome f_min (_Z b)) as [[_ ->] | [_ [m3 ->]]]; [now right | ].
  destruct (reduce_outcome f_max (_Z b)) as [[_ ->] | [_ [m4 ->]]]; [now right | ].
  left. eexists. reflexivity.
Qed.

Lemma mesh_limits_return (b : BaseSectionVariable.t F) :
  np.flatten (_S b) <> [] -> np.flatten (_Z b) <> [] ->
  exists box, mesh_limits b = Return box.
Proof.
  intros HS HZ. unfold mesh_limits, np.amin, np.amax.
  destruct (reduce_outcome f_min (_S b)) as [[E _] | [_ [m1 ->]]]; [contradiction | ].
  destruct (reduce_outcome f_max (_S b)) as [[E _] | [_ [m2 ->]]]; [contradiction | ].
  destruct (reduce_outcome f_min (_Z b)) as [[E _] | [_ [m3 ->]]]; [contradiction | ].
  destruct (reduce_outcome f_max (_Z b)) as [[E _] | [_ [m4 ->]]]; [contradiction | ].
  eexists. reflexivity.
Qed.

Lemma limits_spacetime (dv : DataSectionVariable.t F) key :
  py_in key _spacetime_names = true \/ py_in key _preserved_names = true ->
  DataSectionVariable.get_display_limits dv (Some key)
  = mesh_limits (DataSectionVariable.base dv).
Proof.
  intros Hkey. unfold DataSectionVariable.get_display_limits. simpl style_or.
  destruct Hkey as [Hkey | Hkey].
  - rewrite Hkey. reflexivity.
  - rewrite Hkey, orb_true_r. reflexivity.
Qed.

Lemma limits_stratigraphy (dv : DataSectionVariable.t F) (attr : strat_dict F)
    (_strata : array2 F) key :
  DataSectionVariable.knows_stratigraphy dv = true ->
  DataSectionVariable.strat_attr dv = Some attr ->
  strata attr = Some _strata ->
  py_in key _stratigraphy_names = true ->
  DataSectionVariable.get_display_limits dv (Some key)
  = (s_min <- np.amin (_S (DataSectionVariable.base dv)) ;;
     s_max <- np.amax (_S (DataSectionVariable.base dv)) ;;
     z_min <- np.amin _strata ;;
     z_max <- np.amax _strata ;;
     Return (s_min, s_max, z_min, f_mul z_max f_1_5)).
Proof.
  intros Hk Hattr Hstrata Hkey.
  unfold DataSectionVariable.get_display_limits. simpl style_or.
  rewrite (stratigraphy_not_spacetime _ Hkey), (stratigraphy_not_preserved _ Hkey), Hkey.
  unfold DataSectionVariable._check_knows_stratigraphy.
  unfold DataSectionVariable.knows_stratigraphy in Hk. rewrite Hk. simpl.
  rewrite Hattr. simpl. rewrite Hstrata. reflexivity.
Qed.

(** The meshes of a variable have an element when both coordinate arrays
    have one. *)
Lemma meshes_inhabited (s z : list F) :
  s <> [] -> z <> [] ->
  np.flatten (fst (np.meshgrid s z)) <> []
  /\ np.flatten (snd (np.meshgrid s z)) <> [].
Proof.
  intros Hs Hz. destruct s as [| s0 s']; [contradiction | ].
  destruct z as [| z0 z']; [contradiction | ].
  split; discriminate.
Qed.
End Limits.

(** C10.  On a data variable that does not know stratigraphy, the display
    limits of a preserved key are those of the spacetime style: the call never
    raises a capability error, and it returns the bounding box of the S and Z
    meshes whenever the meshes have an element, while [as_preserved], the
    display arrays and the display lines of the same key raise 'No
    preservation information.'. *)
Theorem preserved_limits_need_no_stratigraphy
    (F : Type) (ops : Float64 F) (dv : DataSectionVariable.t F) (key : string)
    (Hdv : DataSectionVariable.knows_stratigraphy dv = false)
    (Hkey : py_in key _preserved_names = true) :
  let b := DataSectionVariable.base dv in
  get_display_limits (DataVariable dv) (Some key)
  = get_display_limits (DataVariable dv) (Some "spacetime"%string)
  /\ get_display_limits (DataVariable dv) (Some key) = mesh_limits b
  /\ (forall e, get_display_limits (DataVariable dv) (Some key) = Raise e ->
                capability_error e = false)
  /\ (np.flatten (_S b) <> [] -> np.flatten (_Z b) <> [] ->
      exists box, get_display_limits (DataVariable dv) (Some key) = Return box)
  /\ DataSectionVariable.as_preserved dv = Raise (AttributeError NoPreservationInformation)
  /\ get_display_arrays (DataVariable dv) (Some key)
     = Raise (AttributeError NoPreservationInformation)
  /\ get_display_lines (DataVariable dv) (Some key)
     = Raise (AttributeError NoPreservationInformation).
Proof.
  cbv zeta. simpl get_display_limits. simpl get_display_arrays. simpl get_display_lines.
  rewrite (limits_spacetime dv key (or_intror Hkey)).
  rewrite (limits_spacetime dv "spacetime" (or_introl eq_refl)).
  split; [reflexivity | split; [reflexivity | ]].
  split.
  { intros e He.
    destruct (mesh_limits_outcome (DataSectionVariable.base dv)) as [[box Hb] | Hb];
      rewrite Hb in He; [discriminate | ].
    injection He as <-. reflexivity. }
  split; [apply mesh_limits_return | ].
  split; [now apply as_preserved_without_stratigraphy | ].
  split; [now apply arrays_preserved_without_stratigraphy
         | now apply lines_preserved_without_stratigraphy].
Qed.

Lemma preserved_limits_need_no_stratigraphy_witness :
  get_display_limits (DataVariable Demo.without_stratigraphy) (Some "psvd"%string)
  = Return (Demo.num 0, Demo.num 2, Demo.num 0, Demo.num 1)
  /\ get_display_limits (DataVariable Demo.without_stratigraphy) (Some "spacetime"%string)
     = Return (Demo.num 0, Demo.num 2, Demo.num 0, Demo.num 1)
  /\ get_display_arrays (DataVariable Demo.without_stratigraphy) (Some "psvd"%string)
     = Raise (AttributeError NoPreservationInformation).
Proof.
  pose proof (@preserved_limits_need_no_stratigraphy _ _ Demo.without_stratigraphy
                "psvd"%string eq_refl eq_refl) as W.
  cbv zeta in W. destruct W as [W1 [_ [_ [_ [_ [W6 _]]]]]].
  split; [ | split; [ | exact W6]].
  - rewrite W1. vm_compute. reflexivity.
  - vm_compute. reflexivity.
Defined.

(** ** Minimum and maximum over the real numbers *)

Lemma fold_Rmax_spec (l : list R) (v : R) :
  In (fold_left Rmax l v) (v :: l)
  /\ forall w, In w (v :: l) -> (w <= fold_left Rmax l v)%R.
Proof.
  revert v. induction l as [| a l IH]; intros v; simpl.
  - split; [now left | ]. intros w [<- | []]. apply Rle_refl.
  - destruct (IH (Rmax v a)) as [Hin Hub]. split.
    + destruct Hin as [Heq | Hin]; [ | now right; right].
      rewrite <- Heq. unfold Rmax. destruct (Rle_dec v a); [now right; left | now left].
    + intros w [<- | [<- | Hw]].
      * apply Rle_trans with (Rmax v a); [apply Rmax_l | apply Hub; now left].
      * apply Rle_trans with (Rmax v a); [apply Rmax_r | apply Hub; now left].
      * apply Hub. now right.
Qed.

Lemma fold_Rmin_spec (l : list R) (v : R) :
  In (fold_left Rmin l v) (v :: l)
  /\ forall w, In w (v :: l) -> (fold_left Rmin l v <= w)%R.
Proof.
  revert v. induction l as [| a l IH]; intros v; simpl.
  - split; [now left | ]. intros w [<- | []]. apply Rle_refl.
  - destruct (IH (Rmin v a)) as [Hin Hlb]. split.
    + destruct Hin as [Heq | Hin]; [ | now right; right].
      rewrite <- Heq. unfold Rmin. destruct (Rle_dec v a); [now left | now right; left].
    + intros w [<- | [<- | Hw]].
      * apply Rle_trans with (Rmin v a); [apply Hlb; now left | apply Rmin_l].
      * apply Rle_trans with (Rmin v a); [apply Hlb; now left | apply Rmin_r].
      * apply Hlb. now right.
Qed.

Lemma amax_is_maximum (a : array2 R) :
  np.flatten a <> [] -> exists m, np.amax a = Return m /\ is_maximum m a.
Proof.
  intros Hne. unfold np.amax, np.reduce, is_maximum.
  destruct (np.flatten a) as [| v t]; [contradiction | ].
  exists (fold_left Rmax t v). split; [reflexivity | apply fold_Rmax_spec].
Qed.

Lemma amin_is_minimum (a : array2 R) :
  np.flatten a <> [] -> exists m, np.amin a = Return m /\ is_minimum m a.
Proof.
  intros Hne. unfold np.amin, np.reduce, is_minimum.
  destruct (np.flatten a) as [| v t]; [contradiction | ].
  exists (fold_left Rmin t v). split; [reflexivity | apply fold_Rmin_spec].
Qed.

(** C9.  On a data variable that knows stratigraphy, whose meshes and whose
    [strata] array have an element, the display limits of a stratigraphy key
    are (minimum of S, maximum of S, minimum of [strata], 1.5 times the
    maximum of [strata]). *)
Theorem stratigraphy_limits
    (_data : array2 R) (s z : list R) (mask : option (array2 bool))
    (attr : strat_dict R) (_strata : array2 R) (key : string)
    (Hstrata : strata attr = Some _strata)
    (Hkey : py_in key _stratigraphy_names = true)
    (Hs : s <> []) (Hz : z <> []) (Hne : np.flatten _strata <> []) :
  let dv := DataSectionVariable.__init__ _data s z mask (Some attr) in
  exists s_min s_max z_min z_top : R,
    get_display_limits (DataVariable dv) (Some key)
    = Return (s_min, s_max, z_min, (z_top * 1.5)%R)
    /\ is_minimum s_min (_S (DataSectionVariable.base dv))
    /\ is_maximum s_max (_S (DataSectionVariable.base dv))
    /\ is_minimum z_min _strata
    /\ is_maximum z_top _strata.
Proof.
  cbv zeta. simpl get_display_limits.
  rewrite (limits_stratigraphy
             (DataSectionVariable.__init__ _data s z mask (Some attr))
             key eq_refl eq_refl Hstrata Hkey).
  change (_S (DataSectionVariable.base
                (DataSectionVariable.__init__ _data s z mask (Some attr))))
    with (fst (np.meshgrid s z)).
  destruct (meshes_inhabited Hs Hz) as [HS _].
  destruct (amin_is_minimum _ HS) as [s_min [E1 M1]].
  destruct (amax_is_maximum _ HS) as [s_max [E2 M2]].
  destruct (amin_is_minimum _ Hne) as [z_min [E3 M3]].
  destruct (amax_is_maximum _ Hne) as [z_top [E4 M4]].
  exists s_min, s_max, z_min, z_top.
  rewrite E1, E2, E3, E4. simpl.
  split; [ | tauto].
  do 2 f_equal. lra.
Qed.

Lemma stratigraphy_limits_witness :
  exists s_min s_max z_min z_top : R,
    get_display_limits
      (DataVariable (DataSectionVariable.__init__
                       [[1; 2; 3]; [4; 5; 6]]%R [0; 1; 2]%R [0; 1]%R None
                       (Some (Demo.attributes IZR))))
      (Some "stratigraphy"%string)
    = Return (s_min, s_max, z_min, (z_top * 1.5)%R)
    /\ is_maximum z_top [[0; 0; 0]; [1; 1; 2]]%R.
Proof.
  destruct (@stratigraphy_limits [[1; 2; 3]; [4; 5; 6]]%R [0; 1; 2]%R [0; 1]%R None
              (Demo.attributes IZR) [[0; 0; 0]; [1; 1; 2]]%R "stratigraphy"%string
              eq_refl eq_refl) as [a [b [c [d [E [_ [_ [_ M]]]]]]]];
    try discriminate.
  exists a, b, c, d. split; assumption.
Defined.

(** ** Connecting a section *)

Import BaseSection.

(** Wrapping around keeps a number up to a multiple of 2^bits, and keeps a
    number of the dtype. *)
Lemma wraparound_mod (dt : int_dtype) (z : Z) :
  (wraparound dt z mod 2 ^ bits dt = z mod 2 ^ bits dt)%Z.
Proof.
  unfold wraparound. rewrite Zplus_mod_idemp_l. f_equal. lia.
Qed.

Lemma wraparound_congr (dt : int_dtype) (a b : Z) :
  (a mod 2 ^ bits dt = b mod 2 ^ bits dt)%Z -> wraparound dt a = wraparound dt b.
Proof.
  intros E. unfold wraparound. f_equal.
  rewrite <- (Zminus_mod_idemp_l a), <- (Zminus_mod_idemp_l b). now rewrite E.
Qed.

Lemma iinfo_span (dt : int_dtype) :
  (iinfo_max dt = iinfo_min dt + 2 ^ bits dt - 1)%Z /\ (iinfo_min dt <= 0)%Z.
Proof. destruct dt; split; vm_compute; congruence. Qed.

Lemma wraparound_fits (dt : int_dtype) (z : Z) :
  (iinfo_min dt <= z <= iinfo_max dt)%Z -> wraparound dt z = z.
Proof.
  intros Hz. destruct (iinfo_span dt) as [Hmax _].
  unfold wraparound. rewrite Z.mod_small; lia.
Qed.

Lemma wrapped_square_sum (dt : int_dtype) (dx dy : Z) :
  (dx ^ 2 + dy ^ 2 <= iinfo_max dt)%Z ->
  wraparound dt (wraparound dt (wraparound dt dx ^ 2)
                 + wraparound dt (wraparound dt dy ^ 2))
  = (dx ^ 2 + dy ^ 2)%Z.
Proof.
  intros Hfit.
  assert (Hsq : forall d, (wraparound dt (wraparound dt d ^ 2) mod 2 ^ bits dt
                           = d ^ 2 mod 2 ^ bits dt)%Z).
  { intros d. rewrite wraparound_mod, !Z.pow_2_r.
    rewrite Zmult_mod, wraparound_mod, <- Zmult_mod. reflexivity. }
  rewrite (wraparound_congr dt _ (dx ^ 2 + dy ^ 2)).
  - apply wraparound_fits. split; [ | exact Hfit].
    destruct (iinfo_span dt) as [_ Hmin]. nia.
  - rewrite Zplus_mod, !Hsq, <- Zplus_mod. reflexivity.
Qed.

Section Connect.
Context {F : Type} `{Float64 F}.

Lemma coords_of_length cls (c : cube.t F) x y :
  coords_of cls c x y -> length y = length x.
Proof.
  destruct cls as [dt p | y0]; simpl.
  - intros [-> ->]. now rewrite !length_map.
  - intros [eta [_ [-> ->]]]. unfold np.arange, np.tile.
    now rewrite repeat_length, length_map, length_seq.
Qed.

Lemma steps_cons (a b : Z) (t : list Z) :
  steps (a :: b :: t) = (b - a)%Z :: steps (b :: t).
Proof. reflexivity. Qed.

Lemma steps_length (x : list Z) : length (steps x) = pred (length x).
Proof.
  induction x as [| a [| b t] IH]; [reflexivity | reflexivity | ].
  rewrite steps_cons. simpl length in *. now rewrite IH.
Qed.

Lemma steps_nth (x : list Z) (i : nat) :
  S i < length x -> nth i (steps x) 0%Z = (nth (S i) x 0 - nth i x 0)%Z.
Proof.
  revert i. induction x as [| a [| b t] IH]; intros i Hi; simpl in Hi; try lia.
  rewrite steps_cons. destruct i as [| i]; [reflexivity | ].
  change (nth i (steps (b :: t)) 0%Z = (nth (S i) (b :: t) 0 - nth i (b :: t) 0)%Z).
  apply IH. simpl. lia.
Qed.

(** The differences of the section are the steps, wrapped around. *)
Lemma diff_steps (dt : int_dtype) (a : list Z) :
  diff dt a = map (wraparound dt) (steps a).
Proof. unfold diff, steps, np.map2. now rewrite map_map. Qed.

Lemma diff_length (dt : int_dtype) (x : list Z) : length (diff dt x) = pred (length x).
Proof. now rewrite diff_steps, length_map, steps_length. Qed.

Lemma squared_steps_length (dt : int_dtype) (x y : list Z) :
  length y = length x -> length (squared_steps dt x y) = pred (length x).
Proof.
  intros Hxy. unfold squared_steps, np.map2, square.
  rewrite length_map, length_combine, !length_map, !diff_length, Hxy. lia.
Qed.

Lemma squared_distances_length (x y : list Z) :
  length y = length x -> length (squared_distances x y) = pred (length x).
Proof.
  intros Hxy. unfold squared_distances, np.map2.
  rewrite length_map, length_combine, !steps_length, Hxy. lia.
Qed.

Lemma squared_distances_nth (x y : list Z) (i : nat) :
  length y = length x -> S i < length x ->
  nth i (squared_distances x y) 0%Z
  = ((nth (S i) x 0 - nth i x 0) ^ 2 + (nth (S i) y 0 - nth i y 0) ^ 2)%Z.
Proof.
  intros Hxy Hi. unfold squared_distances, np.map2.
  rewrite (map_nth (fun p : Z * Z => (fst p ^ 2 + snd p ^ 2)%Z) _ (0%Z, 0%Z) i
           : nth i (map _ _) 0%Z = _).
  rewrite combine_nth by (rewrite !steps_length; lia).
  simpl fst. simpl snd. rewrite !steps_nth by lia. reflexivity.
Qed.

(** What the section computes for a step (dx, dy). *)
Lemma squared_steps_wrapped (dt : int_dtype) (x y : list Z) :
  squared_steps dt x y
  = np.map2 (fun dx dy =>
               wraparound dt (wraparound dt (wraparound dt dx ^ 2)
                              + wraparound dt (wraparound dt dy ^ 2)))
      (steps x) (steps y).
Proof.
  unfold squared_steps, square, np.map2. rewrite !diff_steps, !map_map.
  generalize (steps x) (steps y). intros a. induction a as [| u a IH]; intros [| v b];
    simpl; try reflexivity.
  now rewrite IH.
Qed.

Lemma squared_steps_nth (dt : int_dtype) (x y : list Z) (i : nat) :
  length y = length x -> S i < length x ->
  ((nth (S i) x 0 - nth i x 0) ^ 2 + (nth (S i) y 0 - nth i y 0) ^ 2
   <= iinfo_max dt)%Z ->
  nth i (squared_steps dt x y) 0%Z
  = ((nth (S i) x 0 - nth i x 0) ^ 2 + (nth (S i) y 0 - nth i y 0) ^ 2)%Z.
Proof.
  intros Hxy Hi Hfit. rewrite squared_steps_wrapped. unfold np.map2.
  set (f := fun p : Z * Z =>
              wraparound dt (wraparound dt (wraparound dt (fst p) ^ 2)
                             + wraparound dt (wraparound dt (snd p) ^ 2))).
  rewrite (nth_indep _ 0%Z (f (0%Z, 0%Z)))
    by (rewrite length_map, length_combine, !steps_length; lia).
  rewrite (map_nth f). rewrite combine_nth by (rewrite !steps_length; lia).
  unfold f. cbn [fst snd]. rewrite !steps_nth by lia.
  now apply wrapped_square_sum.
Qed.

(** Squared distances that fit the dtype are computed exactly. *)
Lemma squared_steps_exact (dt : int_dtype) (x y : list Z) :
  squares_fit dt x y -> squared_steps dt x y = squared_distances x y.
Proof.
  unfold squares_fit, squared_distances. rewrite squared_steps_wrapped.
  unfold np.map2. generalize (combine (steps x) (steps y)). intros l Hfit.
  induction l as [| [dx dy] l IH]; [reflexivity | ].
  cbn [map fst snd] in *. inversion Hfit as [| q l' Hq Hl]; subst.
  rewrite (wrapped_square_sum dt dx dy Hq), (IH Hl). reflexivity.
Qed.

Lemma along_section_equal_lengths (dt : int_dtype) (x y : list Z) :
  length y = length x ->
  along_section dt x y
  = Return (np.cumsum (np.hstack0 (np.sqrt dt (squared_steps dt x y)))).
Proof.
  intros Hxy. unfold along_section, np.broadcast, square.
  rewrite !length_map, !diff_length, Hxy, Nat.eqb_refl. reflexivity.
Qed.

(** What a successful [connect] leaves in the object. *)
Lemma connect_returns (self self' : t F) (c : cube.t F) :
  connect self c = (self', Return tt) ->
  cube.issubclass_BaseCube (cube.type c) = true
  /\ class self' = class self
  /\ cube self' = Some c
  /\ _variables self' = Some (cube.variables c)
  /\ _z self' = Some (cube.z c)
  /\ exists x y,
       _x self' = Some x /\ _y self' = Some y
       /\ coords_of (class self) c x y
       /\ _s self' = Some (np.cumsum (np.hstack0
                             (np.sqrt (coords_dtype (class self))
                                (squared_steps (coords_dtype (class self)) x y)))).
Proof.
  unfold connect.
  destruct (cube.issubclass_BaseCube (cube.type c)) eqn:Hsub; simpl; [ | discriminate].
  intros Hc. split; [reflexivity | ].
  assert (Hcoords : exists x y,
             _compute_section_coords (set_cube self c)
             = (set_coords (set_cube self c) x y, Return tt)
             /\ coords_of (class self) c x y).
  { unfold _compute_section_coords in *. simpl class in *.
    destruct (class self) as [dt p | y0].
    - exists (map snd p), (map fst p). split; [reflexivity | split; reflexivity].
    - simpl in *. destruct (cube.getitem c "eta") as [eta | ] eqn:Heta; simpl in *.
      + exists (np.arange (snd (shape3 eta))), (np.tile y0 (snd (shape3 eta))).
        split; [reflexivity | ]. exists eta. repeat split.
      + discriminate. }
  destruct Hcoords as [x [y [Hcs Hxy]]]. rewrite Hcs in Hc.
  unfold _compute_section_attrs in Hc. simpl in Hc.
  rewrite (along_section_equal_lengths _ _ _ (coords_of_length _ _ _ _ Hxy)) in Hc.
  simpl in Hc. injection Hc as <-. simpl.
  repeat split. exists x, y. repeat split. exact Hxy.
Qed.

(** A path section connects to every cube; a strike section to every cube
    that has the variable eta. *)
Lemma connect_succeeds (self : t F) (c : cube.t F) (x y : list Z) :
  cube.issubclass_BaseCube (cube.type c) = true ->
  coords_of (class self) c x y ->
  exists self', connect self c = (self', Return tt)
                /\ _x self' = Some x /\ _y self' = Some y.
Proof.
  intros Hsub Hxy. unfold connect. rewrite Hsub. simpl.
  assert (Hcs : _compute_section_coords (set_cube self c)
                = (set_coords (set_cube self c) x y, Return tt)).
  { unfold _compute_section_coords. simpl class.
    destruct (class self) as [dt p | y0]; simpl in *.
    - destruct Hxy as [-> ->]. reflexivity.
    - destruct Hxy as [eta [Heta [-> ->]]]. rewrite Heta. reflexivity. }
  rewrite Hcs. unfold _compute_section_attrs. simpl.
  rewrite (along_section_equal_lengths _ _ _ (coords_of_length _ _ _ _ Hxy)).
  simpl. eexists. repeat split.
Qed.

(** Running sums. *)
Lemma cumsum_from_length (a : list F) (acc : F) :
  length (np.cumsum_from acc a) = length a.
Proof.
  revert acc. induction a as [| v t IH]; intros acc; simpl; [reflexivity | ].
  now rewrite IH.
Qed.

Lemma cumsum_from_nth (a : list F) (acc d : F) (i : nat) :
  i < length a ->
  nth i (np.cumsum_from acc a) d
  = f_add (nth i (acc :: np.cumsum_from acc a) d) (nth i a d).
Proof.
  revert acc i. induction a as [| v t IH]; intros acc i Hi; simpl in Hi; [lia | ].
  destruct i as [| i]; [reflexivity | ].
  simpl. apply IH. lia.
Qed.

Lemma along_length (dt : int_dtype) (steps : list Z) :
  length (np.cumsum (np.hstack0 (np.sqrt dt steps))) = S (length steps).
Proof.
  unfold np.hstack0, np.sqrt. simpl. now rewrite cumsum_from_length, length_map.
Qed.

Lemma along_first (dt : int_dtype) (steps : list Z) (d : F) :
  nth 0 (np.cumsum (np.hstack0 (np.sqrt dt steps))) d = f_zero.
Proof. reflexivity. Qed.

Lemma along_step (dt : int_dtype) (steps : list Z) (d : F) (i : nat) :
  i < length steps ->
  nth (S i) (np.cumsum (np.hstack0 (np.sqrt dt steps))) d
  = f_add (nth i (np.cumsum (np.hstack0 (np.sqrt dt steps))) d)
          (f_sqrt_int (sqrt_dtype dt) (nth i steps 0%Z)).
Proof.
  intros Hi. unfold np.hstack0, np.sqrt. simpl np.cumsum.
  change (nth (S i) (f_zero :: ?l) d) with (nth i l d).
  rewrite cumsum_from_nth by now rewrite length_map.
  f_equal. rewrite (nth_indep _ d (f_sqrt_int (sqrt_dtype dt) 0%Z))
    by now rewrite length_map.
  exact (map_nth (f_sqrt_int (sqrt_dtype dt)) steps 0%Z i).
Qed.

(** The coordinate of a connected section in any arithmetic, binary64
    included: s has one entry per point of a section that has points, starts
    at zero, and each further entry adds the root of the squared step, as
    computed in the dtype of the coordinates, to the entry before; a squared
    distance that fits the dtype is computed exactly. *)
Lemma connected_along_section (self self' : t F) (c : cube.t F) :
  connect self c = (self', Return tt) ->
  let dt := coords_dtype (class self) in
  exists (x y : list Z) (s : list F),
    _x self' = Some x /\ _y self' = Some y /\ _s self' = Some s
    /\ length y = length x
    /\ length s = Nat.max 1 (length x)
    /\ (forall d, nth 0 s d = f_zero)
    /\ (forall d i, S i < length x ->
          nth (S i) s d
          = f_add (nth i s d)
              (f_sqrt_int (sqrt_dtype dt) (nth i (squared_steps dt x y) 0%Z)))
    /\ (forall i, S i < length x ->
          ((nth (S i) x 0 - nth i x 0) ^ 2 + (nth (S i) y 0 - nth i y 0) ^ 2
           <= iinfo_max dt)%Z ->
          nth i (squared_steps dt x y) 0%Z
          = ((nth (S i) x 0 - nth i x 0) ^ 2 + (nth (S i) y 0 - nth i y 0) ^ 2)%Z).
Proof.
  intros Hc dt.
  destruct (connect_returns _ _ Hc) as [_ [_ [_ [_ [_ [x [y [Hx [Hy [Hxy Hs]]]]]]]]]].
  pose proof (coords_of_length _ _ _ _ Hxy) as Hlen.
  exists x, y, (np.cumsum (np.hstack0 (np.sqrt dt (squared_steps dt x y)))).
  split; [exact Hx | split; [exact Hy | split; [exact Hs | split; [exact Hlen | ]]]].
  split; [rewrite along_length, squared_steps_length by exact Hlen; lia | ].
  split; [intros d; apply along_first | ].
  split.
  - intros d i Hi.
    now rewrite along_step by (rewrite squared_steps_length by exact Hlen; lia).
  - intros i Hi Hfit. now apply squared_steps_nth.
Qed.
End Connect.

(** ** The trace of a path section *)

Lemma combine_columns (p : list (Z * Z)) :
  combine (map snd p) (map fst p) = map (fun r => (snd r, fst r)) p.
Proof. induction p as [| r p IH]; simpl; [reflexivity | now rewrite IH]. Qed.

(** The trace of a connected path section is the path with the two columns
    exchanged, row by row: column 1 of the path is read as x and column 0 as
    y. *)
Lemma path_trace (F : Type) (ops : Float64 F) (self self' : t F) (c : cube.t F)
    (dt : int_dtype) (p : list (Z * Z)) :
  class self = PathSection dt p ->
  connect self c = (self', Return tt) ->
  trace self' = Return (map (fun r => (snd r, fst r)) p)
  /\ PathSection.path self' = Raise (AttributeError (NoSuchAttribute "_trace")).
Proof.
  intros Hcls Hc. split; [ | reflexivity].
  destruct (connect_returns _ _ Hc) as [_ [_ [_ [_ [_ [x [y [Hx [Hy [Hxy _]]]]]]]]]].
  rewrite Hcls in Hxy. simpl in Hxy. destruct Hxy as [-> ->].
  unfold trace. rewrite Hx, Hy. simpl. unfold np.column_stack.
  rewrite !length_map, Nat.eqb_refl. now rewrite combine_columns.
Qed.

(** C1.  The path [[0, 1], [2, 3]] on the demonstration cube: the section
    connects, and its trace is [[1, 0], [3, 2]], which is not the path. *)
Theorem path_trace_is_not_the_path :
  exists sec : t PrimFloat.float,
    PathSection.__init__ [Demo.rcm8] int64 [(0, 1); (2, 3)]%Z = Return sec
    /\ trace sec = Return [(1, 0); (3, 2)]%Z
    /\ trace sec <> Return [(0, 1); (2, 3)]%Z.
Proof.
  eexists. split; [vm_compute; reflexivity | ].
  split; [reflexivity | discriminate].
Qed.

(** ** The along-section coordinate *)

Lemma steps_nowhere_decreasing (s : list R) (n : nat) :
  (forall i, S i < n -> (nth i s 0 <= nth (S i) s 0)%R) ->
  forall i j, i <= j < n -> (nth i s 0 <= nth j s 0)%R.
Proof.
  intros Hstep i j [Hij Hj]. induction Hij as [| j Hij IH].
  - apply Rle_refl.
  - apply Rle_trans with (nth j s 0%R); [apply IH; lia | apply Hstep; lia].
Qed.

Lemma along_is_cumulative_distance (dt : int_dtype) (x y : list Z) :
  length y = length x -> 1 <= length x -> squares_fit dt x y ->
  cumulative_distance x y
    (np.cumsum (np.hstack0 (np.sqrt dt (squared_steps dt x y)))).
Proof.
  intros Hxy HM Hfit. rewrite (squared_steps_exact Hfit).
  assert (Hlen : length (squared_distances x y) = pred (length x))
    by now apply squared_distances_length.
  assert (Hstep : forall i, S i < length x ->
            nth (S i) (np.cumsum (np.hstack0 (np.sqrt dt (squared_distances x y)))) 0%R
            = (nth i (np.cumsum (np.hstack0 (np.sqrt dt (squared_distances x y)))) 0
               + sqrt (IZR ((nth (S i) x 0 - nth i x 0) ^ 2
                            + (nth (S i) y 0 - nth i y 0) ^ 2)%Z))%R).
  { intros i Hi. rewrite along_step by lia.
    now rewrite squared_distances_nth. }
  repeat split.
  - rewrite along_length, Hlen. lia.
  - intros i [Hi1 Hi]. destruct i as [| i]; [lia | ].
    replace (S i - 1) with i by lia. apply Hstep, Hi.
  - apply steps_nowhere_decreasing. intros i Hi. rewrite Hstep by exact Hi.
    match goal with |- (_ <= _ + sqrt ?r)%R => pose proof (sqrt_pos r) end. lra.
Qed.




(** ** The strike section *)

Lemma arange_nth (n i : nat) : i < n -> nth i (np.arange n) 0%Z = Z.of_nat i.
Proof.
  intros Hi. unfold np.arange.
  rewrite (map_nth Z.of_nat (seq 0 n) 0 i : nth i (map _ _) 0%Z = _).
  now rewrite seq_nth.
Qed.

Lemma tile_nth (y0 : Z) (n i : nat) : i < n -> nth i (np.tile y0 n) 0%Z = y0.
Proof.
  intros Hi. unfold np.tile.
  rewrite (nth_indep _ 0%Z y0) by now rewrite repeat_length.
  apply nth_repeat.
Qed.

(** The steps of a strike section are 1 along x and 0 along y: their
    squares fit the integer of the platform, and nothing wraps. *)
Lemma strike_squares_fit (y0 : Z) (nx : nat) :
  squares_fit int64 (np.arange nx) (np.tile y0 nx).
Proof.
  assert (Hlx : length (np.arange nx) = nx)
    by (unfold np.arange; now rewrite length_map, length_seq).
  assert (Hly : length (np.tile y0 nx) = length (np.arange nx))
    by (unfold np.tile; now rewrite repeat_length, Hlx).
  apply Forall_nth. intros i d Hi.
  rewrite squared_distances_length, Hlx in Hi by exact Hly.
  rewrite (nth_indep _ d 0%Z) by (rewrite squared_distances_length, Hlx; [lia | exact Hly]).
  rewrite squared_distances_nth by (try exact Hly; rewrite Hlx; lia).
  rewrite !arange_nth, !tile_nth by lia.
  replace ((Z.of_nat (S i) - Z.of_nat i) ^ 2 + (y0 - y0) ^ 2)%Z with 1%Z by nia.
  vm_compute. discriminate.
Qed.

(** C4.  A strike section at [y0] connects to every cube that has the
    variable eta; when eta has nx >= 1 columns, x is 0, 1, ..., nx-1, y is nx
    times [y0], and s has length nx, starts at 0 and grows by exactly 1 at
    every step. *)
Theorem strike_section_coordinates
    (self : t R) (c : cube.t R) (eta : array3 R) (y0 : Z)
    (Hclass : class self = StrikeSection y0)
    (Hcube : cube.issubclass_BaseCube (cube.type c) = true)
    (Heta : cube.getitem c "eta" = Some eta)
    (Hnx : 1 <= snd (shape3 eta)) :
  exists (self' : t R) (x y : list Z) (s : list R),
    connect self c = (self', Return tt)
    /\ _x self' = Some x /\ _y self' = Some y /\ BaseSection.s self' = Some s
    /\ strike_coordinates y0 (snd (shape3 eta)) x y s.
Proof.
  set (nx := snd (shape3 eta)) in *.
  assert (Hxy : coords_of (class self) c (np.arange nx) (np.tile y0 nx)).
  { rewrite Hclass. exists eta. repeat split. exact Heta. }
  destruct (connect_succeeds self c _ _ Hcube Hxy) as [self' [Hc [Hx Hy]]].
  destruct (connect_returns _ _ Hc)
    as [_ [_ [_ [_ [_ [x' [y' [Hx' [Hy' [_ Hs]]]]]]]]]].
  rewrite Hx in Hx'. injection Hx' as <-.
  rewrite Hy in Hy'. injection Hy' as <-.
  rewrite Hclass in Hs. simpl coords_dtype in Hs.
  assert (Hlx : length (np.arange nx) = nx)
    by (unfold np.arange; now rewrite length_map, length_seq).
  assert (Hly : length (np.tile y0 nx) = length (np.arange nx))
    by (unfold np.tile; now rewrite repeat_length, Hlx).
  destruct (@along_is_cumulative_distance int64 _ _ Hly)
    as [Hs_len [Hs0 [Hstep _]]];
    [rewrite Hlx; exact Hnx | apply strike_squares_fit | ].
  set (s := np.cumsum (np.hstack0 (np.sqrt int64
                (squared_steps int64 (np.arange nx) (np.tile y0 nx))))) in *.
  rewrite Hlx in *.
  exists self', (np.arange nx), (np.tile y0 nx), s.
  split; [exact Hc | split; [exact Hx | split; [exact Hy | split; [exact Hs | ]]]].
  split; [reflexivity | split; [reflexivity | ]].
  split; [exact Hs_len | split; [exact Hs0 | ]].
  intros i Hi.
  assert (E : nth (S i) s 0%R = (nth i s 0 + 1)%R).
  { rewrite (Hstep (S i)) by lia. replace (S i - 1) with i by lia.
    rewrite !arange_nth, !tile_nth by lia.
    replace ((Z.of_nat (S i) - Z.of_nat i) ^ 2 + (y0 - y0) ^ 2)%Z with 1%Z by nia.
    now rewrite sqrt_1. }
  split; [exact E | rewrite E; lra].
Qed.

Lemma strike_section_coordinates_witness :
  exists (self' : t R) (x y : list Z) (s : list R),
    connect (unconnected (StrikeSection 1)) (Demo.real_volume 1 3 4) = (self', Return tt)
    /\ _x self' = Some x /\ _y self' = Some y /\ BaseSection.s self' = Some s
    /\ strike_coordinates 1 4 x y s.
Proof.
  apply (@strike_section_coordinates (unconnected (StrikeSection 1))
           (Demo.real_volume 1 3 4) (Demo.grid IZR 1 3 4) 1%Z);
    [reflexivity | reflexivity | reflexivity | simpl; lia].
Defined.

(** ** Extraction of a variable and its spacetime display *)

Section RoundTrip.
Context {F : Type} `{Float64 F}.

Lemma mapM_length {A B : Type} (f : A -> outcome B) (l : list A) (r : list B) :
  np.mapM f l = Return r -> length r = length l.
Proof.
  revert r. induction l as [| a l IH]; intros r; simpl.
  - intros E. injection E as <-. reflexivity.
  - destruct (f a) as [b | e | ]; simpl; try discriminate.
    destruct (np.mapM f l) as [bs | e | ]; simpl; try discriminate.
    intros E. injection E as <-. simpl. now rewrite (IH bs eq_refl).
Qed.

Lemma take_shape {A : Type} (a : array3 A) (ys xs : list Z) (d : array2 A) :
  length ys = length xs ->
  np.take a ys xs = Return d -> has_shape d (layers a) (length xs).
Proof.
  intros Hlen. unfold np.take, layers, np.broadcast.
  destruct (shape3 a) as [[nt ny] nx]. simpl fst.
  rewrite Hlen, Nat.eqb_refl. simpl bind.
  destruct (np.mapM _ _) as [cells | e | ] eqn:Hcells; simpl; try discriminate.
  intros E. injection E as <-.
  apply mapM_length in Hcells.
  unfold np.map2 in Hcells. rewrite length_map, length_combine, Hlen, Nat.min_id in Hcells.
  split.
  - now rewrite length_map, length_seq.
  - apply Forall_forall. intros r Hr. apply in_map_iff in Hr.
    destruct Hr as [t [<- _]]. now rewrite length_map.
Qed.

(** Whether a slice raises depends on the shape of the array only. *)
Lemma take_same_shape {A B : Type} (a : array3 A) (b : array3 B) (ys xs : list Z)
    (d : array2 A) :
  shape3 b = shape3 a -> np.take a ys xs = Return d ->
  exists m, np.take b ys xs = Return m.
Proof.
  intros Hshape. unfold np.take. rewrite Hshape.
  destruct (shape3 a) as [[nt ny] nx].
  destruct (np.broadcast _ _ ys xs) as [idx | e | ]; simpl; try discriminate.
  destruct (np.mapM _ idx) as [cells | e | ]; simpl; try discriminate.
  intros _. eexists. reflexivity.
Qed.

Lemma meshgrid_shape (s z : list F) :
  has_shape (fst (np.meshgrid s z)) (length z) (length s)
  /\ has_shape (snd (np.meshgrid s z)) (length z) (length s).
Proof.
  unfold np.meshgrid, has_shape. simpl. repeat split.
  - apply repeat_length.
  - apply Forall_forall. intros r Hr. now apply repeat_spec in Hr as ->.
  - apply length_map.
  - apply Forall_forall. intros r Hr. apply in_map_iff in Hr.
    destruct Hr as [zj [<- _]]. apply repeat_length.
Qed.

(** The variable that indexing a connected section builds from a data cube:
    its array is the slice, its coordinates are those of the section. *)
Lemma getitem_data (sec : t F) (c : cube.t F) (var : string) (a : array3 F)
    (x y : list Z) (s z : list F) (d : array2 F) :
  cube sec = Some c -> cube.type c = cube.DataCube ->
  cube.getitem c var = Some a ->
  _x sec = Some x -> _y sec = Some y -> _s sec = Some s -> _z sec = Some z ->
  np.take a y x = Return d ->
  (cube._knows_stratigraphy c = true -> shape3 (cube.strat_attr_psvd_idx c) = shape3 a) ->
  exists dv, __getitem__ sec var = Return (DataVariable dv)
             /\ DataSectionVariable.base dv
                = BaseSectionVariable.__new__ d s z (_psvd_mask (DataSectionVariable.base dv))
             /\ DataSectionVariable.knows_stratigraphy dv = cube._knows_stratigraphy c.
Proof.
  intros Hc Hty Ha Hx Hy Hs Hz Htake Hpsvd.
  unfold __getitem__, slice, BaseSection.s, BaseSection.z.
  rewrite Hc, Hty, Ha, Hx, Hy, Hs, Hz. simpl. rewrite Htake. simpl.
  destruct (cube._knows_stratigraphy c) eqn:Hk.
  - destruct (take_same_shape a (cube.strat_attr_psvd_idx c) y x (Hpsvd eq_refl) Htake)
      as [m Hm].
    rewrite Hm. simpl. eexists. repeat split.
  - eexists. repeat split.
Qed.
End RoundTrip.

(** C5 (amended).  For a section of at least one point connected to a data
    cube whose [z] has one entry per layer of the variable (and whose
    preservation array, when it knows stratigraphy, has the shape of the
    variable), and whose footprint lies in the grid, so that the direct slice
    [d] exists: the spacetime display of [sec[var]] returns [d] with the
    meshes of s and z, and the three arrays have the shape (Z, M). *)
Theorem spacetime_display_round_trip
    (F : Type) (ops : Float64 F)
    (self sec : t F) (c : cube.t F) (var key : string) (a : array3 F)
    (x y : list Z) (d : array2 F)
    (Hconnect : connect self c = (sec, Return tt))
    (Hdata : cube.type c = cube.DataCube)
    (Hvar : cube.getitem c var = Some a)
    (Hx : _x sec = Some x) (Hy : _y sec = Some y)
    (Hslice : np.take a y x = Return d)
    (Hpsvd : cube._knows_stratigraphy c = true ->
             shape3 (cube.strat_attr_psvd_idx c) = shape3 a)
    (Hz : length (cube.z c) = layers a)
    (HM : 1 <= length x)
    (Hkey : py_in key _spacetime_names = true) :
  exists (s : list F) (S Zm : array2 F),
    BaseSection.s sec = Some s
    /\ (S, Zm) = np.meshgrid s (cube.z c)
    /\ (v <- __getitem__ sec var ;; get_display_arrays v (Some key))
       = Return (Plain d, S, Zm)
    /\ has_shape d (layers a) (length x)
    /\ has_shape S (layers a) (length x)
    /\ has_shape Zm (layers a) (length x).
Proof.
  destruct (connect_returns _ _ Hconnect)
    as [_ [_ [Hc [_ [Hzs [x' [y' [Hx' [Hy' [Hxy Hs]]]]]]]]]].
  rewrite Hx in Hx'. injection Hx' as <-.
  rewrite Hy in Hy'. injection Hy' as <-.
  pose proof (coords_of_length _ _ _ _ Hxy) as Hlen.
  set (s := np.cumsum (np.hstack0 (np.sqrt _ (squared_steps _ x y)))) in *.
  assert (Hls : length s = length x).
  { unfold s. rewrite along_length, squared_steps_length by exact Hlen. lia. }
  destruct (getitem_data sec var Hc Hdata Hvar Hx Hy Hs Hzs Hslice Hpsvd)
    as [dv [Hget [Hbase _]]].
  exists s, (fst (np.meshgrid s (cube.z c))), (snd (np.meshgrid s (cube.z c))).
  split; [exact Hs | split; [now destruct (np.meshgrid s (cube.z c)) | ]].
  split.
  { rewrite Hget. simpl. unfold DataSectionVariable.get_display_arrays.
    simpl style_or. rewrite Hkey, Hbase. reflexivity. }
  split; [exact (take_shape a y x Hlen Hslice) | ].
  rewrite <- Hz, <- Hls. apply meshgrid_shape.
Qed.

Lemma spacetime_display_round_trip_witness :
  let sec := fst (connect (unconnected (StrikeSection 1)) (Demo.volume Demo.num cube.DataCube 1 3 4)) in
  exists (s : list PrimFloat.float) (S Zm : array2 PrimFloat.float),
    BaseSection.s sec = Some s
    /\ (S, Zm) = np.meshgrid s [Demo.num 0]
    /\ (v <- __getitem__ sec "velocity" ;; get_display_arrays v (Some "spacetime"%string))
       = Return (Plain [[Demo.num 10; Demo.num 11; Demo.num 12; Demo.num 13]], S, Zm)
    /\ has_shape [[Demo.num 10; Demo.num 11; Demo.num 12; Demo.num 13]] 1 4
    /\ has_shape S 1 4
    /\ has_shape Zm 1 4.
Proof.
  cbv zeta.
  apply (@spacetime_display_round_trip PrimFloat.float _
           (unconnected (StrikeSection 1)) _
           (Demo.volume Demo.num cube.DataCube 1 3 4)
           "velocity"%string "spacetime"%string (Demo.grid Demo.num 1 3 4)
           [0; 1; 2; 3]%Z [1; 1; 1; 1]%Z);
    first [reflexivity | simpl; lia].
Defined.

(** C5 as stated fails on the path without points: the data of the display
    has no column, and the meshes have one. *)
Lemma empty_path_display_shapes :
  let sec := fst (connect (unconnected (PathSection int64 [])) Demo.rcm8) in
  snd (connect (unconnected (PathSection int64 [])) Demo.rcm8) = Return tt
  /\ (v <- __getitem__ sec "eta" ;; get_display_arrays v (Some "spacetime"%string))
     = Return (Plain [[]; []],
               [[Demo.num 0]; [Demo.num 0]], [[Demo.num 0]; [Demo.num 1]])
  /\ ~ spacetime_round_trip sec Demo.rcm8 "eta" "spacetime".
Proof.
  cbv zeta. split; [vm_compute; reflexivity | ].
  split; [vm_compute; reflexivity | ].
  intros [a [x [y [d [S [Zm [_ [Hx [_ [_ [Hv [_ [[_ HS] _]]]]]]]]]]]]].
  vm_compute in Hx. injection Hx as <-.
  vm_compute in Hv. injection Hv as _ <- _.
  apply Forall_inv in HS. discriminate.
Qed.

(** ** The stratigraphy display of a data variable *)

Section Stratigraphy.
Context {F : Type} `{Float64 F}.

Lemma update_length {A : Type} (f : A -> A) (i : nat) (l : list A) :
  length (sparse.update f i l) = length l.
Proof.
  revert i. induction l as [| a l IH]; intros [| i]; simpl; try reflexivity.
  now rewrite IH.
Qed.

Lemma update_Forall {A : Type} (P : A -> Prop) (f : A -> A) (i : nat) (l : list A) :
  (forall a, P a -> P (f a)) -> Forall P l -> Forall P (sparse.update f i l).
Proof.
  intros Hf. revert i. induction l as [| a l IH]; intros [| i] Hl; simpl;
    inversion Hl; subst; constructor; auto.
Qed.

Lemma add_at_shape (dense : array2 F) (entry : F * (nat * nat)) (n m : nat) :
  has_shape dense n m -> has_shape (sparse.add_at dense entry) n m.
Proof.
  destruct entry as [v [r c]]. intros [Hn Hm]. unfold sparse.add_at. split.
  - now rewrite update_length.
  - apply update_Forall; [ | exact Hm].
    intros row Hrow. now rewrite update_length.
Qed.


Lemma coo_matrix_returns (d : list F) (r c : list nat) :
  r <> [] -> length r = length d -> length c = length d ->
  sparse.coo_matrix d r c
  = Return {| sparse.shape := (S (list_max r), S (list_max c));
              sparse.data := d; sparse.row := r; sparse.col := c |}.
Proof.
  intros Hr Hlr Hlc. unfold sparse.coo_matrix.
  destruct r as [| r0 r']; [contradiction | ].
  destruct c as [| c0 c']; [destruct d; simpl in *; discriminate | ].
  rewrite Hlr, Hlc, Nat.eqb_refl. reflexivity.
Qed.
End Stratigraphy.









(** ** Runs on binary64 *)

(** A strike section at row 1 of a volume of one layer and four columns: s is
    0, 1, 2, 3, and the spacetime display of eta is the row, with the S mesh
    row 0, 1, 2, 3. *)
Example strike_of_four_columns :
  exists sec : t PrimFloat.float,
    StrikeSection.__init__ [Demo.volume Demo.num cube.DataCube 1 3 4] (Some 1%Z)
    = Return sec
    /\ BaseSection.s sec = Some [Demo.num 0; Demo.num 1; Demo.num 2; Demo.num 3]
    /\ trace sec = Return [(0, 1); (1, 1); (2, 1); (3, 1)]%Z
    /\ (v <- __getitem__ sec "eta" ;; get_display_arrays v None)
       = Return (Plain [[Demo.num 10; Demo.num 11; Demo.num 12; Demo.num 13]],
                 [[Demo.num 0; Demo.num 1; Demo.num 2; Demo.num 3]],
                 [[Demo.num 0; Demo.num 0; Demo.num 0; Demo.num 0]]).
Proof.
  eexists. split; [vm_compute; reflexivity | ].
  repeat split; vm_compute; reflexivity.
Qed.

(** A negative strike index counts from the last row, and an index off the
    grid raises when the variable is extracted, not when the section
    connects. *)
Example strike_index_from_the_end :
  (sec <- StrikeSection.__init__ [Demo.rcm8] (Some (-1)%Z) ;;
   v <- __getitem__ sec "eta" ;; get_display_arrays v (Some "full"%string))
  = Return (Plain [[Demo.num 20; Demo.num 21; Demo.num 22; Demo.num 23];
                   [Demo.num 120; Demo.num 121; Demo.num 122; Demo.num 123]],
            [[Demo.num 0; Demo.num 1; Demo.num 2; Demo.num 3];
             [Demo.num 0; Demo.num 1; Demo.num 2; Demo.num 3]],
            [[Demo.num 0; Demo.num 0; Demo.num 0; Demo.num 0];
             [Demo.num 1; Demo.num 1; Demo.num 1; Demo.num 1]])
  /\ (sec <- StrikeSection.__init__ [Demo.rcm8] (Some 3%Z) ;;
      v <- __getitem__ sec "eta" ;; get_display_arrays v (Some "full"%string))
     = Raise IndexError.
Proof. split; vm_compute; reflexivity. Qed.

(** The display lines of the demonstration variable in the stratigraphy
    style: one segment per row and pair of neighbouring columns, from
    (s, strata) at the left column to (s, strata) at the right column, with
    the value of the left cell. *)
Example stratigraphy_lines :
  get_display_lines (DataVariable Demo.with_stratigraphy) (Some "strata"%string)
  = Return (Plain [[Demo.num 1; Demo.num 2]; [Demo.num 4; Demo.num 5]],
            [((Demo.num 0, Demo.num 0), (Demo.num 1, Demo.num 0));
             ((Demo.num 1, Demo.num 0), (Demo.num 2, Demo.num 0));
             ((Demo.num 0, Demo.num 1), (Demo.num 1, Demo.num 1));
             ((Demo.num 1, Demo.num 1), (Demo.num 2, Demo.num 2))]).
Proof. vm_compute. reflexivity. Qed.

(** Squares that wrap around, and roots in the narrower dtypes.  Along a
    path of the dtype int16 a step of 200 squares to 40000 - 65536 = -25536,
    whose root is not a number; along a path of int32 a step of 65536 squares
    to 0, so that s stays although the points differ, and a step of 100000 to
    1410065408, so that s grows by 37550.8; a diagonal step of an int16 path
    has the root of 2 in single precision, and of an int8 path in half
    precision. *)
Section WrappedSquares.
Import PrimFloat.

Example wrapped_squares :
  (exists v, path_s Demo.rcm8 int16 [(0, 0); (0, 200)]%Z = Some [0%float; v]
             /\ is_nan v = true)
  /\ path_s Demo.rcm8 int32 [(0, 0); (0, 65536)]%Z = Some [0; 0]%float
  /\ path_s Demo.rcm8 int32 [(0, 0); (0, 100000)]%Z
     = Some [0; 0x1.255dace0152a4p+15]%float
  /\ path_s Demo.rcm8 int64 [(0, 0); (0, 100000)]%Z = Some [0; 100000]%float
  /\ path_s Demo.rcm8 int64 [(0, 0); (1, 1)]%Z = Some [0; 0x1.6a09e667f3bcdp+0]%float
  /\ path_s Demo.rcm8 int16 [(0, 0); (1, 1)]%Z = Some [0; 0x1.6a09e6p+0]%float
  /\ path_s Demo.rcm8 int8 [(0, 0); (1, 1)]%Z = Some [0; 0x1.6ap+0]%float.
Proof.
  split; [eexists; split; vm_compute; reflexivity | ].
  repeat split; vm_compute; reflexivity.
Qed.
End WrappedSquares.

(** * Further properties *)

(** ** The along-section coordinate depends on the steps only *)

Lemma map2_comm {A B : Type} (f : A -> A -> B) (a b : list A) :
  (forall u v, f u v = f v u) -> np.map2 f a b = np.map2 f b a.
Proof.
  intros Hf. unfold np.map2. revert b.
  induction a as [| u a IH]; intros [| v b]; simpl; try reflexivity.
  now rewrite Hf, IH.
Qed.

Lemma squared_steps_swap (dt : int_dtype) (x y : list Z) :
  squared_steps dt x y = squared_steps dt y x.
Proof. unfold squared_steps. apply map2_comm. intros u v. f_equal. lia. Qed.

Lemma steps_shift (d : Z) (x : list Z) : steps (map (fun v => (v + d)%Z) x) = steps x.
Proof.
  induction x as [| a [| b t] IH]; [reflexivity | reflexivity | ].
  change (map (fun v => (v + d)%Z) (a :: b :: t))
    with ((a + d)%Z :: (b + d)%Z :: map (fun v => (v + d)%Z) t).
  rewrite !steps_cons. f_equal; [lia | exact IH].
Qed.

Lemma diff_shift (dt : int_dtype) (d : Z) (x : list Z) :
  diff dt (map (fun v => (v + d)%Z) x) = diff dt x.
Proof. now rewrite !diff_steps, steps_shift. Qed.

Lemma squared_steps_shift (dt : int_dtype) (dx dy : Z) (x y : list Z) :
  squared_steps dt (map (fun v => (v + dx)%Z) x) (map (fun v => (v + dy)%Z) y)
  = squared_steps dt x y.
Proof. unfold squared_steps. now rewrite !diff_shift. Qed.

Lemma path_s_steps (F : Type) (ops : Float64 F) (c : cube.t F) (dt : int_dtype)
    (p : list (Z * Z)) :
  cube.issubclass_BaseCube (cube.type c) = true ->
  path_s c dt p
  = Some (np.cumsum (np.hstack0
                       (np.sqrt dt (squared_steps dt (map snd p) (map fst p))))).
Proof.
  intros Hsub. unfold path_s.
  destruct (connect_succeeds (unconnected (PathSection dt p)) c (map snd p) (map fst p)
              Hsub)
    as [self' [Hc [Hx Hy]]]; [split; reflexivity | ].
  rewrite Hc. simpl fst.
  destruct (connect_returns _ _ Hc) as [_ [_ [_ [_ [_ [x [y [Hx' [Hy' [_ Hs]]]]]]]]]].
  rewrite Hx in Hx'. injection Hx' as <-. rewrite Hy in Hy'. injection Hy' as <-.
  exact Hs.
Qed.

(** X1.  The along-section coordinate of a path section depends on the
    steps between consecutive points only: exchanging the two columns of the
    path, or moving the whole path by (dx, dy), gives the same s, in any
    arithmetic and for a path of any integer dtype. *)
Theorem path_distance_of_steps_only
    (F : Type) (ops : Float64 F) (c : cube.t F) (dt : int_dtype)
    (p : list (Z * Z)) (dx dy : Z)
    (Hcube : cube.issubclass_BaseCube (cube.type c) = true) :
  exists s : list F,
    path_s c dt p = Some s
    /\ path_s c dt (map (fun r => (snd r, fst r)) p) = Some s
    /\ path_s c dt (map (fun r => (fst r + dy, snd r + dx)%Z) p) = Some s.
Proof.
  eexists. split; [apply path_s_steps, Hcube | ].
  split; rewrite (path_s_steps _ _ _ _ Hcube), !map_map; simpl; do 4 f_equal.
  - rewrite squared_steps_swap. reflexivity.
  - rewrite <- (squared_steps_shift dt dx dy (map snd p) (map fst p)), !map_map.
    reflexivity.
Qed.

Lemma path_distance_of_steps_only_witness :
  exists s : list PrimFloat.float,
    path_s Demo.rcm8 int64 [(0, 1); (2, 3)]%Z = Some s
    /\ path_s Demo.rcm8 int64 [(1, 0); (3, 2)]%Z = Some s
    /\ path_s Demo.rcm8 int64 [(10, 6); (12, 8)]%Z = Some s.
Proof.
  exact (@path_distance_of_steps_only PrimFloat.float _ Demo.rcm8 int64
           [(0, 1); (2, 3)]%Z 5%Z 10%Z eq_refl).
Defined.

(** ** Repeated points *)

Lemma squares_positive (a b : Z) : (0 < a ^ 2 + b ^ 2 <-> a <> 0 \/ b <> 0)%Z.
Proof. nia. Qed.

(** X2.  Over the real numbers, s grows strictly from one point of a
    connected section to the next exactly when the two points differ, and
    stays at a repeated point, provided the squared distance between the two
    points does not exceed the largest value of the integer dtype of x and
    y. *)
Theorem distance_grows_unless_point_repeats
    (self self' : t R) (c : cube.t R) (x y : list Z) (s : list R) (i : nat)
    (Hconnect : connect self c = (self', Return tt))
    (Hx : _x self' = Some x) (Hy : _y self' = Some y) (Hs : _s self' = Some s)
    (Hi : S i < length x)
    (Hfit : ((nth (S i) x 0 - nth i x 0) ^ 2 + (nth (S i) y 0 - nth i y 0) ^ 2
             <= iinfo_max (coords_dtype (class self')))%Z) :
  ((nth i s 0 < nth (S i) s 0)%R
   <-> (nth (S i) x 0%Z, nth (S i) y 0%Z) <> (nth i x 0%Z, nth i y 0%Z))
  /\ (nth (S i) s 0%R = nth i s 0%R
      <-> (nth (S i) x 0%Z, nth (S i) y 0%Z) = (nth i x 0%Z, nth i y 0%Z)).
Proof.
  destruct (connect_returns _ _ Hconnect) as [_ [Hcls _]]. rewrite Hcls in Hfit.
  destruct (connected_along_section _ _ Hconnect)
    as [x' [y' [s' [Hx' [Hy' [Hs' [_ [_ [_ [Hstep Hexact]]]]]]]]]].
  rewrite Hx in Hx'. injection Hx' as <-. rewrite Hy in Hy'. injection Hy' as <-.
  rewrite Hs in Hs'. injection Hs' as <-.
  rewrite (Hstep 0%R i Hi), (Hexact i Hi Hfit). cbn [f_add f_sqrt_int Float64_R].
  set (a := (nth (S i) x 0 - nth i x 0)%Z) in *.
  set (b := (nth (S i) y 0 - nth i y 0)%Z) in *.
  assert (Hsame : (nth (S i) x 0%Z, nth (S i) y 0%Z) = (nth i x 0%Z, nth i y 0%Z)
                  <-> (a = 0 /\ b = 0)%Z).
  { unfold a, b. split.
    - intros E. injection E as E1 E2. lia.
    - intros [E1 E2]. f_equal; lia. }
  destruct (Z.eq_dec (a ^ 2 + b ^ 2) 0) as [E0 | Hpos].
  - assert (Hab : (a = 0 /\ b = 0)%Z) by nia.
    rewrite E0, sqrt_0, Rplus_0_r. split; split.
    + intros Hlt. lra.
    + intros Hne. exfalso. apply Hne, Hsame, Hab.
    + intros _. apply Hsame, Hab.
    + reflexivity.
  - assert (Hlt : (0 < sqrt (IZR (a ^ 2 + b ^ 2)))%R).
    { apply sqrt_lt_R0. apply IZR_lt. nia. }
    assert (Hab : ~ (a = 0 /\ b = 0)%Z) by nia.
    split; split.
    + intros _ E. apply Hab, Hsame, E.
    + intros _. lra.
    + intros E. lra.
    + intros E. exfalso. apply Hab, Hsame, E.
Qed.

Lemma distance_grows_unless_point_repeats_witness :
  let sec := fst (connect (unconnected (PathSection int64 [(0, 0); (0, 0); (4, 3)]%Z))
                          (Demo.real_volume 2 5 5)) in
  exists s : list R,
    _s sec = Some s
    /\ nth 1 s 0%R = nth 0 s 0%R
    /\ ((nth 1 s 0 < nth 2 s 0)%R <-> (3, 4)%Z <> (0, 0)%Z).
Proof.
  cbv zeta.
  set (self := unconnected (PathSection int64 [(0, 0); (0, 0); (4, 3)]%Z)).
  set (vol := Demo.real_volume 2 5 5).
  eexists. split; [reflexivity | ].
  split.
  - apply (@distance_grows_unless_point_repeats self (fst (connect self vol)) vol
             [0; 0; 3]%Z [0; 0; 4]%Z _ 0);
      [reflexivity | reflexivity | reflexivity | reflexivity | simpl; lia
      | vm_compute; discriminate | reflexivity].
  - apply (@distance_grows_unless_point_repeats self (fst (connect self vol)) vol
             [0; 0; 3]%Z [0; 0; 4]%Z _ 1);
      [reflexivity | reflexivity | reflexivity | reflexivity | simpl; lia
      | vm_compute; discriminate].
Defined.

(** ** The display limits of an extracted variable *)

Lemma in_flatten_repeat {A : Type} (v : A) (s : list A) (n : nat) :
  In v (np.flatten (repeat s n)) <-> 0 < n /\ In v s.
Proof.
  unfold np.flatten. induction n as [| n IH]; simpl.
  - split; [contradiction | intros [Hn _]; lia].
  - rewrite in_app_iff, IH. split.
    + intros [Hv | [_ Hv]]; split; auto; lia.
    + intros [_ Hv]. now left.
Qed.

Lemma in_flatten_columns {A : Type} (v : A) (z : list A) (m : nat) :
  In v (np.flatten (map (fun zj => repeat zj m) z)) <-> 0 < m /\ In v z.
Proof.
  unfold np.flatten. induction z as [| z0 z IH]; simpl.
  - split; [contradiction | intros [_ []]].
  - rewrite in_app_iff, IH. split.
    + intros [Hv | [Hm Hv]].
      * destruct m as [| m]; [contradiction | ].
        apply repeat_spec in Hv as ->. split; [lia | now left].
      * split; [exact Hm | now right].
    + intros [Hm [<- | Hv]].
      * left. destruct m as [| m]; [lia | now left].
      * right. split; assumption.
Qed.

Lemma minimum_unique (a : array2 R) (m m' : R) :
  is_minimum m a -> is_minimum m' a -> m = m'.
Proof.
  intros [Hin Hle] [Hin' Hle']. apply Rle_antisym; auto.
Qed.

Lemma maximum_unique (a : array2 R) (m m' : R) :
  is_maximum m a -> is_maximum m' a -> m = m'.
Proof.
  intros [Hin Hle] [Hin' Hle']. apply Rle_antisym; auto.
Qed.

(** The minimum and the maximum of the two meshes are those of s and of z. *)
Lemma mesh_limits_of_coordinates (s z : list R) (s_min s_max z_min z_max : R) :
  s <> [] -> z <> [] ->
  is_minimum s_min [s] -> is_maximum s_max [s] ->
  is_minimum z_min [z] -> is_maximum z_max [z] ->
  mesh_limits (BaseSectionVariable.__new__ (F := R) [] s z None)
  = Return (s_min, s_max, z_min, z_max).
Proof.
  intros Hs Hz Hsmin Hsmax Hzmin Hzmax.
  unfold mesh_limits. simpl _S. simpl _Z.
  destruct (meshes_inhabited Hs Hz) as [HS HZ]. simpl in HS, HZ.
  assert (Hlz : 0 < length z) by (destruct z; [contradiction | simpl; lia]).
  assert (Hls : 0 < length s) by (destruct s; [contradiction | simpl; lia]).
  assert (Hflat : forall l : list R, np.flatten [l] = l)
    by (intros l; unfold np.flatten; simpl; apply app_nil_r).
  destruct (amin_is_minimum _ HS) as [a [-> Ha]].
  destruct (amax_is_maximum _ HS) as [b [-> Hb]].
  destruct (amin_is_minimum _ HZ) as [c [-> Hc]].
  destruct (amax_is_maximum _ HZ) as [d [-> Hd]].
  simpl.
  assert (Ea : a = s_min).
  { apply Rle_antisym.
    - apply Ha. apply in_flatten_repeat. split; [exact Hlz | ].
      rewrite <- (Hflat s). apply Hsmin.
    - apply Hsmin. rewrite Hflat. apply (in_flatten_repeat a s (length z)), Ha. }
  assert (Eb : b = s_max).
  { apply Rle_antisym.
    - apply Hsmax. rewrite Hflat. apply (in_flatten_repeat b s (length z)), Hb.
    - apply Hb. apply in_flatten_repeat. split; [exact Hlz | ].
      rewrite <- (Hflat s). apply Hsmax. }
  assert (Ec : c = z_min).
  { apply Rle_antisym.
    - apply Hc. apply in_flatten_columns. split; [exact Hls | ].
      rewrite <- (Hflat z). apply Hzmin.
    - apply Hzmin. rewrite Hflat. apply (in_flatten_columns c z (length s)), Hc. }
  assert (Ed : d = z_max).
  { apply Rle_antisym.
    - apply Hzmax. rewrite Hflat. apply (in_flatten_columns d z (length s)), Hd.
    - apply Hd. apply in_flatten_columns. split; [exact Hls | ].
      rewrite <- (Hflat z). apply Hzmax. }
  now subst.
Qed.

Lemma cumulative_distance_bounds (x y : list Z) (s : list R) :
  1 <= length x -> cumulative_distance x y s ->
  is_minimum 0%R [s] /\ is_maximum (nth (length x - 1) s 0%R) [s].
Proof.
  intros HM [Hlen [H0 [_ Hmono]]].
  assert (Hflat : np.flatten [s] = s) by (unfold np.flatten; simpl; apply app_nil_r).
  assert (E0 : nth 0 s 0%R = 0%R).
  { destruct s as [| s0 s']; [discriminate | ]. simpl in H0. now injection H0. }
  unfold is_minimum, is_maximum. rewrite Hflat. repeat split.
  - rewrite <- E0. apply nth_In. lia.
  - intros v Hv. destruct (In_nth _ _ 0%R Hv) as [i [Hi <-]].
    rewrite <- E0 at 1. apply Hmono. lia.
  - apply nth_In. lia.
  - intros v Hv. destruct (In_nth _ _ 0%R Hv) as [i [Hi <-]].
    apply Hmono. lia.
Qed.

(** X3.  The spacetime display limits of a variable extracted from a connected
    section of at least one point, on a data cube with at least one layer,
    when no squared distance between consecutive points exceeds the largest
    value of the integer dtype of x and y: horizontally from 0 to the total
    length of the section, the last entry of s, and vertically from the least
    to the greatest entry of the cube's z.  A preserved key gives the same
    limits, whether the cube knows stratigraphy or not. *)
Theorem limits_of_extracted_variable
    (self sec : t R) (c : cube.t R) (var key : string) (a : array3 R)
    (x y : list Z) (d : array2 R) (s : list R)
    (Hconnect : connect self c = (sec, Return tt))
    (Hdata : cube.type c = cube.DataCube)
    (Hvar : cube.getitem c var = Some a)
    (Hx : _x sec = Some x) (Hy : _y sec = Some y) (Hs : _s sec = Some s)
    (Hslice : np.take a y x = Return d)
    (Hpsvd : cube._knows_stratigraphy c = true ->
             shape3 (cube.strat_attr_psvd_idx c) = shape3 a)
    (HM : 1 <= length x)
    (Hfit : squares_fit (coords_dtype (class sec)) x y)
    (Hz : cube.z c <> [])
    (Hkey : py_in key _spacetime_names = true \/ py_in key _preserved_names = true) :
  exists z_min z_max : R,
    (v <- __getitem__ sec var ;; get_display_limits v (Some key))
    = Return (0%R, nth (length x - 1) s 0%R, z_min, z_max)
    /\ is_minimum z_min [cube.z c]
    /\ is_maximum z_max [cube.z c].
Proof.
  destruct (connect_returns _ _ Hconnect)
    as [_ [Hcls [Hc [_ [Hzs [x' [y' [Hx' [Hy' [Hxy Hs']]]]]]]]]].
  rewrite Hx in Hx'. injection Hx' as <-. rewrite Hy in Hy'. injection Hy' as <-.
  rewrite Hcls in Hfit.
  assert (Es : s = np.cumsum (np.hstack0
                      (np.sqrt (coords_dtype (class self))
                         (squared_steps (coords_dtype (class self)) x y))))
    by congruence.
  pose proof (coords_of_length _ _ _ _ Hxy) as Hlen.
  pose proof (along_is_cumulative_distance Hlen HM Hfit) as Hcd. rewrite <- Es in Hcd.
  destruct (cumulative_distance_bounds HM Hcd) as [Hsmin Hsmax].
  assert (Hsne : s <> []).
  { destruct Hcd as [Hl _]. destruct s; [simpl in Hl; lia | discriminate]. }
  assert (Hflat : np.flatten [cube.z c] <> []).
  { unfold np.flatten. simpl. rewrite app_nil_r. exact Hz. }
  destruct (amin_is_minimum _ Hflat) as [z_min [_ Hzmin]].
  destruct (amax_is_maximum _ Hflat) as [z_max [_ Hzmax]].
  destruct (getitem_data sec var Hc Hdata Hvar Hx Hy Hs Hzs Hslice Hpsvd)
    as [dv [Hget [Hbase _]]].
  exists z_min, z_max. split; [ | split; assumption].
  rewrite Hget. simpl bind. simpl get_display_limits.
  rewrite (limits_spacetime dv key Hkey), Hbase.
  exact (mesh_limits_of_coordinates Hsne Hz Hsmin Hsmax Hzmin Hzmax).
Qed.

Lemma limits_of_extracted_variable_witness :
  let sec := fst (connect (unconnected (PathSection int64 [(0, 0); (0, 3); (4, 3)]%Z))
                          (Demo.real_volume 2 5 5)) in
  exists (s : list R) (z_min z_max : R),
    _s sec = Some s
    /\ (v <- __getitem__ sec "eta" ;; get_display_limits v (Some "psvd"%string))
       = Return (0%R, nth 2 s 0%R, z_min, z_max)
    /\ is_minimum z_min [[0; 1]%R]
    /\ is_maximum z_max [[0; 1]%R].
Proof.
  cbv zeta.
  set (self := unconnected (PathSection int64 [(0, 0); (0, 3); (4, 3)]%Z)).
  set (vol := Demo.real_volume 2 5 5).
  destruct (@limits_of_extracted_variable self (fst (connect self vol)) vol
              "eta"%string "psvd"%string (Demo.grid IZR 2 5 5)
              [0; 3; 3]%Z [0; 0; 4]%Z _ _
              eq_refl eq_refl eq_refl eq_refl eq_refl eq_refl eq_refl)
    as [z_min [z_max [E [Hmin Hmax]]]].
  - discriminate.
  - simpl. lia.
  - each_square_fits.
  - discriminate.
  - right. reflexivity.
  - eexists. exists z_min, z_max. split; [reflexivity | ].
    split; [exact E | split; [exact Hmin | exact Hmax]].
Defined.

(** ** Stratigraphy-only variables *)

(** X4.  [get_display_lines] of a stratigraphy-only variable returns on no
    style: without a key and on a stratigraphy key it raises
    NotImplementedError, on a spacetime or preserved key the capability error,
    on any other key the value error. *)
Theorem stratigraphy_only_lines_never_return
    (F : Type) (ops : Float64 F) (sv : StratigraphySectionVariable.t F)
    (style : option string) :
  let key := style_or StratigraphySectionVariable._default_style style in
  get_display_lines (StratigraphyVariable sv) style
  = Raise (if py_in key _spacetime_names || py_in key _preserved_names
           then AttributeError NoSpacetimeInformation
           else if py_in key _stratigraphy_names then NotImplementedError
           else ValueError (BadStyleArgument key))
  /\ get_display_lines (StratigraphyVariable sv) None = Raise NotImplementedError
  /\ forall r, get_display_lines (StratigraphyVariable sv) style <> Return r.
Proof.
  cbv zeta. simpl get_display_lines.
  assert (E : StratigraphySectionVariable.get_display_lines sv style
              = Raise (if py_in (style_or StratigraphySectionVariable._default_style style)
                             _spacetime_names
                          || py_in (style_or StratigraphySectionVariable._default_style style)
                               _preserved_names
                       then AttributeError NoSpacetimeInformation
                       else if py_in (style_or StratigraphySectionVariable._default_style style)
                                 _stratigraphy_names
                            then NotImplementedError
                            else ValueError
                                   (BadStyleArgument
                                      (style_or StratigraphySectionVariable._default_style
                                         style)))).
  { unfold StratigraphySectionVariable.get_display_lines.
    destruct (py_in _ _spacetime_names); [reflexivity | ].
    destruct (py_in _ _preserved_names); [reflexivity | ].
    destruct (py_in _ _stratigraphy_names); reflexivity. }
  split; [exact E | split; [reflexivity | ]].
  intros r. rewrite E. discriminate.
Qed.

Lemma stratigraphy_only_limits (F : Type) (ops : Float64 F)
    (sv : StratigraphySectionVariable.t F) (style : option string) :
  py_in (style_or StratigraphySectionVariable._default_style style)
    _stratigraphy_names = true ->
  StratigraphySectionVariable.get_display_limits sv style
  = (box <- mesh_limits (StratigraphySectionVariable.base sv) ;;
     Return (fst (fst (fst box)), snd (fst (fst box)), snd (fst box),
             f_mul (snd box) f_1_5)).
Proof.
  intros Hkey. unfold StratigraphySectionVariable.get_display_limits, mesh_limits.
  rewrite (stratigraphy_not_spacetime _ Hkey), (stratigraphy_not_preserved _ Hkey), Hkey.
  destruct (np.amin (_S _)) as [a | e | ]; simpl; try reflexivity.
  destruct (np.amax (_S _)) as [b | e | ]; simpl; try reflexivity.
  destruct (np.amin (_Z _)) as [c | e | ]; simpl; try reflexivity.
  destruct (np.amax (_Z _)) as [d | e | ]; simpl; reflexivity.
Qed.

(** X5.  The display limits of a stratigraphy-only variable with coordinates
    s and z that have an entry, without a key or on a stratigraphy key, over
    the real numbers: from the least to the greatest entry of s, and from the
    least entry of z to 1.5 times the greatest entry of z. *)
Theorem stratigraphy_only_display_limits
    (_data : array2 R) (s z : list R) (style : option string)
    (Hs : s <> []) (Hz : z <> [])
    (Hkey : py_in (style_or StratigraphySectionVariable._default_style style)
              _stratigraphy_names = true) :
  exists s_min s_max z_min z_max : R,
    get_display_limits
      (StratigraphyVariable (StratigraphySectionVariable.__init__ _data s z)) style
    = Return (s_min, s_max, z_min, (z_max * 1.5)%R)
    /\ is_minimum s_min [s] /\ is_maximum s_max [s]
    /\ is_minimum z_min [z] /\ is_maximum z_max [z].
Proof.
  assert (Hflat : forall l : list R, l <> [] -> np.flatten [l] <> []).
  { intros l Hl. unfold np.flatten. simpl. now rewrite app_nil_r. }
  destruct (amin_is_minimum _ (Hflat s Hs)) as [s_min [_ Hsmin]].
  destruct (amax_is_maximum _ (Hflat s Hs)) as [s_max [_ Hsmax]].
  destruct (amin_is_minimum _ (Hflat z Hz)) as [z_min [_ Hzmin]].
  destruct (amax_is_maximum _ (Hflat z Hz)) as [z_max [_ Hzmax]].
  exists s_min, s_max, z_min, z_max.
  split; [ | repeat split; first [apply Hsmin | apply Hsmax | apply Hzmin | apply Hzmax]].
  simpl get_display_limits. rewrite (@stratigraphy_only_limits _ _ _ style Hkey).
  change (StratigraphySectionVariable.base
            (StratigraphySectionVariable.__init__ _data s z))
    with (BaseSectionVariable.__new__ _data s z None).
  change (mesh_limits (BaseSectionVariable.__new__ _data s z None))
    with (mesh_limits (BaseSectionVariable.__new__ (F := R) [] s z None)).
  rewrite (mesh_limits_of_coordinates Hs Hz Hsmin Hsmax Hzmin Hzmax).
  simpl. do 2 f_equal. lra.
Qed.

Lemma stratigraphy_only_display_limits_witness :
  exists s_min s_max z_min z_max : R,
    get_display_limits
      (StratigraphyVariable
         (StratigraphySectionVariable.__init__ [[1; 2]; [3; 4]]%R [0; 5]%R [2; 7]%R))
      None
    = Return (s_min, s_max, z_min, (z_max * 1.5)%R)
    /\ is_minimum s_min [[0; 5]%R] /\ is_maximum s_max [[0; 5]%R]
    /\ is_minimum z_min [[2; 7]%R] /\ is_maximum z_max [[2; 7]%R].
Proof.
  apply (@stratigraphy_only_display_limits [[1; 2]; [3; 4]]%R [0; 5]%R [2; 7]%R None);
    [discriminate | discriminate | reflexivity].
Defined.

(** ** What an extraction reads, and where it raises *)

Lemma normalize_index_in_axis (n : nat) (i : Z) :
  in_axis n i -> np.normalize_index n i = Return (wrap n i).
Proof.
  unfold in_axis, np.normalize_index, wrap. intros [Hlo Hhi].
  destruct ((0 <=? i) && (i <? Z.of_nat n))%Z eqn:E1.
  - apply andb_true_iff in E1 as [E0 E1].
    apply Z.leb_le in E0. apply Z.ltb_lt in E1.
    now rewrite Z.mod_small by lia.
  - assert (Hneg : (i < 0)%Z).
    { apply andb_false_iff in E1 as [E | E];
        [apply Z.leb_gt in E; lia | apply Z.ltb_ge in E; lia]. }
    replace ((- Z.of_nat n <=? i) && (i <? 0))%Z with true
      by (symmetry; apply andb_true_iff; split;
          [apply Z.leb_le; lia | apply Z.ltb_lt; lia]).
    f_equal. f_equal.
    rewrite <- (Z.mod_add i 1 (Z.of_nat n)) by lia.
    rewrite Z.mod_small by lia. lia.
Qed.

Lemma normalize_index_off_axis (n : nat) (i : Z) :
  ~ in_axis n i -> np.normalize_index n i = Raise IndexError.
Proof.
  unfold in_axis, np.normalize_index. intros Hout.
  destruct ((0 <=? i) && (i <? Z.of_nat n))%Z eqn:E1.
  - apply andb_true_iff in E1 as [E0 E1].
    apply Z.leb_le in E0. apply Z.ltb_lt in E1. lia.
  - destruct ((- Z.of_nat n <=? i) && (i <? 0))%Z eqn:E2; [ | reflexivity].
    apply andb_true_iff in E2 as [E0 E2].
    apply Z.leb_le in E0. apply Z.ltb_lt in E2. lia.
Qed.

Lemma in_axis_dec (n : nat) (i : Z) : {in_axis n i} + {~ in_axis n i}.
Proof.
  unfold in_axis.
  destruct (Z_le_dec (- Z.of_nat n) i); [ | right; lia].
  destruct (Z_lt_dec i (Z.of_nat n)); [left; lia | right; lia].
Qed.

Lemma mapM_all_return {A B : Type} (f : A -> outcome B) (g : A -> B) (l : list A) :
  (forall a, In a l -> f a = Return (g a)) -> np.mapM f l = Return (map g l).
Proof.
  induction l as [| a l IH]; intros Hf; simpl; [reflexivity | ].
  rewrite (Hf a) by now left. simpl. rewrite IH by (intros b Hb; apply Hf; now right).
  reflexivity.
Qed.

Lemma mapM_raises {A B : Type} (f : A -> outcome B) (e : exception) (l : list A) :
  (forall a, In a l -> (exists b, f a = Return b) \/ f a = Raise e) ->
  (exists a, In a l /\ f a = Raise e) ->
  np.mapM f l = Raise e.
Proof.
  induction l as [| a l IH]; intros Hall [b [Hb Hraise]]; [contradiction | ].
  simpl. destruct (Hall a (or_introl eq_refl)) as [[v Hv] | Ha].
  - rewrite Hv. simpl. destruct Hb as [-> | Hb]; [congruence | ].
    rewrite IH; [reflexivity | intros c Hc; apply Hall; now right | now exists b].
  - rewrite Ha. reflexivity.
Qed.

Lemma take_on_grid {A : Type} (a : array3 A) (ys xs : list Z) :
  length ys = length xs ->
  Forall (in_axis (snd (fst (shape3 a)))) ys ->
  Forall (in_axis (snd (shape3 a))) xs ->
  np.take a ys xs
  = Return (map (fun t => map (fun p => item3 a t (wrap (snd (fst (shape3 a))) (fst p))
                                               (wrap (snd (shape3 a)) (snd p)))
                              (combine ys xs))
                (seq 0 (layers a))).
Proof.
  intros Hlen Hys Hxs. unfold np.take, layers, np.broadcast.
  destruct (shape3 a) as [[nt ny] nx]. simpl fst in *. simpl snd in *.
  rewrite Hlen, Nat.eqb_refl. simpl bind. unfold np.map2.
  rewrite (@mapM_all_return _ _ _ (fun p => (wrap ny (fst p), wrap nx (snd p)))).
  - simpl. f_equal. apply map_ext. intros t.
    rewrite !map_map. apply map_ext. intros [y x]. reflexivity.
  - intros q Hq. apply in_map_iff in Hq. destruct Hq as [[y x] [<- Hyx]].
    simpl fst. simpl snd.
    rewrite Forall_forall in Hys, Hxs.
    rewrite (normalize_index_in_axis (Hys y (in_combine_l _ _ _ _ Hyx))).
    rewrite (normalize_index_in_axis (Hxs x (in_combine_r _ _ _ _ Hyx))).
    reflexivity.
Qed.

Lemma take_off_grid {A : Type} (a : array3 A) (ys xs : list Z) (i : nat) :
  length ys = length xs -> i < length xs ->
  ~ in_axis (snd (fst (shape3 a))) (nth i ys 0%Z)
  \/ ~ in_axis (snd (shape3 a)) (nth i xs 0%Z) ->
  np.take a ys xs = Raise IndexError.
Proof.
  intros Hlen Hi Hout. unfold np.take, np.broadcast.
  destruct (shape3 a) as [[nt ny] nx]. simpl fst in *. simpl snd in *.
  rewrite Hlen, Nat.eqb_refl. simpl bind. unfold np.map2.
  rewrite (@mapM_raises _ _ _ IndexError); [reflexivity | | ].
  - intros q _.
    destruct (in_axis_dec ny (fst q)) as [Hy | Hy].
    + rewrite (normalize_index_in_axis Hy). simpl.
      destruct (in_axis_dec nx (snd q)) as [Hx | Hx].
      * rewrite (normalize_index_in_axis Hx). left. eexists. reflexivity.
      * rewrite (normalize_index_off_axis Hx). now right.
    + rewrite (normalize_index_off_axis Hy). now right.
  - exists (nth i ys 0%Z, nth i xs 0%Z). split.
    + apply in_map_iff. exists (nth i ys 0%Z, nth i xs 0%Z). split; [reflexivity | ].
      rewrite <- combine_nth by exact Hlen. apply nth_In.
      rewrite length_combine, Hlen. lia.
    + simpl. destruct Hout as [Hy | Hx].
      * now rewrite (normalize_index_off_axis Hy).
      * destruct (in_axis_dec ny (nth i ys 0%Z)) as [Hy | Hy].
        -- rewrite (normalize_index_in_axis Hy). simpl.
           now rewrite (normalize_index_off_axis Hx).
        -- now rewrite (normalize_index_off_axis Hy).
Qed.

Section Extraction.
Context {F : Type} `{Float64 F}.

Lemma getitem_raises (sec : t F) (c : cube.t F) (var : string) (a : array3 F)
    (x y : list Z) (e : exception) :
  cube sec = Some c -> recognized (cube.type c) ->
  cube.getitem c var = Some a ->
  _x sec = Some x -> _y sec = Some y ->
  np.take a y x = Raise e ->
  __getitem__ sec var = Raise e.
Proof.
  intros Hc Hty Ha Hx Hy Htake. unfold __getitem__, slice.
  rewrite Hc. destruct Hty as [-> | ->].
  - destruct (cube._knows_stratigraphy c); rewrite Ha, Hx, Hy; simpl;
      rewrite Htake; reflexivity.
  - rewrite Ha, Hx, Hy. simpl. rewrite Htake. reflexivity.
Qed.

Lemma getitem_returns (sec : t F) (c : cube.t F) (var : string) (a : array3 F)
    (x y : list Z) (s z : list F) (d : array2 F) :
  cube sec = Some c -> recognized (cube.type c) ->
  cube.getitem c var = Some a ->
  _x sec = Some x -> _y sec = Some y -> _s sec = Some s -> _z sec = Some z ->
  np.take a y x = Return d ->
  (cube.type c = cube.DataCube -> cube._knows_stratigraphy c = true ->
   shape3 (cube.strat_attr_psvd_idx c) = shape3 a) ->
  exists v, __getitem__ sec var = Return v
            /\ array_of v = d
            /\ (cube.type c = cube.StratigraphyCube ->
                v = StratigraphyVariable (StratigraphySectionVariable.__init__ d s z)).
Proof.
  intros Hc Hty Ha Hx Hy Hs Hz Htake Hpsvd.
  destruct Hty as [Hty | Hty].
  - destruct (getitem_data sec var Hc Hty Ha Hx Hy Hs Hz Htake (Hpsvd Hty))
      as [dv [Hget [Hbase _]]].
    exists (DataVariable dv). split; [exact Hget | ].
    split; [simpl; now rewrite Hbase | ].
    intros Hty'. congruence.
  - unfold __getitem__, slice, BaseSection.s, BaseSection.z.
    rewrite Hc, Hty, Ha, Hx, Hy, Hs, Hz. simpl. rewrite Htake. simpl.
    eexists. repeat split.
Qed.
End Extraction.

(** X6.  What a path section extracts: the entry (t, i) of the variable it
    returns is the cell of layer t of the cube's array at row index
    path[i, 0] and column index path[i, 1], a negative index counting from the
    end of its axis, provided every index is on its axis. *)
Theorem path_extraction_cells
    (F : Type) (ops : Float64 F)
    (self sec : t F) (c : cube.t F) (var : string) (a : array3 F)
    (dt : int_dtype) (p : list (Z * Z))
    (Hpath : class self = PathSection dt p)
    (Hconnect : connect self c = (sec, Return tt))
    (Hcube : recognized (cube.type c))
    (Hvar : cube.getitem c var = Some a)
    (Hrows : Forall (fun r => in_axis (snd (fst (shape3 a))) (fst r)) p)
    (Hcols : Forall (fun r => in_axis (snd (shape3 a)) (snd r)) p)
    (Hpsvd : cube.type c = cube.DataCube -> cube._knows_stratigraphy c = true ->
             shape3 (cube.strat_attr_psvd_idx c) = shape3 a) :
  exists v : SectionVariable F,
    __getitem__ sec var = Return v
    /\ array_of v
       = map (fun t => map (fun r => item3 a t (wrap (snd (fst (shape3 a))) (fst r))
                                               (wrap (snd (shape3 a)) (snd r))) p)
             (seq 0 (layers a)).
Proof.
  destruct (connect_returns _ _ Hconnect)
    as [_ [_ [Hc [_ [Hz [x [y [Hx [Hy [Hxy Hs]]]]]]]]]].
  rewrite Hpath in Hxy. simpl in Hxy. destruct Hxy as [-> ->].
  assert (Hcomb : combine (map fst p) (map snd p) = p).
  { clear. induction p as [| [u v] p IH]; simpl; [reflexivity | now rewrite IH]. }
  assert (Htake : np.take a (map fst p) (map snd p)
                  = Return (map (fun t => map (fun r =>
                              item3 a t (wrap (snd (fst (shape3 a))) (fst r))
                                        (wrap (snd (shape3 a)) (snd r))) p)
                            (seq 0 (layers a)))).
  { rewrite take_on_grid.
    - now rewrite Hcomb.
    - now rewrite !length_map.
    - apply Forall_map. exact Hrows.
    - apply Forall_map. exact Hcols. }
  destruct (getitem_returns sec var Hc Hcube Hvar Hx Hy Hs Hz Htake Hpsvd)
    as [v [Hget [Harr _]]].
  exists v. split; assumption.
Qed.

Lemma path_extraction_cells_witness :
  let sec := fst (connect (unconnected (PathSection int64 [(0, 1); (-1, -1)]%Z)) Demo.rcm8) in
  exists v : SectionVariable PrimFloat.float,
    __getitem__ sec "eta" = Return v
    /\ array_of v = [[Demo.num 1; Demo.num 23]; [Demo.num 101; Demo.num 123]].
Proof.
  cbv zeta.
  set (self := unconnected (PathSection int64 [(0, 1); (-1, -1)]%Z)).
  destruct (@path_extraction_cells PrimFloat.float _ self (fst (connect self Demo.rcm8))
              Demo.rcm8 "eta"%string (Demo.grid Demo.num 2 3 4)
              int64 [(0, 1); (-1, -1)]%Z eq_refl eq_refl (or_introl eq_refl) eq_refl)
    as [v [Hget Harr]].
  - repeat constructor; unfold in_axis; simpl; lia.
  - repeat constructor; unfold in_axis; simpl; lia.
  - discriminate.
  - exists v. split; [exact Hget | exact Harr].
Defined.

(** X7.  A section does not check its coordinates against the grid when it
    connects: with a point whose row or column index is off its axis, the
    connection succeeds and every extraction of a variable raises IndexError. *)
Theorem extraction_off_the_grid
    (F : Type) (ops : Float64 F)
    (self sec : t F) (c : cube.t F) (var : string) (a : array3 F)
    (x y : list Z) (i : nat)
    (Hconnect : connect self c = (sec, Return tt))
    (Hcube : recognized (cube.type c))
    (Hvar : cube.getitem c var = Some a)
    (Hx : _x sec = Some x) (Hy : _y sec = Some y)
    (Hi : i < length x)
    (Hoff : ~ in_axis (snd (fst (shape3 a))) (nth i y 0%Z)
            \/ ~ in_axis (snd (shape3 a)) (nth i x 0%Z)) :
  __getitem__ sec var = Raise IndexError.
Proof.
  destruct (connect_returns _ _ Hconnect)
    as [_ [_ [Hc [_ [_ [x' [y' [Hx' [Hy' [Hxy _]]]]]]]]]].
  rewrite Hx in Hx'. injection Hx' as <-. rewrite Hy in Hy'. injection Hy' as <-.
  apply (getitem_raises sec var Hc Hcube Hvar Hx Hy).
  apply (take_off_grid a y x (coords_of_length _ _ _ _ Hxy) Hi Hoff).
Qed.

Lemma extraction_off_the_grid_witness :
  snd (connect (unconnected (PathSection int64 [(0, 1); (3, 0)]%Z)) Demo.rcm8) = Return tt
  /\ __getitem__ (fst (connect (unconnected (PathSection int64 [(0, 1); (3, 0)]%Z)) Demo.rcm8))
       "eta"
     = Raise IndexError.
Proof.
  split; [reflexivity | ].
  set (self := unconnected (PathSection int64 [(0, 1); (3, 0)]%Z)).
  apply (@extraction_off_the_grid PrimFloat.float _ self (fst (connect self Demo.rcm8))
           Demo.rcm8 "eta"%string (Demo.grid Demo.num 2 3 4) [1; 0]%Z [0; 3]%Z 1
           eq_refl (or_introl eq_refl) eq_refl eq_refl eq_refl).
  - simpl. lia.
  - left. unfold in_axis. simpl. lia.
Defined.

(** ** Variables of a stratigraphy cube *)

(** X8.  On a stratigraphy cube, a connected section extracts a
    stratigraphy-only variable: without a style and on a stratigraphy key its
    display is the slice of the cube at the footprint with the meshes of s and
    z, on a spacetime or preserved key the display raises the capability
    error, and its display lines are not implemented. *)
Theorem stratigraphy_cube_round_trip
    (F : Type) (ops : Float64 F)
    (self sec : t F) (c : cube.t F) (var key key' : string) (a : array3 F)
    (x y : list Z) (d : array2 F) (s : list F)
    (Hconnect : connect self c = (sec, Return tt))
    (Hcube : cube.type c = cube.StratigraphyCube)
    (Hvar : cube.getitem c var = Some a)
    (Hx : _x sec = Some x) (Hy : _y sec = Some y) (Hs : _s sec = Some s)
    (Hslice : np.take a y x = Return d)
    (Hkey : py_in key _stratigraphy_names = true)
    (Hkey' : py_in key' _spacetime_names = true \/ py_in key' _preserved_names = true) :
  let display := (d, fst (np.meshgrid s (cube.z c)), snd (np.meshgrid s (cube.z c))) in
  (v <- __getitem__ sec var ;; get_display_arrays v None)
  = Return (Plain (fst (fst display)), snd (fst display), snd display)
  /\ (v <- __getitem__ sec var ;; get_display_arrays v (Some key))
     = Return (Plain (fst (fst display)), snd (fst display), snd display)
  /\ (v <- __getitem__ sec var ;; get_display_arrays v (Some key'))
     = Raise (AttributeError NoSpacetimeInformation)
  /\ (v <- __getitem__ sec var ;; get_display_lines v None)
     = Raise NotImplementedError.
Proof.
  cbv zeta. simpl fst. simpl snd.
  destruct (connect_returns _ _ Hconnect)
    as [_ [_ [Hc [_ [Hz _]]]]].
  destruct (getitem_returns sec var Hc (or_intror Hcube) Hvar Hx Hy Hs Hz Hslice)
    as [v [Hget [_ Hv]]]; [congruence | ].
  rewrite Hget, (Hv Hcube). simpl bind.
  split; [reflexivity | ].
  split.
  { simpl get_display_arrays. unfold StratigraphySectionVariable.get_display_arrays.
    simpl style_or.
    rewrite (stratigraphy_not_spacetime _ Hkey), (stratigraphy_not_preserved _ Hkey), Hkey.
    reflexivity. }
  split; [ | reflexivity].
  apply (stratigraphy_only_spacetime
           (StratigraphySectionVariable.__init__ d s (cube.z c)) key' Hkey').
Qed.

Lemma stratigraphy_cube_round_trip_witness :
  let sec := fst (connect (unconnected (StrikeSection 2))
                          (Demo.volume Demo.num cube.StratigraphyCube 1 3 2)) in
  (v <- __getitem__ sec "velocity" ;; get_display_arrays v None)
  = Return (Plain [[Demo.num 20; Demo.num 21]],
            [[Demo.num 0; Demo.num 1]], [[Demo.num 0; Demo.num 0]])
  /\ (v <- __getitem__ sec "velocity" ;; get_display_arrays v (Some "psvd"%string))
     = Raise (AttributeError NoSpacetimeInformation).
Proof.
  cbv zeta.
  set (self := unconnected (StrikeSection 2)).
  set (vol := Demo.volume Demo.num cube.StratigraphyCube 1 3 2).
  pose proof (@stratigraphy_cube_round_trip PrimFloat.float _ self (fst (connect self vol))
                vol "velocity"%string "strata"%string "psvd"%string
                (Demo.grid Demo.num 1 3 2) [0; 1]%Z [2; 2]%Z
                [[Demo.num 20; Demo.num 21]] [Demo.num 0; Demo.num 1]
                eq_refl eq_refl eq_refl eq_refl eq_refl eq_refl eq_refl eq_refl
                (or_intror eq_refl)) as W.
  cbv zeta in W. destruct W as [W1 [_ [W3 _]]].
  split; [exact W1 | exact W3].
Defined.

(** ** Variables of a data cube and stratigraphy *)

Lemma has_shape_same_shape {A B : Type} (a : array2 A) (b : array2 B) (n m : nat) :
  has_shape a n m -> has_shape b n m -> np.same_shape a b = true.
Proof.
  intros [Ha Hra] [Hb Hrb]. unfold np.same_shape.
  rewrite Ha, Hb, Nat.eqb_refl. simpl.
  apply forallb_forall. intros [ra rb] Hin. simpl.
  rewrite Forall_forall in Hra, Hrb.
  rewrite (Hra ra (in_combine_l _ _ _ _ Hin)), (Hrb rb (in_combine_r _ _ _ _ Hin)).
  apply Nat.eqb_refl.
Qed.

Lemma has_shape_map {A B : Type} (f : A -> B) (a : array2 A) (n m : nat) :
  has_shape a n m -> has_shape (map (map f) a) n m.
Proof.
  intros [Ha Hr]. split; [now rewrite length_map | ].
  apply Forall_map. eapply Forall_impl; [ | exact Hr].
  intros r Hlen. simpl. now rewrite length_map.
Qed.

(** X9.  On a data cube that knows stratigraphy, whose preservation array has
    the shape of the variable, a connected section extracts a variable whose
    preserved display is the slice of the variable, unchanged, with exactly
    the cells hidden where the slice of the preservation array is False; the
    two slices always fit, so that the mask is never rejected. *)
Theorem preserved_display_of_extracted_variable
    (F : Type) (ops : Float64 F)
    (self sec : t F) (c : cube.t F) (var key : string) (a : array3 F)
    (x y : list Z) (d : array2 F) (s : list F)
    (Hconnect : connect self c = (sec, Return tt))
    (Hdata : cube.type c = cube.DataCube)
    (Hknows : cube._knows_stratigraphy c = true)
    (Hvar : cube.getitem c var = Some a)
    (Hx : _x sec = Some x) (Hy : _y sec = Some y) (Hs : _s sec = Some s)
    (Hslice : np.take a y x = Return d)
    (Hpsvd : shape3 (cube.strat_attr_psvd_idx c) = shape3 a)
    (Hkey : py_in key _preserved_names = true) :
  exists m : array2 bool,
    np.take (cube.strat_attr_psvd_idx c) y x = Return m
    /\ (v <- __getitem__ sec var ;; get_display_arrays v (Some key))
       = Return (Masked {| np.ma_data := d; np.ma_mask := map (map negb) m |},
                 fst (np.meshgrid s (cube.z c)), snd (np.meshgrid s (cube.z c))).
Proof.
  destruct (connect_returns _ _ Hconnect)
    as [_ [_ [Hc [_ [Hz [x' [y' [Hx' [Hy' [Hxy _]]]]]]]]]].
  rewrite Hx in Hx'. injection Hx' as <-. rewrite Hy in Hy'. injection Hy' as <-.
  pose proof (coords_of_length _ _ _ _ Hxy) as Hlen.
  destruct (take_same_shape a (cube.strat_attr_psvd_idx c) y x Hpsvd Hslice) as [m Hm].
  exists m. split; [exact Hm | ].
  unfold __getitem__, slice, BaseSection.s, BaseSection.z.
  rewrite Hc, Hdata, Hknows, Hvar, Hx, Hy, Hs, Hz. simpl. rewrite Hslice. simpl.
  rewrite Hm. simpl.
  unfold DataSectionVariable.get_display_arrays. simpl style_or.
  rewrite (preserved_not_spacetime _ Hkey), Hkey.
  unfold DataSectionVariable.as_preserved. simpl.
  unfold np.masked_array.
  pose proof (take_shape a y x Hlen Hslice) as Hd.
  pose proof (take_shape (cube.strat_attr_psvd_idx c) y x Hlen Hm) as Hms.
  unfold layers in Hms. rewrite Hpsvd in Hms. fold (layers a) in Hms.
  rewrite (has_shape_same_shape Hd (has_shape_map negb Hms)). reflexivity.
Qed.

Lemma preserved_display_of_extracted_variable_witness :
  let sec := fst (connect (unconnected (StrikeSection 1)) knowing_volume) in
  exists m : array2 bool,
    np.take knowing_preservation [1; 1; 1; 1]%Z [0; 1; 2; 3]%Z = Return m
    /\ (v <- __getitem__ sec "eta" ;; get_display_arrays v (Some "preserved"%string))
       = Return (Masked {| np.ma_data := [[Demo.num 10; Demo.num 11; Demo.num 12; Demo.num 13];
                                          [Demo.num 110; Demo.num 111; Demo.num 112;
                                           Demo.num 113]];
                           np.ma_mask := map (map negb) m |},
                 fst (np.meshgrid [Demo.num 0; Demo.num 1; Demo.num 2; Demo.num 3]
                        [Demo.num 0; Demo.num 1]),
                 snd (np.meshgrid [Demo.num 0; Demo.num 1; Demo.num 2; Demo.num 3]
                        [Demo.num 0; Demo.num 1])).
Proof.
  cbv zeta.
  set (self := unconnected (StrikeSection 1)).
  apply (@preserved_display_of_extracted_variable PrimFloat.float _ self
           (fst (connect self knowing_volume)) knowing_volume
           "eta"%string "preserved"%string (Demo.grid Demo.num 2 3 4)
           [0; 1; 2; 3]%Z [1; 1; 1; 1]%Z);
    reflexivity.
Defined.

(** X10.  On a data cube that does not know stratigraphy, the variables that a
    connected section extracts do not know it either: their display arrays
    and display lines on a preserved or stratigraphy key raise the capability
    error. *)
Theorem extracted_variable_without_stratigraphy
    (F : Type) (ops : Float64 F)
    (self sec : t F) (c : cube.t F) (var key : string) (a : array3 F)
    (x y : list Z) (d : array2 F)
    (Hconnect : connect self c = (sec, Return tt))
    (Hdata : cube.type c = cube.DataCube)
    (Hknows : cube._knows_stratigraphy c = false)
    (Hvar : cube.getitem c var = Some a)
    (Hx : _x sec = Some x) (Hy : _y sec = Some y)
    (Hslice : np.take a y x = Return d)
    (Hkey : py_in key _preserved_names = true \/ py_in key _stratigraphy_names = true) :
  (v <- __getitem__ sec var ;; get_display_arrays v (Some key))
  = Raise (AttributeError NoPreservationInformation)
  /\ (v <- __getitem__ sec var ;; get_display_lines v (Some key))
     = Raise (AttributeError NoPreservationInformation).
Proof.
  destruct (connect_returns _ _ Hconnect)
    as [_ [_ [Hc [_ [Hz [x' [y' [Hx' [Hy' [_ Hs]]]]]]]]]].
  rewrite Hx in Hx'. injection Hx' as <-. rewrite Hy in Hy'. injection Hy' as <-.
  destruct (getitem_data sec var Hc Hdata Hvar Hx Hy Hs Hz Hslice)
    as [dv [Hget [_ Hk]]]; [congruence | ].
  rewrite Hknows in Hk. rewrite Hget. simpl.
  destruct Hkey as [Hkey | Hkey]; split;
    first [now apply arrays_preserved_without_stratigraphy
          | now apply arrays_stratigraphy_without_stratigraphy
          | now apply lines_preserved_without_stratigraphy
          | now apply lines_stratigraphy_without_stratigraphy].
Qed.

Lemma extracted_variable_without_stratigraphy_witness :
  let sec := fst (connect (unconnected (StrikeSection 1)) Demo.rcm8) in
  (v <- __getitem__ sec "eta" ;; get_display_arrays v (Some "strat"%string))
  = Raise (AttributeError NoPreservationInformation)
  /\ (v <- __getitem__ sec "eta" ;; get_display_lines v (Some "strat"%string))
     = Raise (AttributeError NoPreservationInformation).
Proof.
  cbv zeta.
  set (self := unconnected (StrikeSection 1)).
  apply (@extracted_variable_without_stratigraphy PrimFloat.float _ self
           (fst (connect self Demo.rcm8)) Demo.rcm8 "eta"%string "strat"%string
           (Demo.grid Demo.num 2 3 4) [0; 1; 2; 3]%Z [1; 1; 1; 1]%Z
           [[Demo.num 10; Demo.num 11; Demo.num 12; Demo.num 13];
            [Demo.num 110; Demo.num 111; Demo.num 112; Demo.num 113]]);
    first [reflexivity | right; reflexivity].
Defined.

(** ** Display lines *)

Section Lines.
Context {F : Type} `{Float64 F}.

Lemma removelast_length {A : Type} (l : list A) : length (removelast l) = pred (length l).
Proof.
  induction l as [| a [| b l] IH]; [reflexivity | reflexivity | ].
  change (removelast (a :: b :: l)) with (a :: removelast (b :: l)).
  simpl length in *. now rewrite IH.
Qed.

Lemma tl_length {A : Type} (l : list A) : length (tl l) = pred (length l).
Proof. destruct l; reflexivity. Qed.

Lemma adjacent_length {A : Type} (l : list A) : length (adjacent l) = pred (length l).
Proof.
  unfold adjacent. rewrite length_combine, removelast_length, tl_length. lia.
Qed.

Lemma combine_app {A B : Type} (l1 l2 : list A) (r1 r2 : list B) :
  length l1 = length r1 ->
  combine (l1 ++ l2) (r1 ++ r2) = combine l1 r1 ++ combine l2 r2.
Proof.
  revert r1. induction l1 as [| a l1 IH]; intros [| b r1] Hlen; simpl in *;
    try discriminate; [reflexivity | ].
  f_equal. apply IH. lia.
Qed.

Lemma reshape_long_rows (X : array2 F) :
  DataSectionVariable._reshape_long X = concat (map adjacent X).
Proof.
  unfold DataSectionVariable._reshape_long, np.flatten.
  induction X as [| row X IH]; simpl; [reflexivity | ].
  rewrite combine_app by now rewrite removelast_length, tl_length.
  now rewrite IH.
Qed.

Lemma adjacent_cons {A : Type} (a b : A) (l : list A) :
  adjacent (a :: b :: l) = (a, b) :: adjacent (b :: l).
Proof. reflexivity. Qed.

Lemma adjacent_repeat {A : Type} (v : A) (n : nat) :
  adjacent (repeat v n) = repeat (v, v) (pred n).
Proof.
  destruct n as [| n]; [reflexivity | ]. simpl pred.
  induction n as [| n IH]; [reflexivity | ].
  change (repeat v (S (S n))) with (v :: v :: repeat v n).
  rewrite adjacent_cons. change (v :: repeat v n) with (repeat v (S n)).
  now rewrite IH.
Qed.

Lemma map2_app {A B C : Type} (f : A -> B -> C) (l1 l2 : list A) (r1 r2 : list B) :
  length l1 = length r1 ->
  np.map2 f (l1 ++ l2) (r1 ++ r2) = np.map2 f l1 r1 ++ np.map2 f l2 r2.
Proof.
  intros Hlen. unfold np.map2. now rewrite combine_app, map_app.
Qed.

Lemma map2_repeat {A B C : Type} (f : A -> B -> C) (l : list A) (b : B) :
  np.map2 f l (repeat b (length l)) = map (fun a => f a b) l.
Proof.
  unfold np.map2. induction l as [| a l IH]; simpl; [reflexivity | now rewrite IH].
Qed.

Lemma map2_length {A B C : Type} (f : A -> B -> C) (l : list A) (r : list B) :
  length l = length r -> length (np.map2 f l r) = length l.
Proof.
  intros Hlen. unfold np.map2. rewrite length_map, length_combine. lia.
Qed.

(** The segments of the rows [Y] along the coordinate [s]: the S mesh has the
    row s once per row of [Y]. *)
Lemma segments_of_rows (s : list F) (Y : array2 F) :
  Forall (fun row => length row = length s) Y ->
  DataSectionVariable.concatenate_segments
    (DataSectionVariable._reshape_long (repeat s (length Y)))
    (DataSectionVariable._reshape_long Y)
  = Return (concat (map (fun row => np.map2 segment_of (adjacent s) (adjacent row)) Y)).
Proof.
  intros Hrows. rewrite !reshape_long_rows.
  assert (Hcat : length (concat (map adjacent (repeat s (length Y))))
                 = length (concat (map adjacent Y))
                 /\ np.map2 segment_of (concat (map adjacent (repeat s (length Y))))
                      (concat (map adjacent Y))
                    = concat (map (fun row => np.map2 segment_of (adjacent s) (adjacent row)) Y)).
  { induction Y as [| row Y IH]; [split; reflexivity | ].
    inversion Hrows as [| ? ? Hrow Hrest]; subst.
    destruct (IH Hrest) as [IHlen IHmap].
    assert (Hadj : length (adjacent s) = length (adjacent row))
      by now rewrite !adjacent_length, Hrow.
    simpl. split.
    - rewrite !length_app, IHlen, Hadj. reflexivity.
    - rewrite map2_app by exact Hadj. now rewrite IHmap. }
  destruct Hcat as [Hlen Hmap].
  unfold DataSectionVariable.concatenate_segments.
  rewrite Hlen, Nat.eqb_refl. f_equal. exact Hmap.
Qed.

Lemma concat_length_uniform {A : Type} (l : list (list A)) (k : nat) :
  Forall (fun r => length r = k) l -> length (concat l) = length l * k.
Proof.
  induction 1 as [| r l Hr _ IH]; simpl; [reflexivity | ].
  now rewrite length_app, IH, Hr.
Qed.
End Lines.

Lemma reshape_long_length (F : Type) (X : array2 F) (n m : nat) :
  has_shape X n m -> length (DataSectionVariable._reshape_long X) = n * pred m.
Proof.
  intros [Hn Hm]. rewrite reshape_long_rows.
  rewrite (@concat_length_uniform _ _ (pred m)).
  - now rewrite length_map, Hn.
  - apply Forall_map. eapply Forall_impl; [ | exact Hm].
    intros r Hr. simpl. now rewrite adjacent_length, Hr.
Qed.

Lemma drop_last_column_size {A : Type} (a : array2 A) (n m : nat) :
  has_shape a n m ->
  length (np.flatten (DataSectionVariable.drop_last_column a)) = n * pred m.
Proof.
  intros [Hn Hm]. unfold np.flatten, DataSectionVariable.drop_last_column.
  rewrite (@concat_length_uniform _ _ (pred m)).
  - now rewrite length_map, Hn.
  - apply Forall_map. eapply Forall_impl; [ | exact Hm].
    intros r Hr. simpl. now rewrite removelast_length, Hr.
Qed.

(** X11.  The display lines of a data variable in the spacetime style, which
    is also its default: for every entry z[j] of z, in order, one horizontal
    segment from (s[i], z[j]) to (s[i+1], z[j]) for every pair of neighbouring
    entries of s, and as data the variable without its last column.  When the
    variable has the shape (len z, len s), there is one value per segment, the
    value of the cell at the left end. *)
Theorem spacetime_display_lines
    (F : Type) (ops : Float64 F)
    (_data : array2 F) (s z : list F) (mask : option (array2 bool))
    (attr : option (strat_dict F)) (style : option string)
    (Hstyle : py_in (style_or DataSectionVariable._default_style style)
                _spacetime_names = true)
    (Hshape : has_shape _data (length z) (length s)) :
  let dv := DataSectionVariable.__init__ _data s z mask attr in
  let segments :=
    concat (map (fun zj => map (fun ss => ((fst ss, zj), (snd ss, zj))) (adjacent s)) z) in
  get_display_lines (DataVariable dv) style
  = Return (Plain (DataSectionVariable.drop_last_column _data), segments)
  /\ length segments = length z * pred (length s)
  /\ length (np.flatten (DataSectionVariable.drop_last_column _data)) = length segments.
Proof.
  cbv zeta.
  assert (Hlen : length (concat (map (fun zj : F =>
                    map (fun ss : F * F => ((fst ss, zj), (snd ss, zj))) (adjacent s)) z))
                 = length z * pred (length s)).
  { rewrite (@concat_length_uniform _ _ (pred (length s))).
    - now rewrite length_map.
    - apply Forall_map, Forall_forall. intros zj _.
      now rewrite length_map, adjacent_length. }
  split; [ | split; [exact Hlen | rewrite Hlen; now apply drop_last_column_size]].
  simpl get_display_lines. unfold DataSectionVariable.get_display_lines.
  rewrite Hstyle. simpl bind.
  assert (Hbase : DataSectionVariable.base (DataSectionVariable.__init__ _data s z mask attr)
                  = BaseSectionVariable.__new__ _data s z mask)
    by (destruct attr; reflexivity).
  rewrite Hbase. simpl fst. simpl snd. simpl _S. simpl _Z. simpl array.
  pose proof (@segments_of_rows F s (map (fun zj => repeat zj (length s)) z)) as Hseg.
  rewrite length_map in Hseg. rewrite Hseg.
  - simpl. do 3 f_equal. rewrite map_map. apply map_ext. intros zj.
    rewrite adjacent_repeat, <- (adjacent_length s), map2_repeat. reflexivity.
  - apply Forall_map, Forall_forall. intros zj _. apply repeat_length.
Qed.

Lemma spacetime_display_lines_witness :
  get_display_lines (DataVariable Demo.without_stratigraphy) None
  = Return (Plain [[Demo.num 1; Demo.num 2]; [Demo.num 4; Demo.num 5]],
            [((Demo.num 0, Demo.num 0), (Demo.num 1, Demo.num 0));
             ((Demo.num 1, Demo.num 0), (Demo.num 2, Demo.num 0));
             ((Demo.num 0, Demo.num 1), (Demo.num 1, Demo.num 1));
             ((Demo.num 1, Demo.num 1), (Demo.num 2, Demo.num 1))]).
Proof.
  refine (proj1 (@spacetime_display_lines PrimFloat.float _ (Demo.values Demo.num)
                   (Demo.along Demo.num) (Demo.up Demo.num) None None None eq_refl _)).
  split; [reflexivity | repeat constructor].
Defined.

(** X12.  The display lines of a data variable that knows stratigraphy, in the
    stratigraphy style, with a [strata] array of the shape (len z, len s): for
    every row of [strata], in order, one segment from (s[i], row[i]) to
    (s[i+1], row[i+1]) for every pair of neighbouring columns, and as data
    the variable without its last column. *)
Theorem stratigraphy_display_lines
    (F : Type) (ops : Float64 F)
    (_data : array2 F) (s z : list F) (mask : option (array2 bool))
    (attr : strat_dict F) (_strata : array2 F) (key : string)
    (Hstrata : strata attr = Some _strata)
    (Hshape : has_shape _strata (length z) (length s))
    (Hkey : py_in key _stratigraphy_names = true) :
  let dv := DataSectionVariable.__init__ _data s z mask (Some attr) in
  get_display_lines (DataVariable dv) (Some key)
  = Return (Plain (DataSectionVariable.drop_last_column _data),
            concat (map (fun row => np.map2 segment_of (adjacent s) (adjacent row))
                        _strata)).
Proof.
  cbv zeta. simpl get_display_lines. unfold DataSectionVariable.get_display_lines.
  simpl style_or.
  rewrite (stratigraphy_not_spacetime _ Hkey), (stratigraphy_not_preserved _ Hkey), Hkey.
  simpl. rewrite Hstrata. simpl.
  destruct Hshape as [Hn Hm]. rewrite <- Hn.
  rewrite (segments_of_rows s Hm). reflexivity.
Qed.

Lemma stratigraphy_display_lines_witness :
  get_display_lines (DataVariable Demo.with_stratigraphy) (Some "strata"%string)
  = Return (Plain [[Demo.num 1; Demo.num 2]; [Demo.num 4; Demo.num 5]],
            [((Demo.num 0, Demo.num 0), (Demo.num 1, Demo.num 0));
             ((Demo.num 1, Demo.num 0), (Demo.num 2, Demo.num 0));
             ((Demo.num 0, Demo.num 1), (Demo.num 1, Demo.num 1));
             ((Demo.num 1, Demo.num 1), (Demo.num 2, Demo.num 2))]).
Proof.
  refine (@stratigraphy_display_lines PrimFloat.float _ (Demo.values Demo.num)
            (Demo.along Demo.num) (Demo.up Demo.num) (Some Demo.preserved)
            (Demo.attributes Demo.num) _ "strata"%string eq_refl _ eq_refl).
  split; [reflexivity | repeat constructor].
Defined.

(** X13.  A [strata] array whose rows give another number of segments than
    the meshes of the variable makes the display lines of the stratigraphy
    style raise the value error of [np.concatenate]. *)
Theorem stratigraphy_display_lines_misshaped
    (F : Type) (ops : Float64 F)
    (_data : array2 F) (s z : list F) (mask : option (array2 bool))
    (attr : strat_dict F) (_strata : array2 F) (key : string) (n m : nat)
    (Hstrata : strata attr = Some _strata)
    (Hshape : has_shape _strata n m)
    (Hcount : n * pred m <> length z * pred (length s))
    (Hkey : py_in key _stratigraphy_names = true) :
  get_display_lines
    (DataVariable (DataSectionVariable.__init__ _data s z mask (Some attr))) (Some key)
  = Raise (ValueError ConcatenateDimensions).
Proof.
  simpl get_display_lines. unfold DataSectionVariable.get_display_lines.
  simpl style_or.
  rewrite (stratigraphy_not_spacetime _ Hkey), (stratigraphy_not_preserved _ Hkey), Hkey.
  simpl. rewrite Hstrata. simpl.
  unfold DataSectionVariable.concatenate_segments.
  rewrite (reshape_long_length Hshape).
  rewrite (@reshape_long_length F (repeat s (length z)) (length z) (length s)).
  - destruct (Nat.eqb_spec (length z * pred (length s)) (n * pred m)) as [E | _];
      [congruence | reflexivity].
  - split; [apply repeat_length | ].
    apply Forall_forall. intros r Hr. now apply repeat_spec in Hr as ->.
Qed.

Lemma stratigraphy_display_lines_misshaped_witness :
  get_display_lines
    (DataVariable
       (DataSectionVariable.__init__ (Demo.values Demo.num) (Demo.along Demo.num)
          (Demo.up Demo.num) None
          (Some {| strata := Some [[Demo.num 0; Demo.num 1]];
                   psvd_idx := None; psvd_flld := None;
                   z_sp := None; s_sp := None |})))
    (Some "strat"%string)
  = Raise (ValueError ConcatenateDimensions).
Proof.
  apply (@stratigraphy_display_lines_misshaped PrimFloat.float _
           (Demo.values Demo.num) (Demo.along Demo.num) (Demo.up Demo.num) None
           {| strata := Some [[Demo.num 0; Demo.num 1]];
              psvd_idx := None; psvd_flld := None; z_sp := None; s_sp := None |}
           [[Demo.num 0; Demo.num 1]] "strat"%string 1 2 eq_refl).
  - split; [reflexivity | repeat constructor].
  - simpl. lia.
  - reflexivity.
Defined.

(** ** Binding a section to a cube *)

Lemma section_eq (F : Type) (a b : t F) :
  class a = class b -> _s a = _s b -> _z a = _z b -> _x a = _x b -> _y a = _y b ->
  _variables a = _variables b -> cube a = cube b -> a = b.
Proof.
  destruct a, b. simpl. intros. subst. reflexivity.
Qed.

(** X14.  A successful [connect] replaces the earlier binding as a whole: the
    section it leaves is the one that connecting a fresh, unconnected section
    of the same class to the cube gives. *)
Theorem connect_replaces_binding
    (F : Type) (ops : Float64 F) (self self' : t F) (c : cube.t F)
    (Hconnect : connect self c = (self', Return tt)) :
  connect (unconnected (class self)) c = (self', Return tt).
Proof.
  destruct (connect_returns _ _ Hconnect)
    as [Hsub [Hcls [Hc [Hv [Hz [x [y [Hx [Hy [Hxy Hs]]]]]]]]]].
  destruct (connect_succeeds (unconnected (class self)) c x y Hsub Hxy)
    as [fresh [Hf [Hfx Hfy]]].
  rewrite Hf. f_equal.
  destruct (connect_returns _ _ Hf)
    as [_ [Hcls' [Hc' [Hv' [Hz' [x' [y' [Hx' [Hy' [_ Hs']]]]]]]]]].
  rewrite Hfx in Hx'. injection Hx' as <-. rewrite Hfy in Hy'. injection Hy' as <-.
  simpl in Hcls'. simpl class in Hs'.
  apply section_eq; congruence.
Qed.

Lemma connect_replaces_binding_witness :
  let first := fst (connect (unconnected (StrikeSection 1)) Demo.rcm8) in
  connect first (Demo.volume Demo.num cube.DataCube 1 2 2)
  = connect (unconnected (StrikeSection 1)) (Demo.volume Demo.num cube.DataCube 1 2 2).
Proof.
  cbv zeta.
  set (first := fst (connect (unconnected (StrikeSection 1)) Demo.rcm8)).
  set (vol := Demo.volume Demo.num cube.DataCube 1 2 2).
  rewrite (@connect_replaces_binding PrimFloat.float _ first (fst (connect first vol)) vol
             eq_refl).
  reflexivity.
Defined.

(** X15.  A strike section reads the variable eta of the cube after it has
    stored the cube: connecting a connected strike section to a cube without
    eta raises, and leaves the section bound to the new cube with the
    coordinates of the old one, so that a later extraction returns the slice
    of the new cube at the old footprint. *)
Theorem failed_connect_keeps_coordinates
    (F : Type) (ops : Float64 F)
    (self : t F) (c : cube.t F) (y0 : Z) (var : string) (a : array3 F)
    (x y : list Z) (s z : list F) (d : array2 F)
    (Hclass : class self = StrikeSection y0)
    (Hcube : recognized (cube.type c))
    (Heta : cube.getitem c "eta" = None)
    (Hx : _x self = Some x) (Hy : _y self = Some y)
    (Hs : _s self = Some s) (Hz : _z self = Some z)
    (Hvar : cube.getitem c var = Some a)
    (Hslice : np.take a y x = Return d)
    (Hpsvd : cube.type c = cube.DataCube -> cube._knows_stratigraphy c = true ->
             shape3 (cube.strat_attr_psvd_idx c) = shape3 a) :
  let sec := fst (connect self c) in
  (exists e, snd (connect self c) = Raise e)
  /\ cube sec = Some c
  /\ _variables sec = Some (cube.variables c)
  /\ _x sec = Some x /\ _y sec = Some y /\ _s sec = Some s /\ _z sec = Some z
  /\ exists v, __getitem__ sec var = Return v /\ array_of v = d.
Proof.
  cbv zeta.
  assert (Hsub : cube.issubclass_BaseCube (cube.type c) = true)
    by (destruct Hcube as [-> | ->]; reflexivity).
  assert (E : connect self c = (set_cube self c, Raise (KeyError "eta"))).
  { unfold connect. rewrite Hsub. simpl.
    unfold _compute_section_coords. simpl class. rewrite Hclass. simpl.
    rewrite Heta. reflexivity. }
  rewrite E. simpl fst. simpl snd.
  split; [eexists; reflexivity | ].
  repeat (split; [first [reflexivity | assumption] | ]).
  destruct (getitem_returns (set_cube self c) var
              (c := c) (a := a) (x := x) (y := y) (s := s) (z := z) (d := d))
    as [v [Hget [Harr _]]]; try assumption; try reflexivity.
  exists v. split; assumption.
Qed.

Lemma failed_connect_keeps_coordinates_witness :
  let other : cube.t PrimFloat.float :=
    {| cube.type := cube.DataCube;
       cube.variables := ["depth"]%string;
       cube.getitem := fun var => if String.eqb var "depth"
                                  then Some (Demo.grid Demo.num 1 3 4) else None;
       cube.z := [Demo.num 0];
       cube._knows_stratigraphy := false;
       cube.strat_attr_psvd_idx := cube.strat_attr_psvd_idx Demo.rcm8;
       cube.strat_attr_section := fun _ _ => Demo.no_stratigraphy |} in
  let first := fst (connect (unconnected (StrikeSection 1)) Demo.rcm8) in
  (exists e, snd (connect first other) = Raise e)
  /\ cube (fst (connect first other)) = Some other
  /\ exists v, __getitem__ (fst (connect first other)) "depth" = Return v
               /\ array_of v = [[Demo.num 10; Demo.num 11; Demo.num 12; Demo.num 13]].
Proof.
  cbv zeta.
  match goal with
  | |- context [connect ?f ?o] =>
      pose proof (@failed_connect_keeps_coordinates PrimFloat.float _ f o 1%Z
                    "depth"%string (Demo.grid Demo.num 1 3 4)
                    [0; 1; 2; 3]%Z [1; 1; 1; 1]%Z _ _
                    [[Demo.num 10; Demo.num 11; Demo.num 12; Demo.num 13]]
                    eq_refl (or_introl eq_refl) eq_refl eq_refl eq_refl eq_refl eq_refl
                    eq_refl eq_refl) as W
  end.
  cbv zeta in W.
  destruct W as [We [Wc [_ [_ [_ [_ [_ Wv]]]]]]]; [discriminate | ].
  split; [exact We | split; [exact Wc | exact Wv]].
Defined.

(** X16.  The constructor of a path section with one argument: an argument
    that is no cube raises the type error of [connect]; every instance of a
    subclass of BaseCube is accepted, and the section is connected, with its
    trace, whatever the cube holds; but when the cube is of neither cube
    class, every extraction from the connected section raises the type error
    'Unknown Cube type'. *)
Theorem path_section_of_one_argument
    (F : Type) (ops : Float64 F) (c : cube.t F) (dt : int_dtype)
    (p : list (Z * Z)) :
  (cube.issubclass_BaseCube (cube.type c) = false ->
   PathSection.__init__ [c] dt p = Raise (TypeError ExpectedCubeSubclass))
  /\ (cube.issubclass_BaseCube (cube.type c) = true ->
      exists sec,
        PathSection.__init__ [c] dt p = Return sec
        /\ cube sec = Some c
        /\ trace sec = Return (map (fun r => (snd r, fst r)) p)
        /\ (~ recognized (cube.type c) ->
            forall var, __getitem__ sec var = Raise (TypeError UnknownCubeType))).
Proof.
  split; intros Hsub.
  - unfold PathSection.__init__, BaseSection.__init__, connect. simpl.
    rewrite Hsub. reflexivity.
  - destruct (connect_succeeds (unconnected (PathSection dt p)) c
                (map snd p) (map fst p) Hsub)
      as [sec [Hc [Hx Hy]]]; [split; reflexivity | ].
    exists sec. unfold PathSection.__init__, BaseSection.__init__. simpl.
    rewrite Hc. simpl.
    destruct (connect_returns _ _ Hc) as [_ [_ [Hcube _]]].
    split; [reflexivity | split; [exact Hcube | ]].
    split; [exact (proj1 (@path_trace _ _ (unconnected (PathSection dt p)) sec c dt p
                             eq_refl Hc)) | ].
    intros Hty var. unfold __getitem__. rewrite Hcube.
    destruct (cube.type c); try reflexivity; exfalso; apply Hty;
      [now left | now right].
Qed.

Lemma path_section_of_one_argument_witness :
  PathSection.__init__ [Demo.volume Demo.num cube.NotACube 2 3 4] int64 [(0, 1)]%Z
  = Raise (TypeError ExpectedCubeSubclass)
  /\ exists sec,
       PathSection.__init__ [Demo.volume Demo.num cube.OtherBaseCube 2 3 4] int64 [(0, 1)]%Z
       = Return sec
       /\ trace sec = Return [(1, 0)]%Z
       /\ __getitem__ sec "eta" = Raise (TypeError UnknownCubeType).
Proof.
  split.
  - exact (proj1 (@path_section_of_one_argument PrimFloat.float _
                    (Demo.volume Demo.num cube.NotACube 2 3 4) int64 [(0, 1)]%Z)
             eq_refl).
  - destruct (proj2 (@path_section_of_one_argument PrimFloat.float _
                       (Demo.volume Demo.num cube.OtherBaseCube 2 3 4) int64
                       [(0, 1)]%Z) eq_refl)
      as [sec [Hinit [_ [Htrace Hget]]]].
    exists sec. split; [exact Hinit | split; [exact Htrace | ]].
    apply Hget. intros [E | E]; discriminate.
Defined.

(** ** The content of the stratigraphy display *)

Section Dense.
Context {F : Type} `{Float64 F}.

Lemma update_nth {A : Type} (f : A -> A) (j : nat) (l : list A) (d : A) (i : nat) :
  j < length l ->
  nth i (sparse.update f j l) d = if i =? j then f (nth i l d) else nth i l d.
Proof.
  revert i j. induction l as [| a l IH]; intros i j Hj; simpl in Hj; [lia | ].
  destruct j as [| j]; destruct i as [| i]; simpl; try reflexivity.
  apply IH. lia.
Qed.

Lemma add_at_cell (dense : array2 F) (v : F) (r' c' r c n m : nat) :
  has_shape dense n m -> r' < n -> c' < m ->
  cell (sparse.add_at dense (v, (r', c'))) r c
  = if at_cell r c (r', c') then f_add (cell dense r c) v else cell dense r c.
Proof.
  intros [Hn Hm] Hr Hc. unfold cell, sparse.add_at, at_cell. simpl fst. simpl snd.
  rewrite update_nth by lia.
  rewrite (Nat.eqb_sym r' r), (Nat.eqb_sym c' c).
  destruct (Nat.eqb_spec r r') as [-> | Hne]; simpl; [ | reflexivity].
  rewrite update_nth; [reflexivity | ].
  rewrite Forall_forall in Hm. rewrite (Hm (nth r' dense [])); [exact Hc | ].
  apply nth_In. lia.
Qed.

Lemma fold_add_at_cell (entries : list (F * (nat * nat))) (dense : array2 F)
    (r c n m : nat) :
  has_shape dense n m ->
  Forall (fun e => fst (snd e) < n /\ snd (snd e) < m) entries ->
  cell (fold_left sparse.add_at entries dense) r c
  = fold_left f_add (map fst (filter (fun e => at_cell r c (snd e)) entries))
      (cell dense r c).
Proof.
  revert dense. induction entries as [| [v [r' c']] entries IH]; intros dense Hd Hin;
    [reflexivity | ].
  inversion Hin as [| ? ? [Hr Hc] Hrest]; subst. simpl in Hr, Hc.
  change (fold_left sparse.add_at ((v, (r', c')) :: entries) dense)
    with (fold_left sparse.add_at entries (sparse.add_at dense (v, (r', c')))).
  rewrite IH by (try apply add_at_shape; assumption).
  rewrite (add_at_cell v r c Hd Hr Hc).
  change (filter (fun e : F * (nat * nat) => at_cell r c (snd e)) ((v, (r', c')) :: entries))
    with (if at_cell r c (r', c')
          then (v, (r', c')) :: filter (fun e : F * (nat * nat) => at_cell r c (snd e)) entries
          else filter (fun e : F * (nat * nat) => at_cell r c (snd e)) entries).
  destruct (at_cell r c (r', c')); reflexivity.
Qed.

Lemma zeros_cell (n m r c : nat) :
  cell (repeat (repeat f_zero m) n) r c = f_zero.
Proof.
  unfold cell. destruct (Nat.lt_ge_cases r n) as [Hr | Hr].
  - rewrite (nth_indep _ [] (repeat f_zero m)) by now rewrite repeat_length.
    rewrite nth_repeat. apply nth_repeat.
  - rewrite (nth_overflow _ []) by now rewrite repeat_length.
    destruct c; reflexivity.
Qed.

Lemma list_max_ge (l : list nat) (k : nat) : In k l -> k <= list_max l.
Proof.
  intros Hk. pose proof (proj1 (list_max_le l (list_max l)) (Nat.le_refl _)) as Hall.
  rewrite Forall_forall in Hall. now apply Hall.
Qed.

Lemma toarray_cell (vals : list F) (rows cols : list nat) (r c : nat) :
  cell (sparse.toarray
          {| sparse.shape := (S (list_max rows), S (list_max cols));
             sparse.data := vals; sparse.row := rows; sparse.col := cols |}) r c
  = fold_left f_add (placed vals rows cols r c) f_zero.
Proof.
  unfold sparse.toarray, placed.
  cbn [sparse.shape sparse.data sparse.row sparse.col fst snd].
  rewrite (@fold_add_at_cell _ _ r c (S (list_max rows)) (S (list_max cols))).
  - now rewrite (zeros_cell (S (list_max rows)) (S (list_max cols)) r c).
  - split; [apply repeat_length | ].
    apply Forall_forall. intros row Hrow. apply repeat_spec in Hrow as ->.
    apply repeat_length.
  - apply Forall_forall. intros [v [r' c']] Hin. simpl.
    apply in_combine_r in Hin.
    pose proof (list_max_ge _ _ (in_combine_l _ _ _ _ Hin)).
    pose proof (list_max_ge _ _ (in_combine_r _ _ _ _ Hin)). lia.
Qed.
End Dense.

Lemma stratigraphy_display_dense (F : Type) (ops : Float64 F)
    (_data : array2 F) (s z : list F) (mask : option (array2 bool))
    (attr : strat_dict F) (idx : array2 bool) (rows cols : list nat)
    (flld : array2 F) (vals : list F) (key : string) :
  psvd_idx attr = Some idx -> z_sp attr = Some rows -> s_sp attr = Some cols ->
  psvd_flld attr = Some flld ->
  np.boolean_index _data idx = Return vals ->
  rows <> [] -> length rows = length vals -> length cols = length vals ->
  py_in key _stratigraphy_names = true ->
  get_display_arrays
    (DataVariable (DataSectionVariable.__init__ _data s z mask (Some attr))) (Some key)
  = Return (Plain (sparse.toarray
                     {| sparse.shape := (S (list_max rows), S (list_max cols));
                        sparse.data := vals; sparse.row := rows; sparse.col := cols |}),
            np.tile s (S (list_max rows)), firstn (S (list_max rows)) flld).
Proof.
  intros Hidx Hrows Hcols Hflld Hvals Hne Hlr Hlc Hkey.
  simpl get_display_arrays. unfold DataSectionVariable.get_display_arrays.
  simpl BaseSectionVariable.style_or.
  rewrite (stratigraphy_not_spacetime _ Hkey), (stratigraphy_not_preserved _ Hkey), Hkey.
  unfold DataSectionVariable.as_stratigraphy.
  cbn [DataSectionVariable._check_knows_stratigraphy DataSectionVariable.__init__
         DataSectionVariable._knows_stratigraphy DataSectionVariable.strat_attr
         DataSectionVariable.base negb bind getattr].
  rewrite Hidx. cbn [lookup_key bind]. cbn [__new__ array]. rewrite Hvals. cbn [bind].
  rewrite Hrows, Hcols. cbn [lookup_key bind].
  rewrite (coo_matrix_returns _ _ Hne Hlr Hlc). cbn [bind].
  rewrite Hflld. reflexivity.
Qed.

(** X17.  The array of the stratigraphy display, in any arithmetic: the cell
    (r, c) holds the sum, from zero and in the order of the lists, of the
    preserved values whose coordinates (z_sp[k], s_sp[k]) are (r, c); values
    that share their coordinates are added up, and a cell that is nobody's
    coordinate holds zero. *)
Theorem stratigraphy_display_cells
    (F : Type) (ops : Float64 F)
    (_data : array2 F) (s z : list F) (mask : option (array2 bool))
    (attr : strat_dict F) (idx : array2 bool) (rows cols : list nat)
    (flld : array2 F) (vals : list F) (key : string)
    (Hidx : psvd_idx attr = Some idx)
    (Hrows : z_sp attr = Some rows)
    (Hcols : s_sp attr = Some cols)
    (Hflld : psvd_flld attr = Some flld)
    (Hvals : np.boolean_index _data idx = Return vals)
    (Hne : rows <> [])
    (Hlr : length rows = length vals)
    (Hlc : length cols = length vals)
    (Hkey : py_in key _stratigraphy_names = true) :
  exists A X Y : array2 F,
    get_display_arrays
      (DataVariable (DataSectionVariable.__init__ _data s z mask (Some attr))) (Some key)
    = Return (Plain A, X, Y)
    /\ forall r c, cell A r c = fold_left f_add (placed vals rows cols r c) f_zero.
Proof.
  do 3 eexists. split.
  - eapply stratigraphy_display_dense; eassumption.
  - intros r c. apply toarray_cell.
Qed.

Lemma stratigraphy_display_cells_witness :
  exists A X Y : array2 PrimFloat.float,
    get_display_arrays
      (DataVariable
         (DataSectionVariable.__init__ [[Demo.num 1; Demo.num 2]] [Demo.num 0; Demo.num 1]
            [Demo.num 0] None
            (Some {| strata := None; psvd_idx := Some [[true; true]];
                     psvd_flld := Some [[Demo.num 0; Demo.num 0]];
                     z_sp := Some [0; 0]; s_sp := Some [1; 1] |})))
      (Some "strat"%string)
    = Return (Plain A, X, Y)
    /\ forall r c, cell A r c
                   = fold_left f_add (placed [Demo.num 1; Demo.num 2] [0; 0] [1; 1] r c)
                       f_zero.
Proof.
  apply (@stratigraphy_display_cells PrimFloat.float _ [[Demo.num 1; Demo.num 2]]
           [Demo.num 0; Demo.num 1] [Demo.num 0] None
           {| strata := None; psvd_idx := Some [[true; true]];
              psvd_flld := Some [[Demo.num 0; Demo.num 0]];
              z_sp := Some [0; 0]; s_sp := Some [1; 1] |}
           [[true; true]] [0; 0] [1; 1] [[Demo.num 0; Demo.num 0]]
           [Demo.num 1; Demo.num 2] "strat"%string);
    first [reflexivity | discriminate].
Defined.

Lemma filter_nothing {A : Type} (f : A -> bool) (l : list A) :
  (forall a, In a l -> f a = false) -> filter f l = [].
Proof.
  induction l as [| a l IH]; intros Hf; simpl; [reflexivity | ].
  rewrite (Hf a) by now left. apply IH. intros b Hb. apply Hf. now right.
Qed.

Lemma placed_single (vals : list R) (rows cols : list nat) (k : nat) :
  length rows = length vals -> length cols = length vals ->
  NoDup (combine rows cols) -> k < length vals ->
  placed vals rows cols (nth k rows 0) (nth k cols 0) = [nth k vals 0%R].
Proof.
  unfold placed. revert rows cols k.
  induction vals as [| v vals IH]; intros [| r rows] [| c cols] k Hlr Hlc Hnd Hk;
    simpl in *; try lia.
  inversion Hnd as [| ? ? Hnotin Hnd']; subst.
  destruct k as [| k].
  - unfold at_cell at 1. simpl. rewrite !Nat.eqb_refl. simpl. f_equal.
    rewrite filter_nothing; [reflexivity | ].
    intros [w [r' c']] Hin. unfold at_cell. simpl.
    destruct (Nat.eqb_spec r' r) as [-> | ]; [ | reflexivity].
    destruct (Nat.eqb_spec c' c) as [-> | ]; [ | reflexivity].
    exfalso. apply Hnotin. eapply in_combine_r. exact Hin.
  - assert (Hk' : k < length vals) by lia.
    assert (Hin : In (nth k rows 0, nth k cols 0) (combine rows cols)).
    { rewrite <- combine_nth by lia. apply nth_In. rewrite length_combine. lia. }
    replace (at_cell (nth k rows 0) (nth k cols 0) (r, c)) with false.
    + apply IH; try lia; assumption.
    + symmetry. unfold at_cell. simpl.
      destruct (Nat.eqb_spec r (nth k rows 0)) as [E1 | ]; [ | reflexivity].
      destruct (Nat.eqb_spec c (nth k cols 0)) as [E2 | ]; [ | reflexivity].
      exfalso. apply Hnotin. now rewrite E1, E2.
Qed.

Lemma placed_none (vals : list R) (rows cols : list nat) (r c : nat) :
  ~ In (r, c) (combine rows cols) -> placed vals rows cols r c = [].
Proof.
  intros Hnot. unfold placed.
  rewrite filter_nothing; [reflexivity | ].
  intros [w [r' c']] Hin. unfold at_cell. simpl.
  destruct (Nat.eqb_spec r' r) as [-> | ]; [ | reflexivity].
  destruct (Nat.eqb_spec c' c) as [-> | ]; [ | reflexivity].
  exfalso. apply Hnot. eapply in_combine_r. exact Hin.
Qed.

(** X18.  Over the real numbers, when no two preserved values share their
    coordinates, the array of the stratigraphy display holds every preserved
    value vals[k] at row z_sp[k] and column s_sp[k], and 0 in every cell that
    is no coordinate of a preserved value. *)
Theorem stratigraphy_display_places_values
    (_data : array2 R) (s z : list R) (mask : option (array2 bool))
    (attr : strat_dict R) (idx : array2 bool) (rows cols : list nat)
    (flld : array2 R) (vals : list R) (key : string)
    (Hidx : psvd_idx attr = Some idx)
    (Hrows : z_sp attr = Some rows)
    (Hcols : s_sp attr = Some cols)
    (Hflld : psvd_flld attr = Some flld)
    (Hvals : np.boolean_index _data idx = Return vals)
    (Hne : rows <> [])
    (Hlr : length rows = length vals)
    (Hlc : length cols = length vals)
    (Hdistinct : NoDup (combine rows cols))
    (Hkey : py_in key _stratigraphy_names = true) :
  exists A X Y : array2 R,
    get_display_arrays
      (DataVariable (DataSectionVariable.__init__ _data s z mask (Some attr))) (Some key)
    = Return (Plain A, X, Y)
    /\ (forall k, k < length vals ->
                  cell A (nth k rows 0) (nth k cols 0) = nth k vals 0%R)
    /\ (forall r c, ~ In (r, c) (combine rows cols) -> cell A r c = 0%R).
Proof.
  do 3 eexists. split; [ | split].
  - eapply stratigraphy_display_dense; eassumption.
  - intros k Hk. rewrite toarray_cell, (@placed_single vals rows cols k Hlr Hlc Hdistinct Hk).
    simpl. lra.
  - intros r c Hnot. rewrite toarray_cell, (@placed_none vals rows cols r c Hnot). reflexivity.
Qed.

Lemma stratigraphy_display_places_values_witness :
  exists A X Y : array2 R,
    get_display_arrays
      (DataVariable
         (DataSectionVariable.__init__ (Demo.values IZR) (Demo.along IZR) (Demo.up IZR)
            (Some Demo.preserved) (Some (Demo.attributes IZR))))
      (Some "stratigraphy"%string)
    = Return (Plain A, X, Y)
    /\ (forall k, k < 5 ->
                  cell A (nth k [0; 0; 1; 0; 1] 0) (nth k [0; 2; 0; 1; 2] 0)
                  = nth k [1; 3; 4; 5; 6]%R 0%R)
    /\ (forall r c, ~ In (r, c) (combine [0; 0; 1; 0; 1] [0; 2; 0; 1; 2]) ->
                    cell A r c = 0%R).
Proof.
  apply (@stratigraphy_display_places_values (Demo.values IZR) (Demo.along IZR)
           (Demo.up IZR) (Some Demo.preserved) (Demo.attributes IZR)
           Demo.preserved [0; 0; 1; 0; 1] [0; 2; 0; 1; 2]
           [[0; 0; 0]; [1; 0; 1]]%R [1; 3; 4; 5; 6]%R
           "stratigraphy"%string);
    try reflexivity; try discriminate.
  repeat (constructor; [simpl; intuition congruence | ]). constructor.
Defined.

(** ** Attributes that do not fit *)

Lemma coo_matrix_raises (F : Type) (ops : Float64 F) (d : list F) (r c : list nat) :
  r = [] \/ c = [] \/ length r <> length d \/ length c <> length d ->
  sparse.coo_matrix d r c = Raise (ValueError SparseDimensions).
Proof.
  intros Hbad. unfold sparse.coo_matrix.
  destruct r as [| r0 r']; [reflexivity | ].
  destruct c as [| c0 c']; [reflexivity | ].
  destruct Hbad as [E | [E | [Hne | Hne]]]; try discriminate.
  - destruct (Nat.eqb_spec (length d) (length (r0 :: r'))) as [E | _];
      [congruence | reflexivity].
  - destruct (Nat.eqb_spec (length d) (length (c0 :: c'))) as [E | _];
      [congruence | ]. now rewrite andb_false_r.
Qed.

(** X19.  A data variable that knows stratigraphy but has no preserved cell,
    or whose coordinate lists do not give one row and one column per preserved
    value, cannot be displayed as stratigraphy: the display arrays of a
    stratigraphy key raise the value error of the sparse matrix. *)
Theorem stratigraphy_display_without_coordinates
    (F : Type) (ops : Float64 F)
    (_data : array2 F) (s z : list F) (mask : option (array2 bool))
    (attr : strat_dict F) (idx : array2 bool) (rows cols : list nat)
    (vals : list F) (key : string)
    (Hidx : psvd_idx attr = Some idx)
    (Hrows : z_sp attr = Some rows)
    (Hcols : s_sp attr = Some cols)
    (Hvals : np.boolean_index _data idx = Return vals)
    (Hbad : rows = [] \/ cols = []
            \/ length rows <> length vals \/ length cols <> length vals)
    (Hkey : py_in key _stratigraphy_names = true) :
  let dv := DataSectionVariable.__init__ _data s z mask (Some attr) in
  DataSectionVariable.as_stratigraphy dv = Raise (ValueError SparseDimensions)
  /\ get_display_arrays (DataVariable dv) (Some key) = Raise (ValueError SparseDimensions).
Proof.
  cbv zeta.
  assert (E : DataSectionVariable.as_stratigraphy
                (DataSectionVariable.__init__ _data s z mask (Some attr))
              = Raise (ValueError SparseDimensions)).
  { unfold DataSectionVariable.as_stratigraphy.
    cbn [DataSectionVariable._check_knows_stratigraphy DataSectionVariable.__init__
           DataSectionVariable._knows_stratigraphy DataSectionVariable.strat_attr
           DataSectionVariable.base negb bind getattr].
    rewrite Hidx. cbn [lookup_key bind]. cbn [__new__ array]. rewrite Hvals. cbn [bind].
    rewrite Hrows, Hcols. cbn [lookup_key bind].
    now apply coo_matrix_raises. }
  split; [exact E | ].
  unfold get_display_arrays, DataSectionVariable.get_display_arrays.
  unfold BaseSectionVariable.style_or.
  rewrite (stratigraphy_not_spacetime _ Hkey), (stratigraphy_not_preserved _ Hkey), Hkey.
  now rewrite E.
Qed.

Lemma stratigraphy_display_without_coordinates_witness :
  get_display_arrays
    (DataVariable
       (DataSectionVariable.__init__ [[Demo.num 1; Demo.num 2]] [Demo.num 0; Demo.num 1]
          [Demo.num 0] None
          (Some {| strata := None; psvd_idx := Some [[false; false]];
                   psvd_flld := Some [[Demo.num 0; Demo.num 0]];
                   z_sp := Some []; s_sp := Some [] |})))
    (Some "stratigraphy"%string)
  = Raise (ValueError SparseDimensions).
Proof.
  refine (proj2 (@stratigraphy_display_without_coordinates PrimFloat.float _
                   [[Demo.num 1; Demo.num 2]] [Demo.num 0; Demo.num 1] [Demo.num 0] None
                   {| strata := None; psvd_idx := Some [[false; false]];
                      psvd_flld := Some [[Demo.num 0; Demo.num 0]];
                      z_sp := Some []; s_sp := Some [] |}
                   [[false; false]] [] [] [] "stratigraphy"%string
                   eq_refl eq_refl eq_refl eq_refl (or_introl eq_refl) eq_refl)).
Defined.

(** X20.  Every dictionary given as [_strat_attr] makes the variable know
    stratigraphy, also one without keys: the capability check passes, and the
    stratigraphy views raise the key error of the missing key instead, psvd_idx
    for the display arrays and strata for the display lines and limits. *)
Theorem stratigraphy_with_missing_keys
    (F : Type) (ops : Float64 F)
    (_data : array2 F) (s z : list F) (mask : option (array2 bool))
    (attr : strat_dict F) (key : string)
    (Hidx : psvd_idx attr = None)
    (Hstrata : strata attr = None)
    (Hkey : py_in key _stratigraphy_names = true) :
  let dv := DataSectionVariable.__init__ _data s z mask (Some attr) in
  DataSectionVariable.knows_stratigraphy dv = true
  /\ DataSectionVariable._check_knows_stratigraphy dv = Return true
  /\ DataSectionVariable.as_stratigraphy dv = Raise (KeyError "psvd_idx")
  /\ get_display_arrays (DataVariable dv) (Some key) = Raise (KeyError "psvd_idx")
  /\ get_display_lines (DataVariable dv) (Some key) = Raise (KeyError "strata")
  /\ get_display_limits (DataVariable dv) (Some key) = Raise (KeyError "strata").
Proof.
  cbv zeta. simpl get_display_arrays. simpl get_display_lines. simpl get_display_limits.
  unfold DataSectionVariable.get_display_arrays, DataSectionVariable.get_display_lines,
    DataSectionVariable.get_display_limits, DataSectionVariable.as_stratigraphy.
  simpl BaseSectionVariable.style_or.
  rewrite (stratigraphy_not_spacetime _ Hkey), (stratigraphy_not_preserved _ Hkey), Hkey.
  simpl. rewrite Hidx, Hstrata. repeat split.
Qed.

Lemma stratigraphy_with_missing_keys_witness :
  DataSectionVariable.knows_stratigraphy
    (DataSectionVariable.__init__ (Demo.values Demo.num) (Demo.along Demo.num)
       (Demo.up Demo.num) None (Some Demo.no_stratigraphy)) = true
  /\ get_display_arrays
       (DataVariable
          (DataSectionVariable.__init__ (Demo.values Demo.num) (Demo.along Demo.num)
             (Demo.up Demo.num) None (Some Demo.no_stratigraphy)))
       (Some "strat"%string)
     = Raise (KeyError "psvd_idx").
Proof.
  pose proof (@stratigraphy_with_missing_keys PrimFloat.float _ (Demo.values Demo.num)
                (Demo.along Demo.num) (Demo.up Demo.num) None Demo.no_stratigraphy
                "strat"%string eq_refl eq_refl eq_refl) as W.
  cbv zeta in W. destruct W as [W1 [_ [_ [W4 _]]]].
  split; [exact W1 | exact W4].
Defined.

(** ** Rendering *)

Section ShowProperties.
Context {F V : Type} `{Float64 F}.
Context (varinfo_label : V -> string).
Context (cube_varset : cube.t F -> string -> outcome V).
Context (default_varset : string -> outcome V).

Lemma flatten_flip2 {A : Type} (a : array2 A) : np.flatten (flip2 a) = rev (np.flatten a).
Proof.
  unfold np.flatten, flip2. induction a as [| row a IH]; [reflexivity | ].
  simpl. rewrite map_app, concat_app, IH, rev_app_distr. simpl.
  now rewrite app_nil_r.
Qed.

Lemma combine_rev {A B : Type} (l : list A) (r : list B) :
  length l = length r -> combine (rev l) (rev r) = rev (combine l r).
Proof.
  revert r. induction l as [| a l IH]; intros [| b r] Hlen; simpl in *;
    try discriminate; [reflexivity | ].
  rewrite combine_app by (rewrite !length_rev; lia).
  rewrite IH by lia. reflexivity.
Qed.
End ShowProperties.

(** X21.  [show] extracts the variable before it looks at its plot style, and
    draws nothing when it fails early: for a name whose display metadata are
    registered, on a section without cube it raises 'No cube connected'
    whatever the styles are, and on a plot style that is none of shade,
    shaded, line and lines it raises its value error after a successful
    extraction, without a call to the rendering surface. *)
Theorem show_fails_before_drawing
    (F V : Type) (ops : Float64 F)
    (varinfo_label : V -> string)
    (cube_varset : cube.t F -> string -> outcome V)
    (default_varset : string -> outcome V)
    (self : t F) (name style bad : string) (display_array_style : option string)
    (label : label_argument) (info info' : V) (v : SectionVariable F)
    (Hdefault : default_varset name = Return info)
    (Hinfo : varinfo_of cube_varset default_varset self name = Return info')
    (Hvariable : __getitem__ self name = Return v)
    (Hbad : py_in bad ["shade"; "shaded"; "line"; "lines"]%string = false) :
  show varinfo_label cube_varset default_varset
    (unconnected (class self)) name style display_array_style label
  = ([], ShowRaises (AttributeError NoCubeConnected))
  /\ show varinfo_label cube_varset default_varset
       self name bad display_array_style label
     = ([], BadPlotStyle bad).
Proof.
  split.
  - unfold show, varinfo_of. simpl. rewrite Hdefault. reflexivity.
  - unfold show. rewrite Hinfo, Hvariable. cbn [then_show].
    change ["shade"; "shaded"; "line"; "lines"]%string
      with (["shade"; "shaded"]%string ++ ["line"; "lines"]%string) in Hbad.
    rewrite py_in_app in Hbad. apply orb_false_elim in Hbad as [Hshade Hline].
    rewrite Hshade, Hline. reflexivity.
Qed.

Lemma show_fails_before_drawing_witness :
  let registry := fun (_ : cube.t PrimFloat.float) (name : string) => Return name in
  let default := fun name : string => Return name in
  let sec := fst (connect (unconnected (StrikeSection 1)) Demo.rcm8) in
  show (fun l : string => l) registry default
    (unconnected (StrikeSection 1)) "eta" "mesh" None LabelTrue
  = ([], ShowRaises (AttributeError NoCubeConnected))
  /\ show (fun l : string => l) registry default sec "eta" "mesh" None LabelTrue
     = ([], BadPlotStyle "mesh").
Proof.
  cbv zeta.
  set (sec := fst (connect (unconnected (StrikeSection 1)) Demo.rcm8)).
  destruct (__getitem__ sec "eta") as [v | e | ] eqn:Hv;
    [ | vm_compute in Hv; discriminate | vm_compute in Hv; discriminate].
  exact (@show_fails_before_drawing PrimFloat.float string _ (fun l => l)
           (fun _ name => Return name) (fun name => Return name)
           sec "eta"%string "mesh"%string "mesh"%string None LabelTrue
           "eta"%string "eta"%string v eq_refl eq_refl Hv eq_refl).
Defined.

(** X22.  With the style lines and a stratigraphy display key, [show] hands
    the segments and the values of an unmasked variable to the line
    collection in reverse order, both of them: when there is one value per
    segment, the pairs of a segment and its value are the same, in reverse
    order, so a segment keeps the value of its own left cell.  On any other
    display style, and without one, nothing is reversed. *)
Theorem show_lines_keep_their_values
    (F V : Type) (ops : Float64 F)
    (varinfo_label : V -> string)
    (cube_varset : cube.t F -> string -> outcome V)
    (default_varset : string -> outcome V)
    (self : t F) (name style : string) (display_array_style : option string)
    (label : label_argument) (info : V) (v : SectionVariable F)
    (d : array2 F) (segments : list (segment F))
    (Hinfo : varinfo_of cube_varset default_varset self name = Return info)
    (Hvariable : __getitem__ self name = Return v)
    (Hlines : get_display_lines v display_array_style = Return (Plain d, segments))
    (Hcount : length (np.flatten d) = length segments)
    (Hstyle : py_in style ["line"; "lines"]%string = true) :
  let drawn_segments :=
    if in_stratigraphy_names display_array_style then rev segments else segments in
  let drawn_values :=
    if in_stratigraphy_names display_array_style
    then rev (np.flatten d) else np.flatten d in
  show varinfo_label cube_varset default_varset self name style display_array_style label
  = after [add_collection drawn_segments (FlatPlain drawn_values) (125, -2)%Z info;
           append_colorbar]
      (label_and_limits varinfo_label v info display_array_style label)
  /\ combine drawn_segments drawn_values
     = (if in_stratigraphy_names display_array_style
        then rev (combine segments (np.flatten d))
        else combine segments (np.flatten d)).
Proof.
  cbv zeta. split.
  - unfold show. rewrite Hinfo, Hvariable. cbn [then_show].
    assert (Hshade : py_in style ["shade"; "shaded"]%string = false).
    { apply py_in_In in Hstyle. simpl in Hstyle.
      destruct Hstyle as [<- | [<- | []]]; reflexivity. }
    rewrite Hshade, Hstyle, Hlines. cbn [then_show].
    destruct (in_stratigraphy_names display_array_style);
      cbn [flip flatten_display]; [rewrite flatten_flip2 | ]; reflexivity.
  - destruct (in_stratigraphy_names display_array_style); [ | reflexivity].
    apply combine_rev. now rewrite Hcount.
Qed.

Lemma show_lines_keep_their_values_witness :
  let registry := fun (_ : cube.t PrimFloat.float) (name : string) => Return name in
  let default := fun name : string => Return name in
  let sec := fst (connect (unconnected (StrikeSection 1)) knowing_volume) in
  exists d segments rest,
    (v <- __getitem__ sec "velocity" ;; get_display_lines v (Some "strata"%string))
    = Return (Plain d, segments)
    /\ fst (show (fun l : string => l) registry default sec "velocity" "lines"
              (Some "strata"%string) LabelFalse)
       = add_collection (rev segments) (FlatPlain (rev (np.flatten d))) (125, -2)%Z
           "velocity"%string :: append_colorbar :: rest.
Proof.
  cbv zeta.
  set (sec := fst (connect (unconnected (StrikeSection 1)) knowing_volume)).
  destruct (__getitem__ sec "velocity") as [v | e | ] eqn:Hv;
    [ | vm_compute in Hv; discriminate | vm_compute in Hv; discriminate].
  simpl bind.
  destruct (get_display_lines v (Some "strata"%string)) as [[[d | m] segments] | e | ]
    eqn:Hl.
  2-4: exfalso; revert Hl; vm_compute in Hv; injection Hv as <-; vm_compute; discriminate.
  assert (Hcount : length (np.flatten d) = length segments).
  { revert Hl. vm_compute in Hv. injection Hv as <-. vm_compute.
    intros E. injection E as <- <-. reflexivity. }
  destruct (@show_lines_keep_their_values PrimFloat.float string _ (fun l => l)
              (fun _ name => Return name) (fun name => Return name)
              sec "velocity"%string "lines"%string (Some "strata"%string) LabelFalse
              "velocity"%string v d segments eq_refl Hv Hl Hcount eq_refl) as [W _].
  exists d, segments. eexists. split; [reflexivity | ].
  cbv zeta in W. rewrite W. reflexivity.
Defined.



(** X24.  The default picture of a variable of a data cube.  For a connected
    section of at least one point, none of whose squared distances between
    consecutive points exceeds the largest value of the integer dtype of x
    and y, on a cube with at least one layer, a variable whose slice [d] at
    the footprint exists and whose display metadata are registered, [show]
    with the style shade or shaded and the spacetime display (the default)
    returns after these calls, in this order:
    the mesh of [d] over the meshes of s and z, the colour bar, the label if
    one is asked for, the horizontal limits 0 and the total length of the
    section, and the vertical limits, the least and the greatest entry of
    z. *)
Theorem show_of_data_cube
    (V : Type) (varinfo_label : V -> string)
    (cube_varset : cube.t R -> string -> outcome V)
    (default_varset : string -> outcome V)
    (self sec : t R) (c : cube.t R) (var style : string)
    (display_array_style : option string) (label : label_argument) (info : V)
    (a : array3 R) (x y : list Z) (d : array2 R) (s : list R)
    (Hconnect : connect self c = (sec, Return tt))
    (Hdata : cube.type c = cube.DataCube)
    (Hinfo : cube_varset c var = Return info)
    (Hvar : cube.getitem c var = Some a)
    (Hx : _x sec = Some x) (Hy : _y sec = Some y) (Hs : _s sec = Some s)
    (Hslice : np.take a y x = Return d)
    (Hpsvd : cube._knows_stratigraphy c = true ->
             shape3 (cube.strat_attr_psvd_idx c) = shape3 a)
    (HM : 1 <= length x)
    (Hfit : squares_fit (coords_dtype (class sec)) x y)
    (Hz : cube.z c <> [])
    (Hstyle : py_in style ["shade"; "shaded"]%string = true)
    (Hkey : py_in (style_or DataSectionVariable._default_style display_array_style)
              _spacetime_names = true) :
  exists z_min z_max : R,
    show varinfo_label cube_varset default_varset sec var style display_array_style label
    = ([pcolormesh (fst (np.meshgrid s (cube.z c))) (snd (np.meshgrid s (cube.z c)))
          (Plain d) info;
        append_colorbar]
       ++ label_text varinfo_label info label
       ++ [set_xlim 0%R (nth (length x - 1) s 0%R); set_ylim z_min z_max],
       Shown)
    /\ is_minimum z_min [cube.z c]
    /\ is_maximum z_max [cube.z c].
Proof.
  destruct (connect_returns _ _ Hconnect)
    as [_ [Hcls [Hc [_ [Hzs [x' [y' [Hx' [Hy' [Hxy Hs']]]]]]]]]].
  rewrite Hx in Hx'. injection Hx' as <-. rewrite Hy in Hy'. injection Hy' as <-.
  rewrite Hcls in Hfit.
  assert (Es : s = np.cumsum (np.hstack0
                      (np.sqrt (coords_dtype (class self))
                         (squared_steps (coords_dtype (class self)) x y))))
    by congruence.
  pose proof (coords_of_length _ _ _ _ Hxy) as Hlen.
  pose proof (along_is_cumulative_distance Hlen HM Hfit) as Hcd. rewrite <- Es in Hcd.
  destruct (cumulative_distance_bounds HM Hcd) as [Hsmin Hsmax].
  assert (Hsne : s <> []).
  { destruct Hcd as [Hl _]. destruct s; [simpl in Hl; lia | discriminate]. }
  assert (Hflat : np.flatten [cube.z c] <> []).
  { unfold np.flatten. simpl. rewrite app_nil_r. exact Hz. }
  destruct (amin_is_minimum _ Hflat) as [z_min [_ Hzmin]].
  destruct (amax_is_maximum _ Hflat) as [z_max [_ Hzmax]].
  destruct (getitem_data sec var Hc Hdata Hvar Hx Hy Hs Hzs Hslice Hpsvd)
    as [dv [Hget [Hbase _]]].
  exists z_min, z_max. split; [ | split; assumption].
  unfold show, varinfo_of. rewrite Hc, Hdata. simpl cube.issubclass_BaseCube.
  cbv iota. rewrite Hinfo, Hget. cbn [then_show]. rewrite Hstyle.
  simpl get_display_arrays. unfold DataSectionVariable.get_display_arrays.
  cbv zeta. rewrite Hkey. cbn [then_show].
  unfold label_and_limits. simpl get_display_limits.
  unfold DataSectionVariable.get_display_limits. cbv zeta. rewrite Hkey.
  cbn [orb]. fold (mesh_limits (DataSectionVariable.base dv)).
  rewrite Hbase.
  change (mesh_limits (__new__ d s (cube.z c) (_psvd_mask (DataSectionVariable.base dv))))
    with (mesh_limits (__new__ (F := R) [] s (cube.z c) None)).
  rewrite (mesh_limits_of_coordinates Hsne Hz Hsmin Hsmax Hzmin Hzmax).
  reflexivity.
Qed.

Lemma show_of_data_cube_witness :
  let registry := fun (_ : cube.t R) (name : string) => Return name in
  let default := fun name : string => Return name in
  let sec := fst (connect (unconnected (PathSection int64 [(0, 0); (0, 3); (4, 3)]%Z))
                          (Demo.real_volume 2 5 5)) in
  exists (s : list R) (S Zm : array2 R) (d : array2 R) (z_min z_max : R),
    _s sec = Some s
    /\ show (fun l : string => l) registry default sec "eta" "shaded" None LabelTrue
       = ([pcolormesh S Zm (Plain d) "eta"%string; append_colorbar;
           text (99, -2)%Z (8, -1)%Z "eta"%string 8;
           set_xlim 0%R (nth 2 s 0%R); set_ylim z_min z_max], Shown).
Proof.
  cbv zeta.
  set (self := unconnected (PathSection int64 [(0, 0); (0, 3); (4, 3)]%Z)).
  set (vol := Demo.real_volume 2 5 5).
  destruct (@show_of_data_cube string (fun l => l)
              (fun _ name => Return name) (fun name => Return name)
              self (fst (connect self vol)) vol
              "eta"%string "shaded"%string None LabelTrue "eta"%string
              (Demo.grid IZR 2 5 5) [0; 3; 3]%Z [0; 0; 4]%Z _ _
              eq_refl eq_refl eq_refl eq_refl eq_refl eq_refl eq_refl eq_refl)
    as [z_min [z_max [E _]]].
  - discriminate.
  - simpl. lia.
  - each_square_fits.
  - discriminate.
  - reflexivity.
  - reflexivity.
  - do 6 eexists. split; [reflexivity | exact E].
Defined.
